(** * php-cs-fixer-lsp-vscode: binary acquisition and server lifecycle

    A shallow embedding of the extension's TypeScript sources:

    - [Utils]      the helper module imported as './utils'
                   (fetchLatestReleaseAsset, fetchJson, download,
                   fileExists, readJson, errorText);
    - [Extension]  the class [PhpCsFixerExtension] (startServer, stopServer,
                   restartServer, downloadServer, resolveServerExec,
                   downloadServerExec and the client options it builds);
    - [Standalone] the self-contained extension file with module-level
                   state (ensureDownloadedBinary, fetchLatestRelease,
                   getJson, downloadBinary, downloadToFile, fileExists,
                   readMeta and its formatting middleware).

    Asynchronous code is sequential ([await] everywhere), so a promise is
    modelled as a computation over an explicit program state that settles
    with a value, settles with a thrown value, or does not settle within
    the given number of redirect hops.  The host (network, faults of the
    file system, clock, language client library, configuration) is an
    explicit environment. *)

From Stdlib Require Import ZArith Lia Ascii.
From stdpp Require Import gmap strings list pretty.


(** ** JavaScript values that the code throws and inspects *)

(** A thrown value: an [Error] instance with its [message] and [stack]
    properties, or any other value, kept as the text [String(value)]. *)
Inductive JsError : Type :=
| ErrorObj (message : string) (stack : option string)
| Thrown (text : string).

(** [new Error(message)].  The stack capture of the engine is not modelled:
    the object carries no [stack]. *)
Definition new_Error (message : string) : JsError := ErrorObj message None.

(** [error instanceof Error ? error.message : String(error)] *)
Definition errorMessage (error : JsError) : string :=
  match error with
  | ErrorObj message _ => message
  | Thrown text => text
  end.

(** Truthiness of an optional number and of an optional string. *)
Definition truthy_num (n : option Z) : bool :=
  match n with
  | Some z => negb (Z.eqb z 0)
  | None => false
  end.

Definition truthy_str (s : option string) : bool :=
  match s with
  | Some EmptyString => false
  | Some _ => true
  | None => false
  end.

(** A template-literal hole holding [number | undefined]. *)
Definition show_status (n : option Z) : string :=
  match n with
  | Some z => pretty z
  | None => "undefined"
  end.

(** ** Data model *)

(** The GitHub release document, as the interface [GitHubRelease] types it. *)
Record AssetItem : Type := {
  name : string;
  browser_download_url : string
}.

Record GitHubRelease : Type := {
  tag_name : string;
  assets : option (list AssetItem)
}.

(** interface ExecMeta: the sidecar metadata. *)
Record ExecMeta : Type := {
  meta_tag : string;
  downloadedAt : string
}.

(** What a file holds: the bytes piped into it, or the text
    [JSON.stringify(meta, null, 2)] of a metadata record, kept symbolically
    (it parses back to [meta]; piped bytes are not taken to parse). *)
Inductive Content : Type :=
| Bytes (data : string)
| MetaDoc (meta : ExecMeta).

(** A file: its content, its permission bits, and whether the write stream
    that produced it has finished and been closed ([closed = false] is a
    file that is still being, or was only partly, written). *)
Record File : Type := {
  content : Content;
  mode : Z;
  closed : bool
}.

(** An HTTP response as the callbacks see it: [res.statusCode],
    [res.headers.location], the numeric value of the content-length header
    ([Number(headers['content-length'] ?? 0)], with [None] when absent),
    the body chunks in arrival order, and what [JSON.parse] makes of the
    whole body (a thrown value or a document). *)
Record Response : Type := {
  statusCode : option Z;
  location : option string;
  contentLength : option Z;
  chunks : list string;
  parsed : JsError + GitHubRelease
}.

(** The request either emits 'error' or yields a response. *)
Inductive Reply : Type :=
| ConnError (error : JsError)
| Answer (res : Response).

Definition Headers : Type := list (string * string).

(** How an awaited call on the language client settles: the number of close
    notifications delivered to the error handler while it is pending, and
    the value it rejects with, if any. *)
Record Settle : Type := {
  closes : nat;
  rejects : option JsError
}.

(** vscode-languageclient's [CloseAction], and what the [closed] handler
    returns. *)
Inductive CloseAction : Type := DoNotRestart | Restart.

Record CloseHandlerResult : Type := {
  action : CloseAction;
  handled : bool
}.

(** What an update sent to the progress sink was computed from. *)
Inductive ProgressUpdate : Type :=
| Message (text : string)
| Advance (delta received total : Z).

(** Effects on the host, in program order. *)
Inductive Event : Type :=
| EvRequest (target : string) (headers : Headers)
| EvMkdir (dir : string)
| EvCreateWriteStream (path : string)
| EvRename (src dst : string)
| EvChmod (path : string) (bits : Z)
| EvWriteFile (path : string)
| EvWithProgress (title : string)
| EvProgress (update : ProgressUpdate)
| EvAppendLine (line : string)
| EvShowInformation (text : string)
| EvShowError (text : string)
| EvSetRestarting (flag : bool)
| EvNewClient (id : nat) (command : string) (args : list string)
| EvStart (id : nat)
| EvStop (id : nat) (timeout : Z)
| EvDispose (id : nat)
| EvClosed (id : nat) (result : CloseHandlerResult).

(** The host environment. *)
Record Env : Type := {
  (** the HTTPS endpoint behind each URL *)
  net : string -> Headers -> Reply;
  (** a write stream on this path fails after that many chunks *)
  writeFault : string -> option (nat * JsError);
  (** the error with which [chmod] on this path is refused although the
      file exists (EPERM, EROFS, ...), if it is refused *)
  chmodRefused : string -> option JsError;
  (** [new Date().toISOString()] *)
  now : string;
  (** [context.globalStorageUri.fsPath] *)
  globalStoragePath : string;
  (** configuration values [serverExec] and [serverArgs] *)
  cfg_serverExec : string;
  cfg_serverArgs : list string;
  (** how [client.stop] and [client.dispose] settle *)
  stopSettles : nat -> Settle;
  disposeSettles : nat -> Settle
}.

(** The program state: the filesystem, the host effects so far, and the
    fields [client], [restarting] (and the module-level [outputChannel] of
    the standalone file). *)
Record State : Type := {
  files : gmap string File;
  events : list Event;
  client : option nat;
  restarting : bool;
  fresh : nat;
  outputChannel : bool
}.

Definition with_files (fs : gmap string File) (s : State) : State :=
  {| files := fs; events := events s; client := client s;
     restarting := restarting s; fresh := fresh s;
     outputChannel := outputChannel s |}.

Definition emit (e : Event) (s : State) : State :=
  {| files := files s; events := events s ++ [e]; client := client s;
     restarting := restarting s; fresh := fresh s;
     outputChannel := outputChannel s |}.

Definition with_client (c : option nat) (s : State) : State :=
  {| files := files s; events := events s; client := c;
     restarting := restarting s; fresh := fresh s;
     outputChannel := outputChannel s |}.

Definition with_restarting (b : bool) (s : State) : State :=
  {| files := files s; events := events s; client := client s;
     restarting := b; fresh := fresh s;
     outputChannel := outputChannel s |}.

Definition with_fresh (n : nat) (s : State) : State :=
  {| files := files s; events := events s; client := client s;
     restarting := restarting s; fresh := n;
     outputChannel := outputChannel s |}.

Definition with_outputChannel (b : bool) (s : State) : State :=
  {| files := files s; events := events s; client := client s;
     restarting := restarting s; fresh := fresh s;
     outputChannel := b |}.

(** ** Promises *)

(** How an awaited promise ends: resolved with a value, rejected with a
    thrown value, or not settled within the requests it was allowed. *)
Inductive Outcome (A : Type) : Type :=
| Ok (value : A)
| Throw (error : JsError)
| Unsettled.

Arguments Ok {A} value.
Arguments Throw {A} error.
Arguments Unsettled {A}.

(** An [async] function body: it reads the host, threads the state and
    ends as an [Outcome]. *)
Definition Async (A : Type) : Type := Env -> State -> Outcome A * State.

Definition ret {A} (a : A) : Async A := fun _ s => (Ok a, s).

Definition throw {A} (e : JsError) : Async A := fun _ s => (Throw e, s).

Definition unsettled {A} : Async A := fun _ s => (Unsettled, s).

Definition bind {A B} (m : Async A) (k : A -> Async B) : Async B :=
  fun env s =>
    match m env s with
    | (Ok a, s') => k a env s'
    | (Throw e, s') => (Throw e, s')
    | (Unsettled, s') => (Unsettled, s')
    end.

(** [try { body } catch (error) { handler }] *)
Definition try_catch {A} (body : Async A) (handler : JsError -> Async A)
  : Async A :=
  fun env s =>
    match body env s with
    | (Throw e, s') => handler e env s'
    | settled => settled
    end.

Notation "'let*' x ':=' m 'in' k" := (bind m (fun x => k))
  (at level 10, x name, m at level 100, k at level 200).
Notation "m ';;' k" := (bind m (fun _ => k))
  (at level 100, k at level 200, right associativity).

Definition ask : Async Env := fun env s => (Ok env, s).
Definition get : Async State := fun _ s => (Ok s, s).
Definition modify (f : State -> State) : Async unit :=
  fun _ s => (Ok tt, f s).
Definition effect (e : Event) : Async unit := modify (emit e).

(** ** Host primitives *)

(** [https.get(url, { headers }, callback).on('error', reject)] *)
Definition https_get (target : string) (headers : Headers) : Async Reply :=
  effect (EvRequest target headers);;
  let* env := ask in
  ret (net env target headers).

(** Permission bits of a newly created file (the default creation mode;
    the process umask is not modelled). *)
Definition creation_mode : Z := 438.

Definition mode_of (f : option File) : Z :=
  match f with
  | Some old => mode old
  | None => creation_mode
  end.

(** [fs.createWriteStream(path)]: creates or truncates the file. *)
Definition createWriteStream (path : string) : Async unit :=
  effect (EvCreateWriteStream path);;
  modify (fun s =>
    with_files (<[path := {| content := Bytes EmptyString;
                             mode := mode_of (files s !! path);
                             closed := false |}]> (files s)) s).

(** One chunk arriving through [res.pipe(file)]. *)
Definition write_chunk (path chunk : string) : Async unit :=
  modify (fun s =>
    match files s !! path with
    | Some {| content := Bytes data; mode := m; closed := c |} =>
        with_files (<[path := {| content := Bytes (data +:+ chunk);
                                 mode := m; closed := c |}]> (files s)) s
    | _ => s
    end).

(** ['finish'] followed by a successful [file.close]. *)
Definition close_stream (path : string) : Async unit :=
  modify (fun s =>
    match files s !! path with
    | Some f =>
        with_files (<[path := {| content := content f; mode := mode f;
                                 closed := true |}]> (files s)) s
    | None => s
    end).

(** [access(path, constants.F_OK)] succeeds. *)
Definition path_exists (path : string) : Async bool :=
  let* s := get in
  ret (bool_decide (is_Some (files s !! path))).

(** [mkdir(dir, { recursive: true })].  Directories are not part of the
    file map; the call is recorded. *)
Definition mkdir (dir : string) : Async unit := effect (EvMkdir dir).

Definition ENOENT (syscall path : string) : JsError :=
  new_Error ("ENOENT: no such file or directory, " +:+ syscall +:+ " " +:+ path).

(** [rename(src, dst)]: atomically replaces [dst]. *)
Definition rename (src dst : string) : Async unit :=
  let* s := get in
  match files s !! src with
  | None => throw (ENOENT "rename" src)
  | Some f =>
      effect (EvRename src dst);;
      modify (fun s => with_files (<[dst := f]> (delete src (files s))) s)
  end.

(** [chmod(path, bits)]: rejects when the file is missing, and when the
    host refuses to change the mode of the file that is there. *)
Definition chmod (path : string) (bits : Z) : Async unit :=
  let* env := ask in
  let* s := get in
  match files s !! path with
  | None => throw (ENOENT "chmod" path)
  | Some f =>
      match chmodRefused env path with
      | Some error => throw error
      | None =>
          effect (EvChmod path bits);;
          modify (fun s =>
            with_files (<[path := {| content := content f; mode := bits;
                                     closed := closed f |}]> (files s)) s)
      end
  end.

(** [writeFile(path, JSON.stringify(meta, null, 2), 'utf8')] *)
Definition writeFile_meta (path : string) (meta : ExecMeta) : Async unit :=
  effect (EvWriteFile path);;
  modify (fun s =>
    with_files (<[path := {| content := MetaDoc meta;
                             mode := mode_of (files s !! path);
                             closed := true |}]> (files s)) s).

(** [restarting = flag], recorded among the effects. *)
Definition assign_restarting (flag : bool) : Async unit :=
  effect (EvSetRestarting flag);;
  modify (with_restarting flag).

(** Close notifications reaching the client's [closed] handler while a call
    on the client is awaited: each is answered by the handler in the state
    of that moment. *)
Fixpoint deliver_closes (handler : State -> CloseHandlerResult) (id : nat)
    (n : nat) : Async unit :=
  match n with
  | O => ret tt
  | S n' =>
      let* s := get in
      effect (EvClosed id (handler s));;
      deliver_closes handler id n'
  end.

(** An awaited call on client [id] settling as [how] says. *)
Definition settle (handler : State -> CloseHandlerResult) (id : nat)
    (how : Settle) : Async unit :=
  deliver_closes handler id (closes how);;
  match rejects how with
  | Some error => throw error
  | None => ret tt
  end.

(** [path.join(dir, leaf)] for an already normalised [dir] and a plain file
    name (POSIX separator; normalisation is not modelled). *)
Definition join (dir leaf : string) : string := dir +:+ "/" +:+ leaf.

(** The redirect test shared by every fetcher:
    [statusCode && statusCode >= 300 && statusCode < 400 && headers.location].
    It yields the location to follow when the test passes. *)
Definition redirect_target (res : Response) : option string :=
  match statusCode res, location res with
  | Some code, Some target =>
      if truthy_num (Some code) && (300 <=? code)%Z && (code <? 400)%Z
         && truthy_str (Some target)
      then Some target
      else None
  | _, _ => None
  end.

(** [statusCode !== 200] *)
Definition not_200 (res : Response) : bool :=
  negb (bool_decide (statusCode res = Some 200%Z)).

(** [Number(headers['content-length'] ?? 0)] *)
Definition total_of (res : Response) : Z := default 0%Z (contentLength res).

(** The fault budget of a write stream after one more chunk. *)
Definition after_chunk (fault : option (nat * JsError))
  : option (nat * JsError) :=
  match fault with
  | Some (S n, e) => Some (n, e)
  | other => other
  end.

(** ** utils.ts *)
Module Utils.

Definition USER_AGENT : string := "php-cs-fixer-lsp-vscode".

(** interface Asset *)
Record Asset : Type := {
  tag : string;
  url : string
}.

Definition jsonHeaders : Headers :=
  [("user-agent", USER_AGENT); ("accept", "application/vnd.github+json")].

Definition downloadHeaders : Headers := [("user-agent", USER_AGENT)].

(** fetchJson, at the type of its one use, [GitHubRelease].  [fuel] bounds
    the number of requests: the source has no bound on the redirects it
    follows. *)
Fixpoint fetchJson (fuel : nat) (target : string) : Async GitHubRelease :=
  match fuel with
  | O => unsettled
  | S hops =>
      let* reply := https_get target jsonHeaders in
      match reply with
      | ConnError error => throw error
      | Answer res =>
          match redirect_target res with
          | Some next => fetchJson hops next
          | None =>
              if not_200 res then
                throw (new_Error ("GitHub API responded with status "
                                  +:+ show_status (statusCode res)))
              else
                match parsed res with
                | inl error => throw error
                | inr value => ret value
                end
          end
      end
  end.

(** The closure [report] of download. *)
Definition report (progress : bool) (total received delta : Z)
  : Async Z :=
  if negb progress || (total =? 0)%Z then ret received
  else
    let received' := (received + delta)%Z in
    effect (EvProgress (Advance delta received' total));;
    ret received'.

(** [res.pipe(file)] with the 'data' listener, up to 'finish' (resolve)
    or the stream's 'error' (reject). *)
Fixpoint pipe (path : string) (progress : bool) (total received : Z)
    (fault : option (nat * JsError)) (body : list string) : Async unit :=
  match fault with
  | Some (O, error) => throw error
  | _ =>
      match body with
      | [] => close_stream path
      | chunk :: rest =>
          write_chunk path chunk;;
          let* received' :=
            report progress total received (Z.of_nat (String.length chunk)) in
          pipe path progress total received' (after_chunk fault) rest
      end
  end.

Fixpoint download (fuel : nat) (target path : string) (progress : bool)
  : Async unit :=
  match fuel with
  | O => unsettled
  | S hops =>
      let* reply := https_get target downloadHeaders in
      match reply with
      | ConnError error => throw error
      | Answer res =>
          match redirect_target res with
          | Some next => download hops next path progress
          | None =>
              if not_200 res then
                throw (new_Error ("Download failed with status "
                                  +:+ show_status (statusCode res)))
              else
                (if progress
                 then effect (EvProgress (Message "Starting..."))
                 else ret tt);;
                createWriteStream path;;
                let* env := ask in
                pipe path progress (total_of res) 0 (writeFault env path)
                     (chunks res)
          end
      end
  end.

Definition fileExists (path : string) : Async bool := path_exists path.

(** readJson: a missing file or a parse failure gives [undefined]. *)
Definition readJson (path : string) : Async (option ExecMeta) :=
  let* s := get in
  ret (match files s !! path with
       | Some {| content := MetaDoc meta |} => Some meta
       | _ => None
       end).

Definition errorText (error : JsError) : string :=
  match error with
  | ErrorObj message (Some stack) => stack
  | ErrorObj message None => message
  | Thrown text => text
  end.

Definition fetchLatestReleaseAsset (fuel : nat) (repo asset_name : string)
  : Async Asset :=
  let target :=
    "https://api.github.com/repos/" +:+ repo +:+ "/releases/latest" in
  let* release := fetchJson fuel target in
  match assets release with
  | None => throw (new_Error "Latest release missing expected asset")
  | Some items =>
      match List.find (fun item => String.eqb (name item) asset_name) items with
      | None => throw (new_Error "Latest release missing expected asset")
      | Some asset =>
          ret {| tag := tag_name release;
                 url := browser_download_url asset |}
      end
  end.

End Utils.

(** [String.prototype.trim], for the ASCII white space and line
    terminators (tab, line feed, vertical tab, form feed, carriage return,
    space). *)
Definition is_space (c : ascii) : bool :=
  let n := nat_of_ascii c in
  ((9 <=? n)%nat && (n <=? 13)%nat) || (n =? 32)%nat.

Fixpoint trim_start (s : string) : string :=
  match s with
  | String c rest => if is_space c then trim_start rest else s
  | EmptyString => EmptyString
  end.

Fixpoint trim_end (s : string) : string :=
  match s with
  | EmptyString => EmptyString
  | String c rest =>
      match trim_end rest with
      | EmptyString => if is_space c then EmptyString else String c EmptyString
      | kept => String c kept
      end
  end.

Definition trim (s : string) : string := trim_end (trim_start s).

(** [vscode.window.withProgress(options, task)]: runs the task and settles
    as the task does. *)
Definition withProgress {A} (title : string) (task : Async A) : Async A :=
  effect (EvWithProgress title);; task.

(** [cached?.tag === latest] *)
Definition tag_is (cached : option ExecMeta) (latest : string) : bool :=
  match cached with
  | Some meta => String.eqb (meta_tag meta) latest
  | None => false
  end.

(** The executable bits the installers set: 0o755. *)
Definition mode_0o755 : Z := 493.

(** ** extension.ts: class PhpCsFixerExtension *)
Module Extension.

Definition SERVER_REPO : string := "balthild/php-cs-fixer-lsp".
Definition SERVER_ASSET : string := "php-cs-fixer-lsp.phar".

Definition storageDir (env : Env) : string :=
  join (globalStoragePath env) "server".
Definition execPath (env : Env) : string :=
  join (storageDir env) SERVER_ASSET.
Definition metaPath (env : Env) : string :=
  join (storageDir env) (SERVER_ASSET +:+ ".json").
Definition execTmp (env : Env) : string := execPath env +:+ ".tmp".

Definition downloadServerExec (fuel : nat) (update : bool) : Async string :=
  let* env := ask in
  mkdir (storageDir env);;
  let* installed :=
    (if negb update then Utils.fileExists (execPath env) else ret false) in
  if installed then ret (execPath env)
  else
    let* current := Utils.readJson (metaPath env) in
    let* latest :=
      Utils.fetchLatestReleaseAsset fuel SERVER_REPO SERVER_ASSET in
    let* upToDate :=
      (if tag_is current (Utils.tag latest)
       then Utils.fileExists (execPath env) else ret false) in
    if upToDate then ret (execPath env)
    else
      withProgress "Downloading php-cs-fixer-lsp"
        (Utils.download fuel (Utils.url latest) (execTmp env) true;;
         rename (execTmp env) (execPath env);;
         chmod (execPath env) mode_0o755);;
      writeFile_meta (metaPath env)
        {| meta_tag := Utils.tag latest; downloadedAt := now env |};;
      ret (execPath env).

Definition resolveServerExec (fuel : nat) : Async string :=
  let* env := ask in
  let configured := trim (cfg_serverExec env) in
  if negb (bool_decide (configured = EmptyString)) then ret configured
  else downloadServerExec fuel false.

(** errorHandler.closed *)
Definition errorHandler_closed (s : State) : CloseHandlerResult :=
  {| action := DoNotRestart; handled := restarting s |}.

(** [await client.stop(timeout)] *)
Definition client_stop (id : nat) (timeout : Z) : Async unit :=
  effect (EvStop id timeout);;
  let* env := ask in
  settle errorHandler_closed id (stopSettles env id).

(** [await client.dispose()] *)
Definition client_dispose (id : nat) : Async unit :=
  effect (EvDispose id);;
  let* env := ask in
  settle errorHandler_closed id (disposeSettles env id).

(** middleware.provideDocumentFormattingEdits; [None] is [null]. *)
Definition provideDocumentFormattingEdits {A}
    (next : Async (option A)) : Async (option A) :=
  try_catch next
    (fun error =>
       effect (EvAppendLine (Utils.errorText error));;
       ret None).

Definition startServer (fuel : nat) : Async unit :=
  try_catch
    (let* env := ask in
     let serverArgs := cfg_serverArgs env in
     let* serverExec := resolveServerExec fuel in
     let* s := get in
     let id := fresh s in
     modify (with_fresh (S id));;
     effect (EvNewClient id serverExec ("server" :: serverArgs));;
     modify (with_client (Some id));;
     effect (EvStart id);;
     effect (EvAppendLine "language server started"))
    (fun error =>
       effect (EvShowError ("php-cs-fixer-lsp server failed to start: "
                            +:+ errorMessage error));;
       effect (EvAppendLine "server start failed");;
       effect (EvAppendLine (Utils.errorText error))).

Definition stopServer : Async unit :=
  let* s := get in
  try_catch
    (match client s with
     | Some id => client_stop id 1000
     | None => ret tt
     end)
    (fun error =>
       effect (EvAppendLine "server stop failed");;
       effect (EvAppendLine (Utils.errorText error)));;
  let* s' := get in
  match client s' with
  | Some id => client_dispose id
  | None => ret tt
  end.

Definition restartServer (fuel : nat) : Async unit :=
  let* s := get in
  (match client s with
   | Some _ =>
       assign_restarting true;;
       stopServer;;
       assign_restarting false
   | None => ret tt
   end);;
  startServer fuel.


(** activate (the registration of the two commands is host wiring) and
    deactivate *)
Definition activate (fuel : nat) : Async unit := startServer fuel.

Definition deactivate : Async unit := stopServer.

End Extension.

(** ** The standalone extension file (module-level state) *)
Module Standalone.

Definition GH_OWNER : string := "balthild".
Definition GH_REPO : string := "php-cs-fixer-lsp".
Definition ASSET_NAME : string := "php-cs-fixer-lsp.phar".
Definition META_FILENAME : string := "meta.json".
Definition USER_AGENT : string := "php-cs-fixer-lsp-vscode".

Definition jsonHeaders : Headers :=
  [("user-agent", USER_AGENT); ("accept", "application/vnd.github+json")].

Definition downloadHeaders : Headers := [("user-agent", USER_AGENT)].

(** The result type of fetchLatestRelease. *)
Record Latest : Type := {
  tag : string;
  downloadUrl : string
}.

Fixpoint getJson (fuel : nat) (target : string) : Async GitHubRelease :=
  match fuel with
  | O => unsettled
  | S hops =>
      let* reply := https_get target jsonHeaders in
      match reply with
      | ConnError error => throw error
      | Answer res =>
          match redirect_target res with
          | Some next => getJson hops next
          | None =>
              if not_200 res then
                throw (new_Error ("GitHub API responded with status "
                                  +:+ show_status (statusCode res)))
              else
                match parsed res with
                | inl error => throw error
                | inr value => ret value
                end
          end
      end
  end.

Definition fetchLatestRelease (fuel : nat) : Async Latest :=
  let target :=
    "https://api.github.com/repos/" +:+ GH_OWNER +:+ "/" +:+ GH_REPO
    +:+ "/releases/latest" in
  let* body := getJson fuel target in
  let items := default [] (assets body) in
  match List.find (fun item => String.eqb (name item) ASSET_NAME) items with
  | None => throw (new_Error "Latest release missing expected asset")
  | Some asset =>
      ret {| tag := tag_name body;
             downloadUrl := browser_download_url asset |}
  end.

(** The closure [report] of downloadToFile. *)
Definition report (progress : bool) (total received delta : Z)
  : Async unit :=
  if negb progress || (total =? 0)%Z then ret tt
  else effect (EvProgress (Advance delta received total)).

Fixpoint pipe (path : string) (progress : bool) (total received : Z)
    (fault : option (nat * JsError)) (body : list string) : Async unit :=
  match fault with
  | Some (O, error) => throw error
  | _ =>
      match body with
      | [] => close_stream path
      | chunk :: rest =>
          write_chunk path chunk;;
          let delta := Z.of_nat (String.length chunk) in
          let received' := (received + delta)%Z in
          report progress total received' delta;;
          pipe path progress total received' (after_chunk fault) rest
      end
  end.

Fixpoint downloadToFile (fuel : nat) (target destination : string)
    (progress : bool) : Async unit :=
  match fuel with
  | O => unsettled
  | S hops =>
      let* reply := https_get target downloadHeaders in
      match reply with
      | ConnError error => throw error
      | Answer res =>
          match redirect_target res with
          | Some next => downloadToFile hops next destination progress
          | None =>
              if not_200 res then
                throw (new_Error ("Download failed with status "
                                  +:+ show_status (statusCode res)))
              else
                (if progress
                 then effect (EvProgress (Message "Starting download..."))
                 else ret tt);;
                createWriteStream destination;;
                let* env := ask in
                pipe destination progress (total_of res) 0
                     (writeFault env destination) (chunks res)
          end
      end
  end.

Definition downloadBinary (fuel : nat) (target destination : string)
    (progress : bool) : Async unit :=
  let tempPath := destination +:+ ".tmp" in
  downloadToFile fuel target tempPath progress;;
  rename tempPath destination;;
  chmod destination mode_0o755.

Definition fileExists (target : string) : Async bool := path_exists target.

Definition readMeta (metaPath : string) : Async (option ExecMeta) :=
  let* s := get in
  ret (match files s !! metaPath with
       | Some {| content := MetaDoc meta |} => Some meta
       | _ => None
       end).

Definition storageDir (env : Env) : string :=
  join (globalStoragePath env) "server".
Definition binaryPath (env : Env) : string :=
  join (storageDir env) ASSET_NAME.
Definition metaPath (env : Env) : string :=
  join (storageDir env) META_FILENAME.

Definition ensureDownloadedBinary (fuel : nat) (force : bool)
  : Async string :=
  let* env := ask in
  mkdir (storageDir env);;
  let* cachedMeta := readMeta (metaPath env) in
  (** [inl path] is the [return] inside the catch block *)
  let* checked :=
    try_catch
      (let* latest := fetchLatestRelease fuel in ret (inr latest))
      (fun error =>
         let* installed := fileExists (binaryPath env) in
         if installed then ret (inl (binaryPath env)) else throw error) in
  match checked with
  | inl path => ret path
  | inr latest =>
      let* upToDate :=
        (if negb force && tag_is cachedMeta (tag latest)
         then fileExists (binaryPath env) else ret false) in
      if upToDate then ret (binaryPath env)
      else
        withProgress "Downloading php-cs-fixer-lsp server..."
          (downloadBinary fuel (downloadUrl latest) (binaryPath env) true);;
        writeFile_meta (metaPath env)
          {| meta_tag := tag latest; downloadedAt := now env |};;
        ret (binaryPath env)
  end.

(** middleware.provideDocumentFormattingEdits; [None] is [null]. *)
Definition provideDocumentFormattingEdits {A}
    (next : Async (option A)) : Async (option A) :=
  try_catch next
    (fun error =>
       let message := errorMessage error in
       let* s := get in
       (if outputChannel s then
          effect (EvAppendLine ("[formatting] " +:+ message));;
          match error with
          | ErrorObj _ (Some stack) =>
              if truthy_str (Some stack)
              then effect (EvAppendLine stack) else ret tt
          | _ => ret tt
          end
        else ret tt);;
       ret None).

(** errorHandler.closed *)
Definition errorHandler_closed (s : State) : CloseHandlerResult :=
  {| action := DoNotRestart; handled := restarting s |}.

Definition resolveServerExecutable (fuel : nat) : Async string :=
  let* env := ask in
  let configured := trim (cfg_serverExec env) in
  if negb (bool_decide (configured = EmptyString)) then ret configured
  else ensureDownloadedBinary fuel false.

(** startLanguageClient: the client it returns is started, not awaited. *)
Definition startLanguageClient (fuel : nat) : Async nat :=
  let* env := ask in
  let serverArgs := cfg_serverArgs env in
  let* serverExec := resolveServerExecutable fuel in
  let* s := get in
  let id := fresh s in
  modify (with_fresh (S id));;
  effect (EvNewClient id serverExec ("server" :: serverArgs));;
  effect (EvStart id);;
  ret id.

(** The handler of the command php-cs-fixer-lsp.downloadServer. *)
Definition downloadCommand (fuel : nat) : Async unit :=
  try_catch
    (let* binary := ensureDownloadedBinary fuel true in
     effect (EvShowInformation ("php-cs-fixer-lsp downloaded to " +:+ binary)))
    (fun error =>
       effect (EvShowError ("php-cs-fixer-lsp download failed: "
                            +:+ errorMessage error))).

(** The handler of the command php-cs-fixer-lsp.restartServer; the
    disposal is not awaited. *)
Definition restartCommand (fuel : nat) : Async unit :=
  try_catch
    (let* s := get in
     (match client s with
      | Some id =>
          assign_restarting true;;
          try_catch
            (effect (EvStop id 1000);;
             let* env := ask in
             settle errorHandler_closed id (stopSettles env id))
            (fun _ => ret tt);;
          effect (EvDispose id);;
          assign_restarting false
      | None => ret tt
      end);;
     let* id := startLanguageClient fuel in
     modify (with_client (Some id)))
    (fun error =>
       effect (EvShowError ("php-cs-fixer-lsp failed to restart: "
                            +:+ errorMessage error))).

(** activate, up to the registration of the commands. *)
Definition activate (fuel : nat) : Async unit :=
  try_catch
    (let* env := ask in
     mkdir (globalStoragePath env);;
     modify (with_outputChannel true);;
     let* id := startLanguageClient fuel in
     modify (with_client (Some id)))
    (fun error =>
       effect (EvShowError ("php-cs-fixer-lsp failed to start: "
                            +:+ errorMessage error))).

Definition deactivate : Async unit :=
  let* s := get in
  match client s with
  | None => ret tt
  | Some id =>
      effect (EvStop id 1000);;
      let* env := ask in
      settle errorHandler_closed id (stopSettles env id)
  end.

End Standalone.

(** * Vocabulary of the properties *)

(** The state after a run of host effects. *)
Definition emits (es : list Event) (s : State) : State :=
  {| files := files s; events := events s ++ es; client := client s;
     restarting := restarting s; fresh := fresh s;
     outputChannel := outputChannel s |}.

(** The part of the state that only the lifecycle code assigns. *)
Definition session (s : State) : option nat * bool * nat * bool :=
  (client s, restarting s, fresh s, outputChannel s).

Definition requests (headers : Headers) (targets : list string) : list Event :=
  map (fun target => EvRequest target headers) targets.

(** What a JSON fetcher does with a response that is not followed. *)
Definition json_terminal (res : Response) (s : State)
  : Outcome GitHubRelease * State :=
  if not_200 res then
    (Throw (new_Error ("GitHub API responded with status "
                       +:+ show_status (statusCode res))), s)
  else
    match parsed res with
    | inl error => (Throw error, s)
    | inr value => (Ok value, s)
    end.

(** The whole body of a response. *)
Fixpoint payload (body : list string) : string :=
  match body with
  | [] => EmptyString
  | chunk :: rest => chunk +:+ payload rest
  end.

(** The progress updates of a body that arrives completely. *)
Fixpoint running (total received : Z) (body : list string) : list Event :=
  match body with
  | [] => []
  | chunk :: rest =>
      let delta := Z.of_nat (String.length chunk) in
      EvProgress (Advance delta (received + delta) total)
      :: running total (received + delta) rest
  end.

Definition advances (progress : bool) (total : Z) (body : list string)
  : list Event :=
  if negb progress || (total =? 0)%Z then [] else running total 0 body.

(** The file a completed write stream leaves. *)
Definition written (previous : option File) (body : list string) : File :=
  {| content := Bytes (payload body); mode := mode_of previous;
     closed := true |}.

(** The state right after [createWriteStream path]. *)
Definition opened (path : string) (s : State) : State :=
  with_files (<[path := {| content := Bytes EmptyString;
                           mode := mode_of (files s !! path);
                           closed := false |}]> (files s))
             (emit (EvCreateWriteStream path) s).

(** The state after the optional first progress message. *)
Definition announced (progress : bool) (text : string) (s : State) : State :=
  if progress then emit (EvProgress (Message text)) s else s.

(** What every run of a write stream guarantees: other paths and the
    session are left alone, effects are only added, a run that resolves
    leaves a closed file, and the stream always settles. *)
Definition stream_post (path : string) (s : State)
    (run : Outcome unit * State) : Prop :=
  session run.2 = session s
  /\ (forall q, q <> path -> files run.2 !! q = files s !! q)
  /\ (exists es, events run.2 = events s ++ es)
  /\ (run.1 = Ok tt -> is_Some (files s !! path) ->
      exists f, files run.2 !! path = Some f /\ closed f = true)
  /\ run.1 <> Unsettled.

(** What each download does with a response that is not followed. *)
Definition Utils_download_terminal (res : Response) (path : string)
    (progress : bool) (env : Env) (s : State) : Outcome unit * State :=
  if not_200 res then
    (Throw (new_Error ("Download failed with status "
                       +:+ show_status (statusCode res))), s)
  else
    Utils.pipe path progress (total_of res) 0 (writeFault env path)
      (chunks res) env (opened path (announced progress "Starting..." s)).

Definition Standalone_download_terminal (res : Response) (path : string)
    (progress : bool) (env : Env) (s : State) : Outcome unit * State :=
  if not_200 res then
    (Throw (new_Error ("Download failed with status "
                       +:+ show_status (statusCode res))), s)
  else
    Standalone.pipe path progress (total_of res) 0 (writeFault env path)
      (chunks res) env
      (opened path (announced progress "Starting download..." s)).

(** What every run of a download guarantees: it touches no path but its
    destination and leaves the session alone, it only adds effects, and
    when it resolves it has opened a write stream on the destination and
    left a closed file there. *)
Definition download_post (path : string) (s : State)
    (run : Outcome unit * State) : Prop :=
  session run.2 = session s
  /\ (forall q, q <> path -> files run.2 !! q = files s !! q)
  /\ (exists es, events run.2 = events s ++ es
        /\ (run.1 = Ok tt -> EvCreateWriteStream path ∈ es))
  /\ (run.1 = Ok tt ->
      exists f, files run.2 !! path = Some f /\ closed f = true).

(** A chain of redirects as the server answers it: every hop has a status
    in 300..399 and a non-empty location header, the last answer has status
    200.  [hops] lists the locations followed. *)
Inductive redirect_chain (env : Env) (headers : Headers)
  : string -> list string -> Response -> Prop :=
| chain_end target final :
    net env target headers = Answer final ->
    statusCode final = Some 200%Z ->
    redirect_chain env headers target [] final
| chain_hop target res code next hops final :
    net env target headers = Answer res ->
    statusCode res = Some code ->
    (300 <= code <= 399)%Z ->
    location res = Some next ->
    next <> EmptyString ->
    redirect_chain env headers next hops final ->
    redirect_chain env headers target (next :: hops) final.

(** Requesting [target] leads, through the redirects the fetchers follow
    ([hops] lists the locations), to the answer [final], which they do not
    follow. *)
Inductive reaches (env : Env) (headers : Headers)
  : string -> list string -> Response -> Prop :=
| reaches_here target final :
    net env target headers = Answer final ->
    redirect_target final = None ->
    reaches env headers target [] final
| reaches_hop target res next hops final :
    net env target headers = Answer res ->
    redirect_target res = Some next ->
    reaches env headers next hops final ->
    reaches env headers target (next :: hops) final.

(** The effects of a download that receives [res] completely. *)
Definition receiving (progress : bool) (text path : string) (res : Response)
  : list Event :=
  (if progress then [EvProgress (Message text)] else [])
  ++ [EvCreateWriteStream path]
  ++ advances progress (total_of res) (chunks res).

(** ** A concrete host, for the examples *)

Definition sample_api : string :=
  "https://api.github.com/repos/balthild/php-cs-fixer-lsp/releases/latest".

Definition sample_asset_url : string :=
  "https://github.com/balthild/php-cs-fixer-lsp/releases/download/v1.2.0/php-cs-fixer-lsp.phar".

Definition sample_cdn_url : string :=
  "https://objects.githubusercontent.com/php-cs-fixer-lsp.phar".

Definition sample_release : GitHubRelease :=
  {| tag_name := "v1.2.0";
     assets := Some [ {| name := "checksums.txt";
                         browser_download_url := "https://github.com/checksums.txt" |};
                      {| name := "php-cs-fixer-lsp.phar";
                         browser_download_url := sample_asset_url |} ] |}.

Definition not_json : JsError + GitHubRelease :=
  inl (ErrorObj "Unexpected token < in JSON at position 0" None).

Definition sample_response (code : Z) (target : option string)
    (body : list string) (doc : JsError + GitHubRelease) : Reply :=
  Answer {| statusCode := Some code; location := target;
            contentLength := Some (Z.of_nat (String.length (payload body)));
            chunks := body; parsed := doc |}.

Definition sample_net (target : string) (headers : Headers) : Reply :=
  if String.eqb target sample_api then
    sample_response 200 None ["{...}"] (inr sample_release)
  else if String.eqb target "https://api.github.com/moved" then
    sample_response 301 (Some sample_api) [] not_json
  else if String.eqb target sample_asset_url then
    sample_response 302 (Some sample_cdn_url) [] not_json
  else if String.eqb target sample_cdn_url then
    sample_response 200 None ["<?php "; "__HALT_COMPILER();"] not_json
  else if String.eqb target "https://api.github.com/gone" then
    sample_response 404 None ["Not Found"] not_json
  else if String.eqb target "https://api.github.com/created" then
    sample_response 201 None ["{}"] (inr sample_release)
  else if String.eqb target "https://api.github.com/nowhere" then
    sample_response 302 (Some EmptyString) [] not_json
  else ConnError (ErrorObj "getaddrinfo ENOTFOUND" None).

Definition sample_env : Env :=
  {| net := sample_net;
     writeFault := fun _ => None;
     chmodRefused := fun _ => None;
     now := "2024-05-01T12:00:00.000Z";
     globalStoragePath := "/home/u/.config/Code/User/globalStorage/balthild.php-cs-fixer-lsp";
     cfg_serverExec := EmptyString;
     cfg_serverArgs := [];
     stopSettles := fun _ => {| closes := 1; rejects := None |};
     disposeSettles := fun _ => {| closes := 0; rejects := None |} |}.

(** The same host without a network. *)
Definition offline_env : Env :=
  {| net := fun _ _ => ConnError (ErrorObj "getaddrinfo ENOTFOUND" None);
     writeFault := writeFault sample_env;
     chmodRefused := chmodRefused sample_env;
     now := now sample_env;
     globalStoragePath := globalStoragePath sample_env;
     cfg_serverExec := cfg_serverExec sample_env;
     cfg_serverArgs := cfg_serverArgs sample_env;
     stopSettles := stopSettles sample_env;
     disposeSettles := disposeSettles sample_env |}.

Definition empty_state : State :=
  {| files := ∅; events := []; client := None; restarting := false;
     fresh := 0; outputChannel := true |}.

Definition installed_binary : File :=
  {| content := Bytes "<?php old"; mode := mode_0o755; closed := true |}.

Definition meta_file (tag : string) : File :=
  {| content := MetaDoc {| meta_tag := tag;
                           downloadedAt := "2024-01-01T00:00:00.000Z" |};
     mode := creation_mode; closed := true |}.

(** ** Installers *)

(** The metadata record a sidecar file parses to, if any. *)
Definition cached (f : option File) : option ExecMeta :=
  match f with
  | Some {| content := MetaDoc meta |} => Some meta
  | _ => None
  end.

(** The invariant of the binary's final path: no file, or a completely
    written file with the executable bits. *)
Definition binary_ok (f : option File) : Prop :=
  match f with
  | None => True
  | Some file => closed file = true /\ mode file = mode_0o755
  end.

(** The state after [rename tmp exec], [chmod exec 0o755] and the metadata
    write, [f] being the file found at [tmp]. *)
Definition placed (tmp exec meta : string) (record : ExecMeta) (f : File)
    (s : State) : State :=
  let moved := <[exec := f]> (delete tmp (files s)) in
  let marked :=
    <[exec := {| content := content f; mode := mode_0o755;
                 closed := closed f |}]> moved in
  with_files
    (<[meta := {| content := MetaDoc record; mode := mode_of (marked !! meta);
                  closed := true |}]> marked)
    (emits [EvRename tmp exec; EvChmod exec mode_0o755; EvWriteFile meta] s).

(** The state after [rename tmp exec] alone, [f] being the file found at
    [tmp]. *)
Definition moved (tmp exec : string) (f : File) (s : State) : State :=
  with_files (<[exec := f]> (delete tmp (files s))) (emit (EvRename tmp exec) s).

(** How an installer ends once the download to [tmp] has settled,
    [refusal] being the host's answer to [chmod] on [exec]. *)
Definition refreshed (refusal : option JsError) (tmp exec meta : string)
    (record : ExecMeta) (download_run : Outcome unit * State)
  : Outcome string * State :=
  match download_run with
  | (Ok _, s) =>
      match files s !! tmp with
      | Some f =>
          match refusal with
          | None => (Ok exec, placed tmp exec meta record f s)
          | Some error => (Throw error, moved tmp exec f s)
          end
      | None => (Throw (ENOENT "rename" tmp), s)
      end
  | (Throw error, s) => (Throw error, s)
  | (Unsettled, s) => (Unsettled, s)
  end.

(** An effect is a request of the JSON API. *)
Definition is_json_request (e : Event) : Prop :=
  exists target, e = EvRequest target Utils.jsonHeaders.

(** A binary download was attempted: a request with the download headers
    was sent. *)
Definition download_attempted (es : list Event) : Prop :=
  exists target, EvRequest target Utils.downloadHeaders ∈ es.

(** No file, or a completely written one: the write stream that produced
    it was closed after its last chunk. *)
Definition whole (f : option File) : Prop :=
  match f with
  | None => True
  | Some file => closed file = true
  end.

(** The effects that stage a download next to the final path: requests,
    progress reports, the storage directory, and write streams, which are
    opened on [tmp] only. *)
Definition staging (tmp : string) (e : Event) : Prop :=
  match e with
  | EvRequest _ _ | EvMkdir _ | EvWithProgress _ | EvProgress _ => True
  | EvCreateWriteStream path => path = tmp
  | _ => False
  end.

(** What every run of an installer guarantees for the binary's final path
    [exec], [refusal] being the host's answer to [chmod] on it.

    The file at [exec] stays whole, and stays executable unless [chmod] is
    refused.  The run's effects are staging effects [pre], in which every
    write stream is opened on [tmp], followed by [tail]:
    - nothing more: the file at [exec] is the one found before the run,
      and a run that resolves here has sent no download request;
    - or, after a write stream on [tmp] left a closed file [f], the rename
      of [tmp] over [exec], then [chmod exec 0o755] and the metadata write,
      the run resolving with [f], executable, at [exec];
    - or, when [chmod] is refused, the rename alone: the run throws the
      refusal and [f] is at [exec] as the write stream left it. *)
Definition install_post (refusal : option JsError) (tmp exec meta : string)
    (s : State) (run : Outcome string * State) : Prop :=
  whole (files run.2 !! exec)
  /\ (refusal = None -> binary_ok (files s !! exec) ->
      binary_ok (files run.2 !! exec))
  /\ exists pre tail,
       events run.2 = events s ++ pre ++ tail
       /\ Forall (staging tmp) pre
       /\ ((tail = []
            /\ files run.2 !! exec = files s !! exec
            /\ forall path,
                 run.1 = Ok path -> path = exec /\ ~ download_attempted pre)
           \/ exists f,
                closed f = true
                /\ EvCreateWriteStream tmp ∈ pre
                /\ match refusal with
                   | None =>
                       run.1 = Ok exec
                       /\ tail = [EvRename tmp exec; EvChmod exec mode_0o755;
                                  EvWriteFile meta]
                       /\ files run.2 !! exec
                          = Some {| content := content f; mode := mode_0o755;
                                    closed := true |}
                   | Some error =>
                       run.1 = Throw error
                       /\ tail = [EvRename tmp exec]
                       /\ files run.2 !! exec = Some f
                   end).

(** The effects an installer can have: none on the language client. *)
Definition install_event (e : Event) : Prop :=
  match e with
  | EvRequest _ _ | EvMkdir _ | EvCreateWriteStream _ | EvRename _ _
  | EvChmod _ _ | EvWriteFile _ | EvWithProgress _ | EvProgress _ => True
  | _ => False
  end.

(** A computation only adds effects, and only [allowed] ones. *)
Definition emits_only {A : Type} (allowed : Event -> Prop) (m : Async A)
  : Prop :=
  forall env s,
    exists es, events (m env s).2 = events s ++ es /\ Forall allowed es.

(** The sample host on a storage directory whose files do not take a
    change of mode. *)
Definition locked_env : Env :=
  {| net := net sample_env;
     writeFault := writeFault sample_env;
     chmodRefused := fun path =>
       Some (ErrorObj ("EPERM: operation not permitted, chmod " +:+ path) None);
     now := now sample_env;
     globalStoragePath := globalStoragePath sample_env;
     cfg_serverExec := cfg_serverExec sample_env;
     cfg_serverArgs := cfg_serverArgs sample_env;
     stopSettles := stopSettles sample_env;
     disposeSettles := disposeSettles sample_env |}.

(** A storage directory holding a binary and the sidecar files of both
    installers, recording [tag]. *)
Definition installed_state (tag : string) : State :=
  with_files
    (<[Extension.execPath sample_env := installed_binary]>
       (<[Extension.metaPath sample_env := meta_file tag]>
          (<[Standalone.metaPath sample_env := meta_file tag]> ∅)))
    empty_state.

(** ** Lifecycle *)

(** The close notifications delivered while one call on client [id] is
    awaited, answered under the given value of the [restarting] flag. *)
Definition close_events (id : nat) (how : Settle) (flag : bool) : list Event :=
  replicate (closes how) (EvClosed id {| action := DoNotRestart; handled := flag |}).

(** The effects of stopServer on client [id] under the given flag: the stop
    request with its close notifications, the two log lines when the stop
    rejects, the disposal with its close notifications. *)
Definition stop_events (env : Env) (id : nat) (flag : bool) : list Event :=
  [EvStop id 1000] ++ close_events id (stopSettles env id) flag
  ++ match rejects (stopSettles env id) with
     | Some error =>
         [EvAppendLine "server stop failed";
          EvAppendLine (Utils.errorText error)]
     | None => []
     end
  ++ [EvDispose id] ++ close_events id (disposeSettles env id) flag.

(** The state after startServer has created and started a client that runs
    [command]. *)
Definition started (env : Env) (command : string) (s : State) : State :=
  with_client (Some (fresh s))
    (with_fresh (S (fresh s))
       (emits [EvNewClient (fresh s) command ("server" :: cfg_serverArgs env);
               EvStart (fresh s);
               EvAppendLine "language server started"] s)).

(** Every close notification among the effects was reported as handled. *)
Definition closes_handled (es : list Event) : Prop :=
  forall id result, EvClosed id result ∈ es -> handled result = true.

(** The lines the standalone middleware logs for a thrown value. *)
Definition formatting_lines (error : JsError) : list Event :=
  EvAppendLine ("[formatting] " +:+ errorMessage error)
  :: match error with
     | ErrorObj _ (Some stack) =>
         if truthy_str (Some stack) then [EvAppendLine stack] else []
     | _ => []
     end.

(** A host whose user configured the server executable. *)
Definition configured_env : Env :=
  {| net := net offline_env;
     writeFault := writeFault sample_env;
     chmodRefused := chmodRefused sample_env;
     now := now sample_env;
     globalStoragePath := globalStoragePath sample_env;
     cfg_serverExec := "  /usr/local/bin/php-cs-fixer-lsp ";
     cfg_serverArgs := ["--verbose"];
     stopSettles := fun _ =>
       {| closes := 1;
          rejects := Some (ErrorObj "Stopping the server timed out" None) |};
     disposeSettles := disposeSettles sample_env |}.

(** A session with client 0 running. *)
Definition running_state : State :=
  with_client (Some 0%nat) (with_fresh 1 empty_state).

(** A formatting request that fails. *)
Definition failing_request : Async (option (list string)) :=
  throw (ErrorObj "Request textDocument/formatting failed"
           (Some "Error: Request textDocument/formatting failed\n    at handleResponse")).

(** A computation leaves a component of the state as it found it. *)
Definition preserves {X A : Type} (component : State -> X) (m : Async A)
  : Prop :=
  forall env s, component (m env s).2 = component s.

(** ** Vocabulary of the further properties *)

(** An outcome with its value mapped. *)
Definition map_outcome {A B : Type} (f : A -> B) (o : Outcome A) : Outcome B :=
  match o with
  | Ok value => Ok (f value)
  | Throw error => Throw error
  | Unsettled => Unsettled
  end.

(** The standalone file's release record read as an [Asset]. *)
Definition as_asset (latest : Standalone.Latest) : Utils.Asset :=
  {| Utils.tag := Standalone.tag latest;
     Utils.url := Standalone.downloadUrl latest |}.

(** Requesting [target] leads, through the redirects the fetchers follow,
    to a request that emits 'error'. *)
Inductive breaks (env : Env) (headers : Headers)
  : string -> list string -> JsError -> Prop :=
| breaks_here target error :
    net env target headers = ConnError error ->
    breaks env headers target [] error
| breaks_hop target res next hops error :
    net env target headers = Answer res ->
    redirect_target res = Some next ->
    breaks env headers next hops error ->
    breaks env headers target (next :: hops) error.

(** Every URL of the set answers, under these headers, with a redirect into
    the set. *)
Definition redirects_within (env : Env) (headers : Headers)
    (looping : string -> Prop) : Prop :=
  forall target, looping target ->
    exists res next,
      net env target headers = Answer res
      /\ redirect_target res = Some next
      /\ looping next.

(** A host with two URLs that redirect to each other. *)
Definition loop_env : Env :=
  {| net := fun target _ =>
       if String.eqb target "https://loop.example/a" then
         sample_response 302 (Some "https://loop.example/b") [] not_json
       else if String.eqb target "https://loop.example/b" then
         sample_response 307 (Some "https://loop.example/a") [] not_json
       else ConnError (ErrorObj "getaddrinfo ENOTFOUND" None);
     writeFault := writeFault sample_env;
     chmodRefused := chmodRefused sample_env;
     now := now sample_env;
     globalStoragePath := globalStoragePath sample_env;
     cfg_serverExec := cfg_serverExec sample_env;
     cfg_serverArgs := cfg_serverArgs sample_env;
     stopSettles := stopSettles sample_env;
     disposeSettles := disposeSettles sample_env |}.

Definition in_loop (target : string) : Prop :=
  target = "https://loop.example/a" \/ target = "https://loop.example/b".

(** The byte counts ([delta]) and the running totals ([received]) of the
    progress updates among some effects, in order. *)
Definition advance_deltas (es : list Event) : list Z :=
  omap (fun e => match e with
                 | EvProgress (Advance delta _ _) => Some delta
                 | _ => None
                 end) es.

Definition advance_received (es : list Event) : list Z :=
  omap (fun e => match e with
                 | EvProgress (Advance _ received _) => Some received
                 | _ => None
                 end) es.

(** The sizes of the chunks, and their partial sums from [start] on. *)
Definition chunk_sizes (body : list string) : list Z :=
  map (fun chunk => Z.of_nat (String.length chunk)) body.

Fixpoint partial_sums (start : Z) (sizes : list Z) : list Z :=
  match sizes with
  | [] => []
  | size :: rest => (start + size)%Z :: partial_sums (start + size) rest
  end.

(** A host whose disk fills up after the first chunk of any stream. *)
Definition full_disk_env : Env :=
  {| net := net sample_env;
     writeFault := fun _ =>
       Some (1%nat, ErrorObj "ENOSPC: no space left on device" None);
     chmodRefused := chmodRefused sample_env;
     now := now sample_env;
     globalStoragePath := globalStoragePath sample_env;
     cfg_serverExec := cfg_serverExec sample_env;
     cfg_serverArgs := cfg_serverArgs sample_env;
     stopSettles := stopSettles sample_env;
     disposeSettles := disposeSettles sample_env |}.

(** A host on which disposing a client rejects. *)
Definition stubborn_env : Env :=
  {| net := net sample_env;
     writeFault := writeFault sample_env;
     chmodRefused := chmodRefused sample_env;
     now := now sample_env;
     globalStoragePath := globalStoragePath sample_env;
     cfg_serverExec := cfg_serverExec configured_env;
     cfg_serverArgs := cfg_serverArgs configured_env;
     stopSettles := stopSettles configured_env;
     disposeSettles := fun _ =>
       {| closes := 1;
          rejects := Some (ErrorObj "Client is not running" None) |} |}.

(** The effects of the standalone restart command on client [id] before it
    starts the next client: a rejected stop leaves no trace, and the
    disposal is not awaited. *)
Definition restart_events (env : Env) (id : nat) : list Event :=
  [EvSetRestarting true; EvStop id 1000]
  ++ close_events id (stopSettles env id) true
  ++ [EvDispose id; EvSetRestarting false].

(** * Properties *)

(** ** Bookkeeping on states *)

Lemma emits_nil s : emits [] s = s.
Proof. destruct s; unfold emits; simpl. by rewrite app_nil_r. Qed.

Lemma emits_emits es1 es2 s : emits es2 (emits es1 s) = emits (es1 ++ es2) s.
Proof. unfold emits; simpl. by rewrite app_assoc. Qed.

Lemma emit_emits e es s : emits es (emit e s) = emits (e :: es) s.
Proof. unfold emits, emit; simpl. by rewrite <- app_assoc. Qed.

Lemma emits_emit e es s : emit e (emits es s) = emits (es ++ [e]) s.
Proof. unfold emits, emit; simpl. by rewrite app_assoc. Qed.

Lemma emit_as_emits e s : emit e s = emits [e] s.
Proof. reflexivity. Qed.

(** ** The redirect test *)

Lemma redirect_target_spec res next :
  redirect_target res = Some next <->
  exists code, statusCode res = Some code /\ (300 <= code < 400)%Z
               /\ location res = Some next /\ next <> EmptyString.
Proof.
  unfold redirect_target. split.
  - destruct (statusCode res) as [code|]; [|done].
    destruct (location res) as [target|]; [|done].
    destruct (truthy_num (Some code) && (300 <=? code)%Z && (code <? 400)%Z
              && truthy_str (Some target)) eqn:E; [|done].
    intros [= <-]. exists code.
    repeat (apply andb_prop in E as [E ?]).
    repeat split; try lia. by destruct target.
  - intros (code & -> & Hc & -> & Hne).
    assert (truthy_num (Some code) = true) as ->.
    { simpl. apply negb_true_iff, Z.eqb_neq. lia. }
    assert ((300 <=? code)%Z = true) as -> by lia.
    assert ((code <? 400)%Z = true) as -> by lia.
    by destruct next.
Qed.

Lemma redirect_target_2xx res code :
  statusCode res = Some code -> (code < 300)%Z -> redirect_target res = None.
Proof.
  intros Hs Hc. unfold redirect_target. rewrite Hs.
  destruct (location res); [|done].
  assert ((300 <=? code)%Z = false) as -> by lia.
  by rewrite andb_false_r.
Qed.

Lemma not_200_true res code :
  statusCode res = Some code -> code <> 200%Z -> not_200 res = true.
Proof.
  intros Hs Hc. unfold not_200. rewrite Hs.
  apply negb_true_iff, bool_decide_eq_false. congruence.
Qed.

Lemma not_200_false res : statusCode res = Some 200%Z -> not_200 res = false.
Proof.
  intros Hs. unfold not_200. rewrite Hs.
  by apply negb_false_iff, bool_decide_eq_true.
Qed.

(** ** One request of each fetcher *)

Lemma fetchJson_step hops target env s :
  Utils.fetchJson (S hops) target env s =
  let s1 := emit (EvRequest target Utils.jsonHeaders) s in
  match net env target Utils.jsonHeaders with
  | ConnError error => (Throw error, s1)
  | Answer res =>
      match redirect_target res with
      | Some next => Utils.fetchJson hops next env s1
      | None => json_terminal res s1
      end
  end.
Proof.
  cbn [Utils.fetchJson]. unfold bind at 1, https_get, json_terminal; cbn.
  destruct (net env target Utils.jsonHeaders) as [error|res]; [done|].
  destruct (redirect_target res); [done|].
  destruct (not_200 res); [done|]. by destruct (parsed res).
Qed.

Lemma getJson_step hops target env s :
  Standalone.getJson (S hops) target env s =
  let s1 := emit (EvRequest target Standalone.jsonHeaders) s in
  match net env target Standalone.jsonHeaders with
  | ConnError error => (Throw error, s1)
  | Answer res =>
      match redirect_target res with
      | Some next => Standalone.getJson hops next env s1
      | None => json_terminal res s1
      end
  end.
Proof.
  cbn [Standalone.getJson]. unfold bind at 1, https_get, json_terminal; cbn.
  destruct (net env target Standalone.jsonHeaders) as [error|res]; [done|].
  destruct (redirect_target res); [done|].
  destruct (not_200 res); [done|]. by destruct (parsed res).
Qed.

(** ** Strings and paths *)

Lemma append_cons (c : ascii) (a b : string) :
  String c a +:+ b = String c (a +:+ b).
Proof. reflexivity. Qed.

Lemma append_length (a b : string) :
  String.length (a +:+ b) = (String.length a + String.length b)%nat.
Proof.
  induction a as [|c a IH]; [done|]. rewrite append_cons. cbn. by rewrite IH.
Qed.

Lemma append_assoc (a b c : string) : (a +:+ b) +:+ c = a +:+ (b +:+ c).
Proof.
  induction a as [|x a IH]; [done|]. rewrite !append_cons. by rewrite IH.
Qed.

Lemma append_empty_r (a : string) : a +:+ EmptyString = a.
Proof.
  induction a as [|x a IH]; [done|]. rewrite append_cons. by rewrite IH.
Qed.

Lemma append_suffix_ne (a b : string) : b <> EmptyString -> a +:+ b <> a.
Proof.
  intros Hb Heq.
  assert (String.length (a +:+ b) = String.length a) as Hl by (by rewrite Heq).
  rewrite append_length in Hl. destruct b; [done|]. cbn in Hl. lia.
Qed.

Lemma append_suffixes_ne (a b c : string) :
  String.length b <> String.length c -> a +:+ b <> a +:+ c.
Proof. intros Hl Heq. apply (inj _) in Heq. congruence. Qed.

(** ** Write streams *)

Lemma createWriteStream_run path env s :
  createWriteStream path env s = (Ok tt, opened path s).
Proof. reflexivity. Qed.

Lemma write_chunk_run path chunk env s :
  exists s', write_chunk path chunk env s = (Ok tt, s')
    /\ session s' = session s
    /\ events s' = events s
    /\ (forall q, q <> path -> files s' !! q = files s !! q)
    /\ (is_Some (files s !! path) -> is_Some (files s' !! path)).
Proof.
  unfold write_chunk, modify.
  destruct (files s !! path) as [[[data|meta] m c]|] eqn:E;
    eexists; (split; [reflexivity|]); cbn; repeat split; auto.
  - intros q Hq. by rewrite lookup_insert_ne.
  - intros _. rewrite lookup_insert_eq. eauto.
  - rewrite E. eauto.
Qed.

Lemma close_stream_run path env s :
  exists s', close_stream path env s = (Ok tt, s')
    /\ session s' = session s
    /\ events s' = events s
    /\ (forall q, q <> path -> files s' !! q = files s !! q)
    /\ (is_Some (files s !! path) ->
        exists f, files s' !! path = Some f /\ closed f = true).
Proof.
  unfold close_stream, modify.
  destruct (files s !! path) as [f|] eqn:E;
    eexists; (split; [reflexivity|]); cbn; repeat split; auto.
  - intros q Hq. by rewrite lookup_insert_ne.
  - intros _. rewrite lookup_insert_eq. eauto.
  - intros [? ?]. done.
Qed.

Lemma stream_post_throw path s error : stream_post path s (Throw error, s).
Proof.
  split; [|split; [|split; [|split]]]; auto; try done.
  exists []. by rewrite app_nil_r.
Qed.

Lemma stream_post_closed path env s :
  stream_post path s (close_stream path env s).
Proof.
  destruct (close_stream_run path env s) as (s' & -> & Hs & He & Hf & Hc).
  split; [|split; [|split; [|split]]]; cbn; auto.
  exists []. by rewrite He, app_nil_r.
Qed.

(** One chunk written and reported, then the rest of the stream. *)
Lemma stream_post_chunk path chunk env s s1 es rest :
  write_chunk path chunk env s = (Ok tt, s1) ->
  stream_post path (emits es s1) rest ->
  stream_post path s rest.
Proof.
  intros Hwrite (IHs & IHf & [es' IHe] & IHc & IHu).
  destruct (write_chunk_run path chunk env s) as (s1' & Hrun & Hs & He & Hf & Hc).
  rewrite Hwrite in Hrun. injection Hrun as <-.
  split; [|split; [|split; [|split]]].
  - rewrite IHs. exact Hs.
  - intros q Hq. rewrite IHf by done. cbn. auto.
  - exists (es ++ es'). rewrite IHe. cbn. rewrite He. by rewrite app_assoc.
  - intros Hok Hsome. apply IHc; [done|]. cbn. auto.
  - exact IHu.
Qed.

Lemma Utils_report_run progress total received delta env s :
  exists received' es,
    Utils.report progress total received delta env s
    = (Ok received', emits es s).
Proof.
  unfold Utils.report. destruct (negb progress || (total =? 0)%Z).
  - exists received, []. by rewrite emits_nil.
  - eexists _, [_]. reflexivity.
Qed.

Lemma Standalone_report_run progress total received delta env s :
  exists es,
    Standalone.report progress total received delta env s = (Ok tt, emits es s).
Proof.
  unfold Standalone.report. destruct (negb progress || (total =? 0)%Z).
  - exists []. by rewrite emits_nil.
  - eexists [_]. reflexivity.
Qed.

Lemma Utils_pipe_post body : forall path progress total received fault env s,
  stream_post path s (Utils.pipe path progress total received fault body env s).
Proof.
  induction body as [|chunk rest IH]; intros path progress total received fault env s.
  - destruct fault as [[[|n] error]|]; cbn [Utils.pipe];
      first [apply stream_post_throw | apply stream_post_closed].
  - assert (forall fault', stream_post path s
      ((write_chunk path chunk;;
        let* received' :=
          Utils.report progress total received (Z.of_nat (String.length chunk)) in
        Utils.pipe path progress total received' fault' rest) env s)) as Hstep.
    { intros fault'. unfold bind.
      destruct (write_chunk_run path chunk env s) as (s1 & Hwrite & _).
      rewrite Hwrite.
      destruct (Utils_report_run progress total received
                  (Z.of_nat (String.length chunk)) env s1) as (r' & es & ->).
      eapply stream_post_chunk; [exact Hwrite|apply IH]. }
    destruct fault as [[[|n] error]|]; cbn [Utils.pipe];
      [apply stream_post_throw | apply Hstep | apply Hstep].
Qed.

Lemma Standalone_pipe_post body : forall path progress total received fault env s,
  stream_post path s
    (Standalone.pipe path progress total received fault body env s).
Proof.
  induction body as [|chunk rest IH]; intros path progress total received fault env s.
  - destruct fault as [[[|n] error]|]; cbn [Standalone.pipe];
      first [apply stream_post_throw | apply stream_post_closed].
  - assert (forall fault', stream_post path s
      ((write_chunk path chunk;;
        let delta := Z.of_nat (String.length chunk) in
        let received' := (received + delta)%Z in
        Standalone.report progress total received' delta;;
        Standalone.pipe path progress total received' fault' rest) env s))
      as Hstep.
    { intros fault'. unfold bind. cbn zeta.
      destruct (write_chunk_run path chunk env s) as (s1 & Hwrite & _).
      rewrite Hwrite.
      destruct (Standalone_report_run progress total
                  (received + Z.of_nat (String.length chunk))
                  (Z.of_nat (String.length chunk)) env s1) as (es & ->).
      eapply stream_post_chunk; [exact Hwrite|apply IH]. }
    destruct fault as [[[|n] error]|]; cbn [Standalone.pipe];
      [apply stream_post_throw | apply Hstep | apply Hstep].
Qed.

Lemma download_step hops target path progress env s :
  Utils.download (S hops) target path progress env s =
  let s1 := emit (EvRequest target Utils.downloadHeaders) s in
  match net env target Utils.downloadHeaders with
  | ConnError error => (Throw error, s1)
  | Answer res =>
      match redirect_target res with
      | Some next => Utils.download hops next path progress env s1
      | None => Utils_download_terminal res path progress env s1
      end
  end.
Proof.
  cbn [Utils.download]. unfold bind at 1, https_get, Utils_download_terminal; cbn.
  destruct (net env target Utils.downloadHeaders) as [error|res]; [done|].
  destruct (redirect_target res); [done|].
  destruct (not_200 res); [done|]. by destruct progress.
Qed.

Lemma downloadToFile_step hops target path progress env s :
  Standalone.downloadToFile (S hops) target path progress env s =
  let s1 := emit (EvRequest target Standalone.downloadHeaders) s in
  match net env target Standalone.downloadHeaders with
  | ConnError error => (Throw error, s1)
  | Answer res =>
      match redirect_target res with
      | Some next => Standalone.downloadToFile hops next path progress env s1
      | None => Standalone_download_terminal res path progress env s1
      end
  end.
Proof.
  cbn [Standalone.downloadToFile].
  unfold bind at 1, https_get, Standalone_download_terminal; cbn.
  destruct (net env target Standalone.downloadHeaders) as [error|res]; [done|].
  destruct (redirect_target res); [done|].
  destruct (not_200 res); [done|]. by destruct progress.
Qed.

Lemma opened_lookup path s :
  files (opened path s) !! path
  = Some {| content := Bytes EmptyString; mode := mode_of (files s !! path);
            closed := false |}.
Proof. unfold opened; cbn. by rewrite lookup_insert_eq. Qed.

Lemma opened_frame path s q :
  q <> path -> files (opened path s) !! q = files s !! q.
Proof. intros Hq. unfold opened; cbn. by rewrite lookup_insert_ne. Qed.

Lemma opened_events path s :
  events (opened path s) = events s ++ [EvCreateWriteStream path].
Proof. reflexivity. Qed.

Lemma announced_files progress text s :
  files (announced progress text s) = files s.
Proof. by destruct progress. Qed.

Lemma announced_session progress text s :
  session (announced progress text s) = session s.
Proof. by destruct progress. Qed.

Lemma announced_events progress text s :
  exists es, events (announced progress text s) = events s ++ es.
Proof.
  destruct progress; [by exists [EvProgress (Message text)]|].
  exists []. by rewrite app_nil_r.
Qed.

(** A stream started on a freshly opened file meets the download contract. *)
Lemma stream_download_post path progress text s run :
  stream_post path (opened path (announced progress text s)) run ->
  download_post path s run.
Proof.
  intros (Hs & Hf & [es He] & Hc & _).
  destruct (announced_events progress text s) as [es0 He0].
  split; [|split; [|split]].
  - rewrite Hs. apply (announced_session progress text s).
  - intros q Hq. rewrite Hf by done.
    rewrite opened_frame by done. by rewrite announced_files.
  - exists (es0 ++ [EvCreateWriteStream path] ++ es). split.
    + rewrite He, opened_events, He0. by rewrite <- !app_assoc.
    + intros _. set_solver.
  - intros Hok. apply Hc; [done|]. rewrite opened_lookup. eauto.
Qed.

Lemma download_post_throw path s es error :
  download_post path s (Throw error, emits es s).
Proof.
  split; [|split; [|split]]; cbn; [done|done| |done].
  exists es. split; [done|done].
Qed.

Lemma download_post_here path s (result : Outcome unit) :
  result <> Ok tt -> download_post path s (result, s).
Proof.
  intros Hne. split; [|split; [|split]]; cbn; [done|done| |done].
  exists []. by rewrite app_nil_r.
Qed.

Lemma download_post_emit path e s run :
  download_post path (emit e s) run -> download_post path s run.
Proof.
  intros (Hs & Hf & (es & He & Hin) & Hc). split; [|split; [|split]]; auto.
  exists (e :: es). split.
  - rewrite He. cbn. by rewrite <- app_assoc.
  - intros Hok. apply elem_of_cons. right. auto.
Qed.

Lemma Utils_download_post fuel : forall target path progress env s,
  download_post path s (Utils.download fuel target path progress env s).
Proof.
  induction fuel as [|hops IH]; intros target path progress env s.
  - by apply download_post_here.
  - rewrite download_step. cbn zeta.
    destruct (net env target Utils.downloadHeaders) as [error|res].
    + apply (download_post_throw path s [_]).
    + destruct (redirect_target res) as [next|].
      * eapply download_post_emit, IH.
      * eapply download_post_emit. unfold Utils_download_terminal.
        destruct (not_200 res).
        -- by apply download_post_here.
        -- eapply stream_download_post, Utils_pipe_post.
Qed.

Lemma Standalone_downloadToFile_post fuel : forall target path progress env s,
  download_post path s
    (Standalone.downloadToFile fuel target path progress env s).
Proof.
  induction fuel as [|hops IH]; intros target path progress env s.
  - by apply download_post_here.
  - rewrite downloadToFile_step. cbn zeta.
    destruct (net env target Standalone.downloadHeaders) as [error|res].
    + apply (download_post_throw path s [_]).
    + destruct (redirect_target res) as [next|].
      * eapply download_post_emit, IH.
      * eapply download_post_emit. unfold Standalone_download_terminal.
        destruct (not_200 res).
        -- by apply download_post_here.
        -- eapply stream_download_post, Standalone_pipe_post.
Qed.
(** ** Following redirects *)

Lemma chain_reaches env headers target hops final :
  redirect_chain env headers target hops final ->
  reaches env headers target hops final.
Proof.
  induction 1 as [target final Hnet Hs|target res code next hops final Hnet Hs Hc Hl Hne _ IH].
  - apply reaches_here; [done|]. apply (redirect_target_2xx _ 200%Z); [done|lia].
  - eapply reaches_hop; [done| |done].
    apply redirect_target_spec. exists code. repeat split; auto; lia.
Qed.

Lemma fetchJson_reaches env target hops final :
  reaches env Utils.jsonHeaders target hops final ->
  forall fuel s, (length hops < fuel)%nat ->
  Utils.fetchJson fuel target env s
  = json_terminal final (emits (requests Utils.jsonHeaders (target :: hops)) s).
Proof.
  induction 1 as [target final Hnet Hr|target res next hops final Hnet Hr _ IH];
    intros [|fuel] s Hfuel; cbn in Hfuel; try lia;
    rewrite fetchJson_step; cbn zeta; rewrite Hnet, Hr.
  - reflexivity.
  - rewrite IH by lia. by rewrite emit_emits.
Qed.

Lemma getJson_reaches env target hops final :
  reaches env Standalone.jsonHeaders target hops final ->
  forall fuel s, (length hops < fuel)%nat ->
  Standalone.getJson fuel target env s
  = json_terminal final
      (emits (requests Standalone.jsonHeaders (target :: hops)) s).
Proof.
  induction 1 as [target final Hnet Hr|target res next hops final Hnet Hr _ IH];
    intros [|fuel] s Hfuel; cbn in Hfuel; try lia;
    rewrite getJson_step; cbn zeta; rewrite Hnet, Hr.
  - reflexivity.
  - rewrite IH by lia. by rewrite emit_emits.
Qed.

Lemma download_reaches env target hops final :
  reaches env Utils.downloadHeaders target hops final ->
  forall fuel path progress s, (length hops < fuel)%nat ->
  Utils.download fuel target path progress env s
  = Utils_download_terminal final path progress env
      (emits (requests Utils.downloadHeaders (target :: hops)) s).
Proof.
  induction 1 as [target final Hnet Hr|target res next hops final Hnet Hr _ IH];
    intros [|fuel] path progress s Hfuel; cbn in Hfuel; try lia;
    rewrite download_step; cbn zeta; rewrite Hnet, Hr.
  - reflexivity.
  - rewrite IH by lia. by rewrite emit_emits.
Qed.

Lemma downloadToFile_reaches env target hops final :
  reaches env Standalone.downloadHeaders target hops final ->
  forall fuel path progress s, (length hops < fuel)%nat ->
  Standalone.downloadToFile fuel target path progress env s
  = Standalone_download_terminal final path progress env
      (emits (requests Standalone.downloadHeaders (target :: hops)) s).
Proof.
  induction 1 as [target final Hnet Hr|target res next hops final Hnet Hr _ IH];
    intros [|fuel] path progress s Hfuel; cbn in Hfuel; try lia;
    rewrite downloadToFile_step; cbn zeta; rewrite Hnet, Hr.
  - reflexivity.
  - rewrite IH by lia. by rewrite emit_emits.
Qed.

Lemma json_terminal_rejects res code s :
  statusCode res = Some code -> code <> 200%Z ->
  json_terminal res s
  = (Throw (new_Error ("GitHub API responded with status " +:+ pretty code)), s).
Proof.
  intros Hs Hc. unfold json_terminal.
  rewrite (not_200_true res code) by done. by rewrite Hs.
Qed.

Lemma Utils_download_terminal_rejects res code path progress env s :
  statusCode res = Some code -> code <> 200%Z ->
  Utils_download_terminal res path progress env s
  = (Throw (new_Error ("Download failed with status " +:+ pretty code)), s).
Proof.
  intros Hs Hc. unfold Utils_download_terminal.
  rewrite (not_200_true res code) by done. by rewrite Hs.
Qed.

Lemma Standalone_download_terminal_rejects res code path progress env s :
  statusCode res = Some code -> code <> 200%Z ->
  Standalone_download_terminal res path progress env s
  = (Throw (new_Error ("Download failed with status " +:+ pretty code)), s).
Proof.
  intros Hs Hc. unfold Standalone_download_terminal.
  rewrite (not_200_true res code) by done. by rewrite Hs.
Qed.

(** The message of a status error determines the status code. *)
Lemma status_message_inj (text : string) (a b : Z) :
  text +:+ pretty a = text +:+ pretty b -> a = b.
Proof. intros H. apply (inj _) in H. by apply (inj pretty). Qed.

(** ** Streams that run to completion *)

Lemma Utils_pipe_complete body :
  forall path progress total received env s data m c,
  files s !! path = Some {| content := Bytes data; mode := m; closed := c |} ->
  Utils.pipe path progress total received None body env s
  = (Ok tt,
     with_files
       (<[path := {| content := Bytes (data +:+ payload body); mode := m;
                     closed := true |}]> (files s))
       (emits (if negb progress || (total =? 0)%Z then []
               else running total received body) s)).
Proof.
  induction body as [|chunk rest IH];
    intros path progress total received env s data m c Hf; cbn [Utils.pipe].
  - unfold close_stream, modify. rewrite Hf. cbn [payload running].
    rewrite append_empty_r. destruct (negb progress || (total =? 0)%Z);
      by rewrite emits_nil.
  - unfold bind at 1. unfold write_chunk at 1, modify. rewrite Hf.
    unfold bind at 1. unfold Utils.report.
    destruct (negb progress || (total =? 0)%Z) eqn:Hg; cbn [ret bind effect modify].
    + erewrite IH; [|cbn; by rewrite lookup_insert_eq].
      rewrite Hg. cbn [payload]. rewrite append_assoc.
      unfold with_files, emits; cbn. by rewrite insert_insert_eq.
    + unfold bind, effect, modify, ret; cbn.
      erewrite IH; [|cbn; by rewrite lookup_insert_eq].
      rewrite Hg. cbn [payload running]. rewrite append_assoc.
      unfold with_files, emits, emit; cbn. rewrite insert_insert_eq.
      by rewrite <- app_assoc.
Qed.

Lemma Standalone_pipe_complete body :
  forall path progress total received env s data m c,
  files s !! path = Some {| content := Bytes data; mode := m; closed := c |} ->
  Standalone.pipe path progress total received None body env s
  = (Ok tt,
     with_files
       (<[path := {| content := Bytes (data +:+ payload body); mode := m;
                     closed := true |}]> (files s))
       (emits (if negb progress || (total =? 0)%Z then []
               else running total received body) s)).
Proof.
  induction body as [|chunk rest IH];
    intros path progress total received env s data m c Hf;
    cbn [Standalone.pipe].
  - unfold close_stream, modify. rewrite Hf. cbn [payload running].
    rewrite append_empty_r. destruct (negb progress || (total =? 0)%Z);
      by rewrite emits_nil.
  - unfold bind at 1. unfold write_chunk at 1, modify. rewrite Hf.
    cbn zeta. unfold bind at 1. unfold Standalone.report.
    destruct (negb progress || (total =? 0)%Z) eqn:Hg; cbn [ret bind effect modify].
    + erewrite IH; [|cbn; by rewrite lookup_insert_eq].
      rewrite Hg. cbn [payload]. rewrite append_assoc.
      unfold with_files, emits; cbn. by rewrite insert_insert_eq.
    + unfold effect, modify; cbn.
      erewrite IH; [|cbn; by rewrite lookup_insert_eq].
      rewrite Hg. cbn [payload running]. rewrite append_assoc.
      unfold with_files, emits, emit; cbn. rewrite insert_insert_eq.
      by rewrite <- app_assoc.
Qed.
(** * The claims *)

(** C5. A response whose status is neither in the 2xx range nor a redirect
    that is followed makes fetchJson and download reject with an error whose
    message carries that status code; the rejected download has created no
    file, so nothing partial exists at its destination or anywhere else. *)
Theorem C5_error_status_rejects env s fuel target hops path progress res code :
  statusCode res = Some code ->
  ~ (200 <= code < 300)%Z ->
  (length hops < fuel)%nat ->
  (reaches env Utils.jsonHeaders target hops res ->
   Utils.fetchJson fuel target env s
   = (Throw (new_Error ("GitHub API responded with status " +:+ pretty code)),
      emits (requests Utils.jsonHeaders (target :: hops)) s))
  /\ (reaches env Utils.downloadHeaders target hops res ->
      let run := Utils.download fuel target path progress env s in
      run.1 = Throw (new_Error ("Download failed with status " +:+ pretty code))
      /\ files run.2 = files s
      /\ events run.2
         = events s ++ requests Utils.downloadHeaders (target :: hops)).
Proof.
  intros Hs Hc Hfuel. assert (code <> 200%Z) as Hne by lia. split; intros Hr.
  - rewrite (fetchJson_reaches _ _ _ _ Hr) by done.
    by apply json_terminal_rejects.
  - cbn zeta. rewrite (download_reaches _ _ _ _ Hr) by done.
    by rewrite (Utils_download_terminal_rejects _ code).
Qed.

Lemma C5_error_status_rejects_witness :
  Utils.fetchJson 1 "https://api.github.com/gone" sample_env empty_state
  = (Throw (new_Error "GitHub API responded with status 404"),
     emits [EvRequest "https://api.github.com/gone" Utils.jsonHeaders]
       empty_state)
  /\ (Utils.download 1 "https://api.github.com/gone" "/tmp/x.tmp" true
        sample_env empty_state).1
     = Throw (new_Error "Download failed with status 404").
Proof.
  destruct (C5_error_status_rejects sample_env empty_state 1
              "https://api.github.com/gone" [] "/tmp/x.tmp" true
              {| statusCode := Some 404%Z; location := None;
                 contentLength := Some 9%Z; chunks := ["Not Found"];
                 parsed := not_json |} 404%Z)
    as [Hjson Hdownload]; [reflexivity | lia | simpl; lia |].
  split.
  - apply Hjson. apply reaches_here; reflexivity.
  - apply Hdownload. apply reaches_here; reflexivity.
Defined.

(** C10. A response with a 2xx status other than 200 makes fetchJson,
    download and getJson reject with an error carrying that status; a
    fetcher that resolves has ended on a response with status 200. *)
Theorem C10_only_200_succeeds env s fuel target hops path progress res code :
  statusCode res = Some code ->
  (200 <= code < 300)%Z ->
  code <> 200%Z ->
  (length hops < fuel)%nat ->
  (reaches env Utils.jsonHeaders target hops res ->
   (Utils.fetchJson fuel target env s).1
   = Throw (new_Error ("GitHub API responded with status " +:+ pretty code)))
  /\ (reaches env Utils.downloadHeaders target hops res ->
      (Utils.download fuel target path progress env s).1
      = Throw (new_Error ("Download failed with status " +:+ pretty code)))
  /\ (reaches env Standalone.jsonHeaders target hops res ->
      (Standalone.getJson fuel target env s).1
      = Throw (new_Error ("GitHub API responded with status " +:+ pretty code)))
  /\ (forall final value,
        reaches env Utils.jsonHeaders target hops final ->
        (Utils.fetchJson fuel target env s).1 = Ok value ->
        statusCode final = Some 200%Z)
  /\ (forall final,
        reaches env Utils.downloadHeaders target hops final ->
        (Utils.download fuel target path progress env s).1 = Ok tt ->
        statusCode final = Some 200%Z).
Proof.
  intros Hs Hc Hne Hfuel. repeat split.
  - intros Hr. rewrite (fetchJson_reaches _ _ _ _ Hr) by done.
    by rewrite (json_terminal_rejects _ code).
  - intros Hr. rewrite (download_reaches _ _ _ _ Hr) by done.
    by rewrite (Utils_download_terminal_rejects _ code).
  - intros Hr. rewrite (getJson_reaches _ _ _ _ Hr) by done.
    by rewrite (json_terminal_rejects _ code).
  - intros final value Hr. rewrite (fetchJson_reaches _ _ _ _ Hr) by done.
    unfold json_terminal, not_200.
    destruct (decide (statusCode final = Some 200%Z)) as [|Hn]; [done|].
    by rewrite (bool_decide_eq_false_2 _ Hn).
  - intros final Hr. rewrite (download_reaches _ _ _ _ Hr) by done.
    unfold Utils_download_terminal, not_200.
    destruct (decide (statusCode final = Some 200%Z)) as [|Hn]; [done|].
    by rewrite (bool_decide_eq_false_2 _ Hn).
Qed.

Lemma C10_only_200_succeeds_witness :
  (Utils.fetchJson 1 "https://api.github.com/created" sample_env empty_state).1
  = Throw (new_Error "GitHub API responded with status 201")
  /\ (Utils.download 1 "https://api.github.com/created" "/tmp/x.tmp" false
        sample_env empty_state).1
     = Throw (new_Error "Download failed with status 201")
  /\ (Standalone.getJson 1 "https://api.github.com/created" sample_env
        empty_state).1
     = Throw (new_Error "GitHub API responded with status 201").
Proof.
  destruct (C10_only_200_succeeds sample_env empty_state 1
              "https://api.github.com/created" [] "/tmp/x.tmp" false
              {| statusCode := Some 201%Z; location := None;
                 contentLength := Some 2%Z; chunks := ["{}"];
                 parsed := inr sample_release |} 201%Z)
    as (Hjson & Hdownload & Hget & _); [reflexivity | lia | lia | simpl; lia |].
  split; [|split].
  - apply Hjson. apply reaches_here; reflexivity.
  - apply Hdownload. apply reaches_here; reflexivity.
  - apply Hget. apply reaches_here; reflexivity.
Defined.
Lemma Utils_download_terminal_completes res path progress env s :
  statusCode res = Some 200%Z ->
  writeFault env path = None ->
  Utils_download_terminal res path progress env s
  = (Ok tt,
     with_files (<[path := written (files s !! path) (chunks res)]> (files s))
       (emits (receiving progress "Starting..." path res) s)).
Proof.
  intros Hs Hw. unfold Utils_download_terminal.
  rewrite (not_200_false _ Hs), Hw.
  erewrite Utils_pipe_complete; [|apply opened_lookup].
  unfold written, receiving, advances, opened, announced, with_files, emits, emit.
  destruct progress; cbn; rewrite insert_insert_eq;
    destruct (total_of res =? 0)%Z; cbn;
    by rewrite <- ?app_assoc, ?app_nil_r.
Qed.

Lemma Standalone_download_terminal_completes res path progress env s :
  statusCode res = Some 200%Z ->
  writeFault env path = None ->
  Standalone_download_terminal res path progress env s
  = (Ok tt,
     with_files (<[path := written (files s !! path) (chunks res)]> (files s))
       (emits (receiving progress "Starting download..." path res) s)).
Proof.
  intros Hs Hw. unfold Standalone_download_terminal.
  rewrite (not_200_false _ Hs), Hw.
  erewrite Standalone_pipe_complete; [|apply opened_lookup].
  unfold written, receiving, advances, opened, announced, with_files, emits, emit.
  destruct progress; cbn; rewrite insert_insert_eq;
    destruct (total_of res =? 0)%Z; cbn;
    by rewrite <- ?app_assoc, ?app_nil_r.
Qed.

Lemma chain_final_200 env headers target hops final :
  redirect_chain env headers target hops final ->
  statusCode final = Some 200%Z.
Proof. induction 1; auto. Qed.

(** C7. Along a chain of responses with status in 300..399 that carry a
    location header, ending in a 200 response, fetchJson and download
    request every hop in turn with the header set of the first request
    (user-agent, plus accept for the JSON call) and resolve with what the
    last response carries: the parsed document, or a closed file holding
    its whole body. *)
Theorem C7_redirects_followed env s fuel target hops final path progress :
  (length hops < fuel)%nat ->
  (redirect_chain env Utils.jsonHeaders target hops final ->
   forall value, parsed final = inr value ->
   Utils.fetchJson fuel target env s
   = (Ok value, emits (requests Utils.jsonHeaders (target :: hops)) s))
  /\ (redirect_chain env Utils.downloadHeaders target hops final ->
      writeFault env path = None ->
      Utils.download fuel target path progress env s
      = (Ok tt,
         with_files
           (<[path := written (files s !! path) (chunks final)]> (files s))
           (emits (requests Utils.downloadHeaders (target :: hops)
                   ++ receiving progress "Starting..." path final) s))).
Proof.
  intros Hfuel. split.
  - intros Hchain value Hv.
    rewrite (fetchJson_reaches _ _ _ _ (chain_reaches _ _ _ _ _ Hchain)) by done.
    unfold json_terminal.
    by rewrite (not_200_false _ (chain_final_200 _ _ _ _ _ Hchain)), Hv.
  - intros Hchain Hw.
    rewrite (download_reaches _ _ _ _ (chain_reaches _ _ _ _ _ Hchain)) by done.
    rewrite Utils_download_terminal_completes;
      [|by eapply chain_final_200|done].
    by rewrite emits_emits.
Qed.

Lemma C7_redirects_followed_witness :
  Utils.fetchJson 2 "https://api.github.com/moved" sample_env empty_state
  = (Ok sample_release,
     emits [EvRequest "https://api.github.com/moved" Utils.jsonHeaders;
            EvRequest sample_api Utils.jsonHeaders] empty_state)
  /\ (Utils.download 2 sample_asset_url "/tmp/x.tmp" false sample_env
        empty_state).1 = Ok tt.
Proof.
  split.
  - apply (C7_redirects_followed sample_env empty_state 2
             "https://api.github.com/moved" [sample_api]
             {| statusCode := Some 200%Z; location := None;
                contentLength := Some 5%Z; chunks := ["{...}"];
                parsed := inr sample_release |} "/tmp/x.tmp" false);
      [simpl; lia | | reflexivity].
    eapply (chain_hop _ _ _ _ 301%Z); try reflexivity; try lia; try done.
    apply chain_end; reflexivity.
  - erewrite (proj2 (C7_redirects_followed sample_env empty_state 2
             sample_asset_url [sample_cdn_url]
             {| statusCode := Some 200%Z; location := None;
                contentLength := Some 24%Z;
                chunks := ["<?php "; "__HALT_COMPILER();"];
                parsed := not_json |} "/tmp/x.tmp" false _));
      [reflexivity | | reflexivity].
    eapply (chain_hop _ _ _ _ 302%Z); try reflexivity; try lia; try done.
    apply chain_end; reflexivity.
  Unshelve. simpl; lia.
Defined.

(** ** Installers *)

Lemma headers_agree :
  Standalone.jsonHeaders = Utils.jsonHeaders
  /\ Standalone.downloadHeaders = Utils.downloadHeaders.
Proof. split; reflexivity. Qed.

Lemma fetchJson_only_requests fuel : forall target env s,
  exists es, (Utils.fetchJson fuel target env s).2 = emits es s
             /\ Forall is_json_request es.
Proof.
  induction fuel as [|hops IH]; intros target env s.
  - exists []. by rewrite emits_nil.
  - rewrite fetchJson_step. cbn zeta.
    assert (is_json_request (EvRequest target Utils.jsonHeaders)) as Hreq
      by (by exists target).
    destruct (net env target Utils.jsonHeaders) as [error|res].
    + exists [EvRequest target Utils.jsonHeaders]. split; [done|]. by constructor.
    + destruct (redirect_target res) as [next|].
      * destruct (IH next env (emit (EvRequest target Utils.jsonHeaders) s))
          as (es & -> & Hes).
        exists (EvRequest target Utils.jsonHeaders :: es).
        split; [by rewrite emit_emits|]. by constructor.
      * exists [EvRequest target Utils.jsonHeaders].
        split; [|by constructor]. unfold json_terminal.
        destruct (not_200 res); [done|]. by destruct (parsed res).
Qed.

Lemma getJson_only_requests fuel : forall target env s,
  exists es, (Standalone.getJson fuel target env s).2 = emits es s
             /\ Forall is_json_request es.
Proof.
  induction fuel as [|hops IH]; intros target env s.
  - exists []. by rewrite emits_nil.
  - rewrite getJson_step. cbn zeta.
    assert (is_json_request (EvRequest target Standalone.jsonHeaders)) as Hreq
      by (by exists target).
    destruct (net env target Standalone.jsonHeaders) as [error|res].
    + exists [EvRequest target Standalone.jsonHeaders]. split; [done|].
      by constructor.
    + destruct (redirect_target res) as [next|].
      * destruct (IH next env (emit (EvRequest target Standalone.jsonHeaders) s))
          as (es & -> & Hes).
        exists (EvRequest target Standalone.jsonHeaders :: es).
        split; [by rewrite emit_emits|]. by constructor.
      * exists [EvRequest target Standalone.jsonHeaders].
        split; [|by constructor]. unfold json_terminal.
        destruct (not_200 res); [done|]. by destruct (parsed res).
Qed.

Lemma fetchLatestReleaseAsset_only_requests fuel repo asset env s :
  exists es,
    (Utils.fetchLatestReleaseAsset fuel repo asset env s).2 = emits es s
    /\ Forall is_json_request es.
Proof.
  unfold Utils.fetchLatestReleaseAsset, bind.
  destruct (fetchJson_only_requests fuel
              ("https://api.github.com/repos/" +:+ repo +:+ "/releases/latest")
              env s) as (es & Hs & Hes).
  exists es. split; [|done].
  destruct (Utils.fetchJson _ _ env s) as [[release| |] s1]; cbn in *; try done.
  destruct (assets release) as [items|]; [|done].
  by destruct (List.find _ items).
Qed.

Lemma fetchLatestRelease_only_requests fuel env s :
  exists es,
    (Standalone.fetchLatestRelease fuel env s).2 = emits es s
    /\ Forall is_json_request es.
Proof.
  unfold Standalone.fetchLatestRelease, bind.
  destruct (getJson_only_requests fuel
              ("https://api.github.com/repos/" +:+ Standalone.GH_OWNER +:+ "/"
               +:+ Standalone.GH_REPO +:+ "/releases/latest")
              env s) as (es & Hs & Hes).
  exists es. split; [|done].
  destruct (Standalone.getJson _ _ env s) as [[body| |] s1]; cbn in *; try done.
  by destruct (List.find _ (default [] (assets body))).
Qed.

Lemma install_tail_run (download : Async unit) title tmp exec meta record env s :
  (withProgress title
     (download;; rename tmp exec;; chmod exec mode_0o755);;
   writeFile_meta meta record;;
   ret exec) env s
  = refreshed (chmodRefused env exec) tmp exec meta record
      (download env (emit (EvWithProgress title) s)).
Proof.
  unfold withProgress. unfold bind at 1. unfold bind at 1.
  unfold effect at 1, modify at 1. unfold bind at 1.
  destruct (download env (emit (EvWithProgress title) s)) as [[[]| |] s2];
    cbn [refreshed]; try reflexivity.
  unfold bind at 1. unfold rename, bind at 1, get.
  destruct (files s2 !! tmp) as [f|] eqn:Hf; [|reflexivity].
  unfold bind, effect, modify, chmod, get, ask, writeFile_meta, ret; cbn.
  rewrite lookup_insert_eq.
  destruct (chmodRefused env exec) as [error|]; [reflexivity|].
  cbv [bind effect modify ret]. cbn.
  unfold placed, with_files, emits, emit; cbn.
  by rewrite <- !app_assoc.
Qed.

Lemma readJson_run path env s :
  Utils.readJson path env s = (Ok (cached (files s !! path)), s).
Proof. reflexivity. Qed.

Lemma readMeta_run path env s :
  Standalone.readMeta path env s = (Ok (cached (files s !! path)), s).
Proof. reflexivity. Qed.

Lemma downloadServerExec_run fuel update env s :
  Extension.downloadServerExec fuel update env s =
  let s0 := emit (EvMkdir (Extension.storageDir env)) s in
  if negb update && bool_decide (is_Some (files s !! Extension.execPath env))
  then (Ok (Extension.execPath env), s0)
  else
    match Utils.fetchLatestReleaseAsset fuel Extension.SERVER_REPO
            Extension.SERVER_ASSET env s0 with
    | (Ok latest, s1) =>
        if tag_is (cached (files s !! Extension.metaPath env)) (Utils.tag latest)
           && bool_decide (is_Some (files s1 !! Extension.execPath env))
        then (Ok (Extension.execPath env), s1)
        else
          refreshed (chmodRefused env (Extension.execPath env))
            (Extension.execTmp env) (Extension.execPath env)
            (Extension.metaPath env)
            {| meta_tag := Utils.tag latest; downloadedAt := now env |}
            (Utils.download fuel (Utils.url latest) (Extension.execTmp env)
               true env (emit (EvWithProgress "Downloading php-cs-fixer-lsp") s1))
    | (Throw error, s1) => (Throw error, s1)
    | (Unsettled, s1) => (Unsettled, s1)
    end.
Proof.
  unfold Extension.downloadServerExec.
  unfold bind at 1, ask. unfold bind at 1, mkdir, effect, modify.
  unfold bind at 1. cbn zeta.
  assert (forall s0 : State,
    (let* current := Utils.readJson (Extension.metaPath env) in
     let* latest :=
       Utils.fetchLatestReleaseAsset fuel Extension.SERVER_REPO
         Extension.SERVER_ASSET in
     let* upToDate :=
       (if tag_is current (Utils.tag latest)
        then Utils.fileExists (Extension.execPath env) else ret false) in
     if upToDate then ret (Extension.execPath env)
     else
       withProgress "Downloading php-cs-fixer-lsp"
         (Utils.download fuel (Utils.url latest) (Extension.execTmp env) true;;
          rename (Extension.execTmp env) (Extension.execPath env);;
          chmod (Extension.execPath env) mode_0o755);;
       writeFile_meta (Extension.metaPath env)
         {| meta_tag := Utils.tag latest; downloadedAt := now env |};;
       ret (Extension.execPath env)) env s0
    = match Utils.fetchLatestReleaseAsset fuel Extension.SERVER_REPO
              Extension.SERVER_ASSET env s0 with
      | (Ok latest, s1) =>
          if tag_is (cached (files s0 !! Extension.metaPath env)) (Utils.tag latest)
             && bool_decide (is_Some (files s1 !! Extension.execPath env))
          then (Ok (Extension.execPath env), s1)
          else
            refreshed (chmodRefused env (Extension.execPath env))
              (Extension.execTmp env) (Extension.execPath env)
              (Extension.metaPath env)
              {| meta_tag := Utils.tag latest; downloadedAt := now env |}
              (Utils.download fuel (Utils.url latest) (Extension.execTmp env)
                 true env
                 (emit (EvWithProgress "Downloading php-cs-fixer-lsp") s1))
      | (Throw error, s1) => (Throw error, s1)
      | (Unsettled, s1) => (Unsettled, s1)
      end) as Hcheck.
  { intros s0. unfold bind at 1. rewrite readJson_run. unfold bind at 1.
    destruct (Utils.fetchLatestReleaseAsset _ _ _ env s0) as [[latest| |] s1];
      try reflexivity.
    unfold bind at 1.
    destruct (tag_is _ (Utils.tag latest)); cbn [andb].
    - unfold Utils.fileExists, path_exists, bind, get, ret.
      destruct (bool_decide (is_Some (files s1 !! Extension.execPath env)));
        [reflexivity|]. apply install_tail_run.
    - unfold ret at 1. apply install_tail_run. }
  destruct update; cbn [negb andb].
  - unfold ret at 1. by rewrite Hcheck.
  - unfold Utils.fileExists at 1, path_exists at 1, bind at 1, get at 1.
    unfold ret at 1. cbn [files emit].
    destruct (bool_decide (is_Some (files s !! Extension.execPath env)));
      [reflexivity|]. by rewrite Hcheck.
Qed.

Lemma ensureDownloadedBinary_run fuel force env s :
  Standalone.ensureDownloadedBinary fuel force env s =
  let s0 := emit (EvMkdir (Standalone.storageDir env)) s in
  match Standalone.fetchLatestRelease fuel env s0 with
  | (Ok latest, s1) =>
      if negb force
         && tag_is (cached (files s !! Standalone.metaPath env))
                   (Standalone.tag latest)
         && bool_decide (is_Some (files s1 !! Standalone.binaryPath env))
      then (Ok (Standalone.binaryPath env), s1)
      else
        refreshed (chmodRefused env (Standalone.binaryPath env))
          (Standalone.binaryPath env +:+ ".tmp")
          (Standalone.binaryPath env) (Standalone.metaPath env)
          {| meta_tag := Standalone.tag latest; downloadedAt := now env |}
          (Standalone.downloadToFile fuel (Standalone.downloadUrl latest)
             (Standalone.binaryPath env +:+ ".tmp") true env
             (emit (EvWithProgress "Downloading php-cs-fixer-lsp server...") s1))
  | (Throw error, s1) =>
      if bool_decide (is_Some (files s1 !! Standalone.binaryPath env))
      then (Ok (Standalone.binaryPath env), s1)
      else (Throw error, s1)
  | (Unsettled, s1) => (Unsettled, s1)
  end.
Proof.
  unfold Standalone.ensureDownloadedBinary.
  unfold bind at 1, ask. unfold bind at 1, mkdir, effect, modify.
  unfold bind at 1. rewrite readMeta_run. cbn zeta. cbn [files emit].
  unfold bind at 1. unfold try_catch, bind at 1.
  destruct (Standalone.fetchLatestRelease fuel env _) as [[latest| |] s1].
  - unfold ret at 1. unfold bind at 1.
    destruct (negb force && tag_is _ (Standalone.tag latest)); cbn [andb].
    + unfold Standalone.fileExists, path_exists, bind, get, ret.
      destruct (bool_decide (is_Some (files s1 !! Standalone.binaryPath env)));
        [reflexivity|]. apply install_tail_run.
    + unfold ret at 1. unfold Standalone.downloadBinary.
      apply install_tail_run.
  - unfold Standalone.fileExists, path_exists, bind, get, ret.
    by destruct (bool_decide (is_Some (files s1 !! Standalone.binaryPath env))).
  - reflexivity.
Qed.

(** ** Paths of the installers *)

Lemma join_leaf_ne dir a b : a <> b -> join dir a <> join dir b.
Proof.
  unfold join. intros Hne Heq. apply (inj _) in Heq. apply (inj _) in Heq. done.
Qed.

Lemma Extension_tmp_ne_exec env : Extension.execTmp env <> Extension.execPath env.
Proof. by apply append_suffix_ne. Qed.

Lemma Extension_meta_ne_exec env : Extension.metaPath env <> Extension.execPath env.
Proof. by apply join_leaf_ne. Qed.

Lemma join_append dir leaf suffix :
  join dir leaf +:+ suffix = join dir (leaf +:+ suffix).
Proof. unfold join. by rewrite !append_assoc. Qed.

Lemma Extension_meta_ne_tmp env : Extension.metaPath env <> Extension.execTmp env.
Proof.
  unfold Extension.execTmp, Extension.execPath, Extension.metaPath.
  rewrite join_append. by apply join_leaf_ne.
Qed.

Lemma Standalone_tmp_ne_binary env :
  Standalone.binaryPath env +:+ ".tmp" <> Standalone.binaryPath env.
Proof. by apply append_suffix_ne. Qed.

Lemma Standalone_meta_ne_binary env :
  Standalone.metaPath env <> Standalone.binaryPath env.
Proof. by apply join_leaf_ne. Qed.

Lemma Standalone_meta_ne_tmp env :
  Standalone.metaPath env <> Standalone.binaryPath env +:+ ".tmp".
Proof.
  unfold Standalone.binaryPath, Standalone.metaPath.
  rewrite join_append. by apply join_leaf_ne.
Qed.

(** ** Placing the downloaded file *)

Section Placed.
Variables (tmp exec meta : string) (record : ExecMeta).
Hypothesis tmp_ne_exec : tmp <> exec.
Hypothesis meta_ne_exec : meta <> exec.
Hypothesis meta_ne_tmp : meta <> tmp.

Lemma placed_exec f s :
  files (placed tmp exec meta record f s) !! exec
  = Some {| content := content f; mode := mode_0o755; closed := closed f |}.
Proof.
  unfold placed; cbn. rewrite lookup_insert_ne by done.
  by rewrite lookup_insert_eq.
Qed.

Lemma placed_meta f s :
  files (placed tmp exec meta record f s) !! meta
  = Some {| content := MetaDoc record; mode := mode_of (files s !! meta);
            closed := true |}.
Proof.
  unfold placed; cbn. rewrite lookup_insert_eq.
  by rewrite !lookup_insert_ne, lookup_delete_ne by done.
Qed.

Lemma placed_tmp f s : files (placed tmp exec meta record f s) !! tmp = None.
Proof.
  unfold placed; cbn. rewrite !lookup_insert_ne by done.
  by rewrite lookup_delete_eq.
Qed.

Lemma placed_other f s q :
  q <> tmp -> q <> exec -> q <> meta ->
  files (placed tmp exec meta record f s) !! q = files s !! q.
Proof.
  intros. unfold placed; cbn. rewrite !lookup_insert_ne by done.
  by rewrite lookup_delete_ne.
Qed.

Lemma placed_events f s :
  events (placed tmp exec meta record f s)
  = events s ++ [EvRename tmp exec; EvChmod exec mode_0o755; EvWriteFile meta].
Proof. reflexivity. Qed.

End Placed.

(** Every way an installer can end after it decided to refresh: either
    the download resolved and its file was renamed over the final path
    (and then marked executable, unless chmod is refused), or the final
    path is as it was. *)
Lemma refreshed_cases refusal tmp exec meta record s run :
  tmp <> exec ->
  download_post tmp s run ->
  let out := refreshed refusal tmp exec meta record run in
  (exists f es,
      run.1 = Ok tt /\ files run.2 !! tmp = Some f /\ closed f = true
      /\ out = match refusal with
               | None => (Ok exec, placed tmp exec meta record f run.2)
               | Some error => (Throw error, moved tmp exec f run.2)
               end
      /\ events run.2 = events s ++ es /\ EvCreateWriteStream tmp ∈ es)
  \/ (out.2 = run.2 /\ files out.2 !! exec = files s !! exec
      /\ (forall path, out.1 <> Ok path)).
Proof.
  intros Hne (_ & Hframe & (es & Hes & Hin) & Hok).
  destruct run as [[[]|error|] s2];
    cbn in *.
  - destruct Hok as (f & Hf & Hc); [done|]. left. exists f, es.
    rewrite Hf. by destruct refusal; repeat split; auto.
  - right. repeat split; auto.
  - right. repeat split; auto.
Qed.


Lemma tag_is_true cachedMeta latest :
  tag_is cachedMeta latest = true
  <-> exists meta, cachedMeta = Some meta /\ meta_tag meta = latest.
Proof.
  unfold tag_is. destruct cachedMeta as [meta|].
  - rewrite String.eqb_eq. split; [eauto|]. by intros (? & [= <-] & ?).
  - split; [done|]. by intros (? & ? & _).
Qed.

(** C4. A non-forced install whose cached tag equals the latest release tag
    and whose binary exists returns the existing path, changes no file and
    sends no download request: downloadServerExec returns before any
    request, ensureDownloadedBinary after the requests of the release
    lookup alone. *)
Theorem C4_up_to_date_returns_existing env fuel s meta :
  is_Some (files s !! Extension.execPath env) ->
  is_Some (files s !! Standalone.binaryPath env) ->
  cached (files s !! Standalone.metaPath env) = Some meta ->
  Extension.downloadServerExec fuel false env s
  = (Ok (Extension.execPath env), emit (EvMkdir (Extension.storageDir env)) s)
  /\ (forall latest s1,
        Standalone.fetchLatestRelease fuel env
          (emit (EvMkdir (Standalone.storageDir env)) s) = (Ok latest, s1) ->
        meta_tag meta = Standalone.tag latest ->
        Standalone.ensureDownloadedBinary fuel false env s
        = (Ok (Standalone.binaryPath env), s1)
        /\ files s1 = files s
        /\ exists es,
             events s1 = events s ++ EvMkdir (Standalone.storageDir env) :: es
             /\ Forall is_json_request es).
Proof.
  intros Hexec Hbinary Hmeta. split.
  - rewrite downloadServerExec_run. cbn zeta.
    by rewrite (bool_decide_eq_true_2 _ Hexec).
  - intros latest s1 Hlatest Htag.
    destruct (fetchLatestRelease_only_requests fuel env
                (emit (EvMkdir (Standalone.storageDir env)) s))
      as (es & Hs1 & Hes).
    rewrite Hlatest in Hs1. cbn in Hs1. subst s1.
    split; [|split; [done|]].
    + rewrite ensureDownloadedBinary_run. cbn zeta. rewrite Hlatest.
      rewrite Hmeta. cbn [negb andb files emits emit].
      assert (tag_is (Some meta) (Standalone.tag latest) = true) as ->
        by (apply tag_is_true; eauto).
      by rewrite (bool_decide_eq_true_2 _ Hbinary).
    + exists es. split; [|done]. cbn. by rewrite <- app_assoc.
Qed.

(** C3 as the code has it.  ensureDownloadedBinary: when the release lookup
    throws, an existing binary's path is returned, and without a binary the
    same error is thrown.  downloadServerExec: with [update = false] and an
    existing binary the path is returned without any request; whenever it
    does look the release up and the lookup throws, the same error is
    thrown, whether or not a binary exists. *)
Theorem C3_lookup_failure env fuel s error :
  (forall force s1,
     Standalone.fetchLatestRelease fuel env
       (emit (EvMkdir (Standalone.storageDir env)) s) = (Throw error, s1) ->
     Standalone.ensureDownloadedBinary fuel force env s
     = if bool_decide (is_Some (files s !! Standalone.binaryPath env))
       then (Ok (Standalone.binaryPath env), s1)
       else (Throw error, s1))
  /\ (is_Some (files s !! Extension.execPath env) ->
      Extension.downloadServerExec fuel false env s
      = (Ok (Extension.execPath env),
         emit (EvMkdir (Extension.storageDir env)) s))
  /\ (forall update s1,
        update = true \/ files s !! Extension.execPath env = None ->
        Utils.fetchLatestReleaseAsset fuel Extension.SERVER_REPO
          Extension.SERVER_ASSET env
          (emit (EvMkdir (Extension.storageDir env)) s) = (Throw error, s1) ->
        Extension.downloadServerExec fuel update env s = (Throw error, s1)).
Proof.
  split; [|split].
  - intros force s1 Hlookup.
    destruct (fetchLatestRelease_only_requests fuel env
                (emit (EvMkdir (Standalone.storageDir env)) s))
      as (es & Hs1 & _).
    rewrite Hlookup in Hs1. cbn in Hs1.
    rewrite ensureDownloadedBinary_run. cbn zeta. rewrite Hlookup.
    by rewrite Hs1.
  - intros Hexec. rewrite downloadServerExec_run. cbn zeta.
    by rewrite (bool_decide_eq_true_2 _ Hexec).
  - intros update s1 Hcheck Hlookup.
    rewrite downloadServerExec_run. cbn zeta. rewrite Hlookup.
    destruct Hcheck as [-> | Hnone]; [done|].
    rewrite Hnone. rewrite bool_decide_eq_false_2 by (by intros [? ?]).
    by rewrite andb_false_r.
Qed.

Lemma download_requests_first hops target path progress env s :
  exists es,
    events (Utils.download (S hops) target path progress env s).2
    = events s ++ EvRequest target Utils.downloadHeaders :: es.
Proof.
  destruct (Utils_download_post (S hops) target path progress env s)
    as (_ & _ & (es & Hes & _) & _).
  rewrite download_step in *. cbn zeta in *.
  destruct (net env target Utils.downloadHeaders) as [error|res].
  - by exists [].
  - destruct (redirect_target res) as [next|].
    + destruct (Utils_download_post hops next path progress env
                  (emit (EvRequest target Utils.downloadHeaders) s))
        as (_ & _ & (es' & Hes' & _) & _).
      exists es'. rewrite Hes'. cbn. by rewrite <- app_assoc.
    + unfold Utils_download_terminal in *. destruct (not_200 res).
      * by exists [].
      * destruct (Utils_pipe_post (chunks res) path progress (total_of res) 0%Z
                    (writeFault env path) env
                    (opened path (announced progress "Starting..."
                       (emit (EvRequest target Utils.downloadHeaders) s))))
          as (_ & _ & [es' Hes'] & _).
        rewrite Hes'. rewrite opened_events.
        destruct progress; cbn; eexists; by rewrite <- !app_assoc.
Qed.

Lemma downloadToFile_requests_first hops target path progress env s :
  exists es,
    events (Standalone.downloadToFile (S hops) target path progress env s).2
    = events s ++ EvRequest target Standalone.downloadHeaders :: es.
Proof.
  rewrite downloadToFile_step. cbn zeta.
  destruct (net env target Standalone.downloadHeaders) as [error|res].
  - by exists [].
  - destruct (redirect_target res) as [next|].
    + destruct (Standalone_downloadToFile_post hops next path progress env
                  (emit (EvRequest target Standalone.downloadHeaders) s))
        as (_ & _ & (es' & Hes' & _) & _).
      exists es'. rewrite Hes'. cbn. by rewrite <- app_assoc.
    + unfold Standalone_download_terminal. destruct (not_200 res).
      * by exists [].
      * destruct (Standalone_pipe_post (chunks res) path progress (total_of res)
                    0%Z (writeFault env path) env
                    (opened path (announced progress "Starting download..."
                       (emit (EvRequest target Standalone.downloadHeaders) s))))
          as (_ & _ & [es' Hes'] & _).
        rewrite Hes'. rewrite opened_events.
        destruct progress; cbn; eexists; by rewrite <- !app_assoc.
Qed.

Lemma refreshed_events refusal tmp exec meta record run :
  exists es,
    events (refreshed refusal tmp exec meta record run).2 = events run.2 ++ es.
Proof.
  destruct run as [[[]|error|] s]; cbn.
  - destruct (files s !! tmp) as [f|]; cbn;
      [destruct refusal; by eexists|].
    exists []. by rewrite app_nil_r.
  - exists []. by rewrite app_nil_r.
  - exists []. by rewrite app_nil_r.
Qed.

(** ** The effects of a download *)

Section EmitsOnly.
Context (allowed : Event -> Prop).

Lemma emits_only_silent {A} (m : Async A) :
  (forall env s, events (m env s).2 = events s) -> emits_only allowed m.
Proof. intros Hm env s. exists []. by rewrite Hm, app_nil_r. Qed.

Lemma emits_only_effect e : allowed e -> emits_only allowed (effect e).
Proof. intros He env s. exists [e]. split; [done|]. by constructor. Qed.

Lemma emits_only_bind {A B} (m : Async A) (k : A -> Async B) :
  emits_only allowed m -> (forall a, emits_only allowed (k a)) ->
  emits_only allowed (bind m k).
Proof.
  intros Hm Hk env s. unfold bind. destruct (Hm env s) as (es & He & Hall).
  destruct (m env s) as [[a|error|] s1]; cbn in *;
    [|by exists es|by exists es].
  destruct (Hk a env s1) as (es' & He' & Hall').
  exists (es ++ es'). split; [by rewrite He', He, app_assoc|].
  by apply Forall_app.
Qed.

Lemma emits_only_try_catch {A} (body : Async A) handler :
  emits_only allowed body -> (forall error, emits_only allowed (handler error)) ->
  emits_only allowed (try_catch body handler).
Proof.
  intros Hm Hk env s. unfold try_catch. destruct (Hm env s) as (es & He & Hall).
  destruct (body env s) as [[a|error|] s1]; cbn in *;
    [by exists es| |by exists es].
  destruct (Hk error env s1) as (es' & He' & Hall').
  exists (es ++ es'). split; [by rewrite He', He, app_assoc|].
  by apply Forall_app.
Qed.

Lemma write_chunk_silent path chunk : emits_only allowed (write_chunk path chunk).
Proof.
  apply emits_only_silent. intros env s.
  by destruct (write_chunk_run path chunk env s) as (s' & -> & _ & He & _).
Qed.

Lemma close_stream_silent path : emits_only allowed (close_stream path).
Proof.
  apply emits_only_silent. intros env s.
  by destruct (close_stream_run path env s) as (s' & -> & _ & He & _).
Qed.

End EmitsOnly.

Lemma emits_only_weaken {A} (P Q : Event -> Prop) (m : Async A) :
  (forall e, P e -> Q e) -> emits_only P m -> emits_only Q m.
Proof.
  intros HPQ Hm env s. destruct (Hm env s) as (es & He & Hall).
  exists es. split; [done|]. by eapply Forall_impl.
Qed.

Ltac emits_only_with known :=
  repeat first
    [ known
    | apply write_chunk_silent
    | apply close_stream_silent
    | apply emits_only_bind; [|intros ?]
    | apply emits_only_try_catch; [|intros ?]
    | apply emits_only_effect; done
    | apply emits_only_silent; done
    | progress cbn zeta
    | match goal with
      | |- emits_only _ (match ?x with _ => _ end) => destruct x
      end ].

Lemma Utils_pipe_emits path progress body : forall total received fault,
  emits_only (staging path)
    (Utils.pipe path progress total received fault body).
Proof.
  induction body as [|chunk rest IH]; intros total received fault;
    destruct fault as [[[|n] error]|]; cbn [Utils.pipe]; unfold Utils.report;
    emits_only_with ltac:(apply IH).
Qed.

Lemma Standalone_pipe_emits path progress body : forall total received fault,
  emits_only (staging path)
    (Standalone.pipe path progress total received fault body).
Proof.
  induction body as [|chunk rest IH]; intros total received fault;
    destruct fault as [[[|n] error]|]; cbn [Standalone.pipe];
    unfold Standalone.report; emits_only_with ltac:(apply IH).
Qed.

(** A download sends requests, reports progress and opens a write stream on
    its destination, nothing else. *)
Lemma Utils_download_emits fuel path progress : forall target,
  emits_only (staging path) (Utils.download fuel target path progress).
Proof.
  induction fuel as [|hops IH]; intros target; cbn [Utils.download];
    unfold https_get, createWriteStream, unsettled;
    emits_only_with ltac:(first [apply IH | apply Utils_pipe_emits]).
Qed.

Lemma Standalone_downloadToFile_emits fuel path progress : forall target,
  emits_only (staging path)
    (Standalone.downloadToFile fuel target path progress).
Proof.
  induction fuel as [|hops IH]; intros target; cbn [Standalone.downloadToFile];
    unfold https_get, createWriteStream, unsettled;
    emits_only_with ltac:(first [apply IH | apply Standalone_pipe_emits]).
Qed.

Lemma lookup_staging tmp dir es :
  Forall is_json_request es -> Forall (staging tmp) (EvMkdir dir :: es).
Proof.
  intros Hes. constructor; [done|]. eapply Forall_impl; [exact Hes|].
  by intros e [target ->].
Qed.

Lemma lookup_not_download dir es :
  Forall is_json_request es -> ~ download_attempted (EvMkdir dir :: es).
Proof.
  intros Hes [target Hin].
  apply elem_of_cons in Hin as [Heq|Hin]; [discriminate|].
  rewrite Forall_forall in Hes. destruct (Hes _ Hin) as [target' Heq].
  by injection Heq.
Qed.

(** ** The final path of the binary *)

Lemma refreshed_install_post refusal tmp exec meta record s s1 pre run :
  tmp <> exec -> meta <> exec -> meta <> tmp ->
  files s1 = files s ->
  events s1 = events s ++ pre ->
  Forall (staging tmp) pre ->
  download_post tmp s1 run ->
  (exists es, events run.2 = events s1 ++ es /\ Forall (staging tmp) es) ->
  whole (files s !! exec) ->
  install_post refusal tmp exec meta s
    (refreshed refusal tmp exec meta record run).
Proof.
  intros Hte Hme Hmt Hfiles Hevents Hpre Hpost (es' & Hes' & Hall) Hwhole.
  destruct (refreshed_cases refusal tmp exec meta record s1 run Hte Hpost)
    as [(f & es & _ & Hf & Hclosed & -> & Hes & Hin)|(Hsame & Hexec & Hne)].
  - assert (es = es') as ->
      by (rewrite Hes in Hes'; by apply app_inv_head in Hes').
    assert (Forall (staging tmp) (pre ++ es')) as Hstaged
      by (by apply Forall_app).
    assert (EvCreateWriteStream tmp ∈ pre ++ es') as Hopened
      by (apply elem_of_app; by right).
    destruct refusal as [error|]; unfold install_post; cbn [fst snd].
    + assert (files (moved tmp exec f run.2) !! exec = Some f) as Hmoved
        by (unfold moved; cbn; by rewrite lookup_insert_eq).
      split; [by rewrite Hmoved|]. split; [done|].
      exists (pre ++ es'), [EvRename tmp exec]. split; [|split; [done|]].
      * cbn. rewrite Hes, Hevents. by rewrite <- !app_assoc.
      * right. by exists f.
    + split; [by rewrite placed_exec|]. split.
      { intros _ _. by rewrite placed_exec. }
      exists (pre ++ es'),
        [EvRename tmp exec; EvChmod exec mode_0o755; EvWriteFile meta].
      split; [|split; [done|]].
      * rewrite placed_events, Hes, Hevents. by rewrite <- !app_assoc.
      * right. exists f. rewrite placed_exec by done. by rewrite Hclosed.
  - unfold install_post. split; [by rewrite Hexec, Hfiles|].
    split; [intros _ Hok; by rewrite Hexec, Hfiles|].
    exists (pre ++ es'), []. rewrite app_nil_r.
    split; [|split; [by apply Forall_app|]].
    + rewrite Hsame, Hes', Hevents. by rewrite <- app_assoc.
    + left. split; [done|]. split; [by rewrite Hexec, Hfiles|].
      intros path Hok. by destruct (Hne path).
Qed.

Lemma install_post_unchanged refusal tmp exec meta s s' pre
    (result : Outcome string) :
  files s' = files s ->
  events s' = events s ++ pre ->
  Forall (staging tmp) pre ->
  (forall path, result = Ok path -> path = exec /\ ~ download_attempted pre) ->
  whole (files s !! exec) ->
  install_post refusal tmp exec meta s (result, s').
Proof.
  intros Hfiles Hevents Hpre Hresult Hwhole. unfold install_post.
  cbn [fst snd]. split; [by rewrite Hfiles|]. split; [by rewrite Hfiles|].
  exists pre, []. rewrite app_nil_r. split; [done|]. split; [done|].
  left. by rewrite Hfiles.
Qed.

Lemma downloadServerExec_post env fuel update s :
  whole (files s !! Extension.execPath env) ->
  install_post (chmodRefused env (Extension.execPath env))
    (Extension.execTmp env) (Extension.execPath env)
    (Extension.metaPath env) s (Extension.downloadServerExec fuel update env s).
Proof.
  intros Hwhole. rewrite downloadServerExec_run. cbn zeta.
  destruct (negb update && _).
  { apply (install_post_unchanged _ _ _ _ _ _
             [EvMkdir (Extension.storageDir env)]); try done.
    - by apply lookup_staging.
    - intros path [= <-]. split; [done|]. by apply lookup_not_download. }
  destruct (fetchLatestReleaseAsset_only_requests fuel Extension.SERVER_REPO
              Extension.SERVER_ASSET env
              (emit (EvMkdir (Extension.storageDir env)) s))
    as (es & Hs1 & Hes).
  assert (forall result,
    (forall path, result = Ok path -> path = Extension.execPath env) ->
    install_post (chmodRefused env (Extension.execPath env))
      (Extension.execTmp env) (Extension.execPath env)
      (Extension.metaPath env) s
      (result, emits es (emit (EvMkdir (Extension.storageDir env)) s)))
    as Hkept.
  { intros result Hresult.
    apply (install_post_unchanged _ _ _ _ _ _
             (EvMkdir (Extension.storageDir env) :: es)); try done.
    - cbn. by rewrite <- app_assoc.
    - by apply lookup_staging.
    - intros path Hok. split; [by apply Hresult|].
      by apply lookup_not_download. }
  destruct (Utils.fetchLatestReleaseAsset _ _ _ env _) as [[latest| |] s1];
    cbn in Hs1; subst s1; try by apply Hkept.
  destruct (tag_is _ _ && _); [apply Hkept; by intros path [= <-]|].
  eapply (refreshed_install_post _ _ _ _ _ s _
            (EvMkdir (Extension.storageDir env) :: es
             ++ [EvWithProgress "Downloading php-cs-fixer-lsp"]));
    [apply Extension_tmp_ne_exec | apply Extension_meta_ne_exec
    | apply Extension_meta_ne_tmp | | | | apply Utils_download_post
    | apply Utils_download_emits | done].
  - reflexivity.
  - cbn. by rewrite <- !app_assoc.
  - rewrite app_comm_cons. apply Forall_app. split; [by apply lookup_staging|].
    by repeat constructor.
Qed.

Lemma ensureDownloadedBinary_post env fuel force s :
  whole (files s !! Standalone.binaryPath env) ->
  install_post (chmodRefused env (Standalone.binaryPath env))
    (Standalone.binaryPath env +:+ ".tmp")
    (Standalone.binaryPath env) (Standalone.metaPath env) s
    (Standalone.ensureDownloadedBinary fuel force env s).
Proof.
  intros Hwhole. rewrite ensureDownloadedBinary_run. cbn zeta.
  destruct (fetchLatestRelease_only_requests fuel env
              (emit (EvMkdir (Standalone.storageDir env)) s))
    as (es & Hs1 & Hes).
  assert (forall result,
    (forall path, result = Ok path -> path = Standalone.binaryPath env) ->
    install_post (chmodRefused env (Standalone.binaryPath env))
      (Standalone.binaryPath env +:+ ".tmp")
      (Standalone.binaryPath env) (Standalone.metaPath env) s
      (result, emits es (emit (EvMkdir (Standalone.storageDir env)) s)))
    as Hkept.
  { intros result Hresult.
    apply (install_post_unchanged _ _ _ _ _ _
             (EvMkdir (Standalone.storageDir env) :: es)); try done.
    - cbn. by rewrite <- app_assoc.
    - by apply lookup_staging.
    - intros path Hok. split; [by apply Hresult|].
      by apply lookup_not_download. }
  destruct (Standalone.fetchLatestRelease fuel env _) as [[latest| |] s1];
    cbn in Hs1; subst s1.
  - destruct (negb force && _ && _); [apply Hkept; by intros path [= <-]|].
    eapply (refreshed_install_post _ _ _ _ _ s _
              (EvMkdir (Standalone.storageDir env) :: es
               ++ [EvWithProgress "Downloading php-cs-fixer-lsp server..."]));
      [apply Standalone_tmp_ne_binary | apply Standalone_meta_ne_binary
      | apply Standalone_meta_ne_tmp | | |
      | apply Standalone_downloadToFile_post
      | apply Standalone_downloadToFile_emits | done].
    + reflexivity.
    + cbn. by rewrite <- !app_assoc.
    + rewrite app_comm_cons. apply Forall_app.
      split; [by apply lookup_staging|]. by repeat constructor.
  - destruct (bool_decide _); apply Hkept; [by intros path [= <-]|done].
  - by apply Hkept.
Qed.

(** C6 as the code has it.  Whatever way an install ends, the binary at the
    final path is absent or completely written, given it was so before: it
    is never a partial download.  Every write stream of the install is
    opened on the temp path next to the final path; the file at the final
    path is either the one found before the run, or the closed file that a
    write stream left at the temp path, renamed over the final path.  The
    rename is followed by [chmod 0o755] and the metadata write, and the
    install then resolves with an executable binary; a resolved install
    that sent a download request ended in this way.  When the host refuses
    that chmod, the install throws the refusal right after the rename, and
    the new binary stays at the final path, whole, as the write stream left
    it.  The temp path is never the final path. *)
Theorem C6_binary_never_partial env fuel update force s :
  whole (files s !! Extension.execPath env) ->
  install_post (chmodRefused env (Extension.execPath env))
    (Extension.execTmp env) (Extension.execPath env)
    (Extension.metaPath env) s (Extension.downloadServerExec fuel update env s)
  /\ install_post (chmodRefused env (Standalone.binaryPath env))
       (Standalone.binaryPath env +:+ ".tmp")
       (Standalone.binaryPath env) (Standalone.metaPath env) s
       (Standalone.ensureDownloadedBinary fuel force env s)
  /\ Extension.execTmp env <> Extension.execPath env
  /\ Standalone.binaryPath env +:+ ".tmp" <> Standalone.binaryPath env.
Proof.
  intros Hwhole. split; [|split; [|split]].
  - by apply downloadServerExec_post.
  - by apply ensureDownloadedBinary_post.
  - apply Extension_tmp_ne_exec.
  - apply Standalone_tmp_ne_binary.
Qed.

Lemma C6_binary_never_partial_witness :
  install_post (chmodRefused locked_env (Extension.execPath locked_env))
    (Extension.execTmp locked_env) (Extension.execPath locked_env)
    (Extension.metaPath locked_env) (installed_state "v1.1.0")
    (Extension.downloadServerExec 3 true locked_env (installed_state "v1.1.0"))
  /\ install_post (chmodRefused sample_env (Standalone.binaryPath sample_env))
       (Standalone.binaryPath sample_env +:+ ".tmp")
       (Standalone.binaryPath sample_env) (Standalone.metaPath sample_env)
       (installed_state "v1.1.0")
       (Standalone.ensureDownloadedBinary 3 false sample_env
          (installed_state "v1.1.0")).
Proof.
  destruct (C6_binary_never_partial locked_env 3 true false
              (installed_state "v1.1.0")) as [Hclass _];
    [vm_compute; reflexivity|].
  destruct (C6_binary_never_partial sample_env 3 true false
              (installed_state "v1.1.0")) as (_ & Hstandalone & _);
    [vm_compute; reflexivity|].
  split; [exact Hclass|exact Hstandalone].
Defined.

(** The claim C6 fails when the host refuses the chmod that follows the
    rename: the install throws, and the final path, which held an
    executable binary, now holds the new binary, completely written, without
    the executable bits. *)
Lemma C6_counterexample :
  binary_ok (files (installed_state "v1.1.0") !! Extension.execPath locked_env)
  /\ (Extension.downloadServerExec 3 true locked_env
        (installed_state "v1.1.0")).1
     = Throw (ErrorObj ("EPERM: operation not permitted, chmod "
                        +:+ Extension.execPath locked_env) None)
  /\ files (Extension.downloadServerExec 3 true locked_env
              (installed_state "v1.1.0")).2 !! Extension.execPath locked_env
     = Some {| content := Bytes "<?php __HALT_COMPILER();";
               mode := creation_mode; closed := true |}
  /\ ~ binary_ok
         (files (Extension.downloadServerExec 3 true locked_env
                   (installed_state "v1.1.0")).2
          !! Extension.execPath locked_env)
  /\ (Standalone.ensureDownloadedBinary 3 true locked_env
        (installed_state "v1.1.0")).1
     = Throw (ErrorObj ("EPERM: operation not permitted, chmod "
                        +:+ Standalone.binaryPath locked_env) None)
  /\ ~ binary_ok
         (files (Standalone.ensureDownloadedBinary 3 true locked_env
                   (installed_state "v1.1.0")).2
          !! Standalone.binaryPath locked_env).
Proof.
  assert (files (Extension.downloadServerExec 3 true locked_env
                   (installed_state "v1.1.0")).2
          !! Extension.execPath locked_env
          = Some {| content := Bytes "<?php __HALT_COMPILER();";
                    mode := creation_mode; closed := true |}) as Hclass
    by (vm_compute; reflexivity).
  assert (files (Standalone.ensureDownloadedBinary 3 true locked_env
                   (installed_state "v1.1.0")).2
          !! Standalone.binaryPath locked_env
          = Some {| content := Bytes "<?php __HALT_COMPILER();";
                    mode := creation_mode; closed := true |}) as Hstandalone
    by (vm_compute; reflexivity).
  split; [vm_compute; by split|].
  split; [vm_compute; reflexivity|].
  split; [exact Hclass|].
  split; [rewrite Hclass; by intros [_ Hmode]|].
  split; [vm_compute; reflexivity|].
  rewrite Hstandalone. by intros [_ Hmode].
Qed.

Lemma fetchLatestReleaseAsset_needs_fuel repo asset env s latest s1 :
  Utils.fetchLatestReleaseAsset 0 repo asset env s <> (Ok latest, s1).
Proof. done. Qed.

Lemma fetchLatestRelease_needs_fuel env s latest s1 :
  Standalone.fetchLatestRelease 0 env s <> (Ok latest, s1).
Proof. done. Qed.

(** C1 as the code has it.  ensureDownloadedBinary with [force = true]
    requests the latest asset whenever the release lookup resolves, whatever
    the cached tag and whether or not the binary exists.  downloadServerExec
    with [update = true] does so unless the cached tag equals the latest tag
    and the binary exists; in that case it returns the existing path after
    the requests of the release lookup alone. *)
Theorem C1_forced_install env fuel s :
  (forall latest s1,
     Standalone.fetchLatestRelease fuel env
       (emit (EvMkdir (Standalone.storageDir env)) s) = (Ok latest, s1) ->
     exists es,
       events (Standalone.ensureDownloadedBinary fuel true env s).2
       = events s1
         ++ [EvWithProgress "Downloading php-cs-fixer-lsp server...";
             EvRequest (Standalone.downloadUrl latest) Standalone.downloadHeaders]
         ++ es)
  /\ (forall latest s1,
        Utils.fetchLatestReleaseAsset fuel Extension.SERVER_REPO
          Extension.SERVER_ASSET env
          (emit (EvMkdir (Extension.storageDir env)) s) = (Ok latest, s1) ->
        if tag_is (cached (files s !! Extension.metaPath env)) (Utils.tag latest)
           && bool_decide (is_Some (files s !! Extension.execPath env))
        then
          Extension.downloadServerExec fuel true env s
          = (Ok (Extension.execPath env), s1)
          /\ files s1 = files s
          /\ exists es,
               events s1 = events s ++ EvMkdir (Extension.storageDir env) :: es
               /\ Forall is_json_request es
        else
          exists es,
            events (Extension.downloadServerExec fuel true env s).2
            = events s1
              ++ [EvWithProgress "Downloading php-cs-fixer-lsp";
                  EvRequest (Utils.url latest) Utils.downloadHeaders]
              ++ es).
Proof.
  split; intros latest s1 Hlookup.
  - rewrite ensureDownloadedBinary_run. cbn zeta. rewrite Hlookup.
    cbn [negb andb]. destruct fuel as [|hops]; [done|].
    destruct (downloadToFile_requests_first hops (Standalone.downloadUrl latest)
                (Standalone.binaryPath env +:+ ".tmp") true env
                (emit (EvWithProgress "Downloading php-cs-fixer-lsp server...") s1))
      as [es Hes].
    destruct (refreshed_events (chmodRefused env (Standalone.binaryPath env))
                (Standalone.binaryPath env +:+ ".tmp")
                (Standalone.binaryPath env) (Standalone.metaPath env)
                {| meta_tag := Standalone.tag latest; downloadedAt := now env |}
                (Standalone.downloadToFile (S hops) (Standalone.downloadUrl latest)
                   (Standalone.binaryPath env +:+ ".tmp") true env
                   (emit (EvWithProgress "Downloading php-cs-fixer-lsp server...") s1)))
      as [es' Hes'].
    exists (es ++ es'). rewrite Hes', Hes. cbn. by rewrite <- !app_assoc.
  - destruct (fetchLatestReleaseAsset_only_requests fuel Extension.SERVER_REPO
                Extension.SERVER_ASSET env
                (emit (EvMkdir (Extension.storageDir env)) s))
      as (es0 & Hs1 & Hes0).
    rewrite Hlookup in Hs1. cbn in Hs1.
    assert (files s1 = files s) as Hfiles by (by rewrite Hs1).
    rewrite downloadServerExec_run. cbn zeta. rewrite Hlookup.
    cbn [negb andb]. rewrite Hfiles.
    destruct (tag_is _ _ && _).
    + split; [done|]. split; [done|]. exists es0. split; [|done].
      rewrite Hs1. cbn. by rewrite <- app_assoc.
    + destruct fuel as [|hops]; [done|].
      destruct (download_requests_first hops (Utils.url latest)
                  (Extension.execTmp env) true env
                  (emit (EvWithProgress "Downloading php-cs-fixer-lsp") s1))
        as [es Hes].
      destruct (refreshed_events (chmodRefused env (Extension.execPath env))
                  (Extension.execTmp env)
                  (Extension.execPath env) (Extension.metaPath env)
                  {| meta_tag := Utils.tag latest; downloadedAt := now env |}
                  (Utils.download (S hops) (Utils.url latest)
                     (Extension.execTmp env) true env
                     (emit (EvWithProgress "Downloading php-cs-fixer-lsp") s1)))
        as [es' Hes'].
      exists (es ++ es'). rewrite Hes', Hes. cbn. by rewrite <- !app_assoc.
Qed.

(** The claim C1 fails on downloadServerExec: with [update = true], the
    cached tag equal to the latest tag and the binary in place, no download
    request is sent. *)
Lemma C1_counterexample :
  Extension.downloadServerExec 3 true sample_env (installed_state "v1.2.0")
  = (Ok (Extension.execPath sample_env),
     emits [EvMkdir (Extension.storageDir sample_env);
            EvRequest sample_api Utils.jsonHeaders] (installed_state "v1.2.0"))
  /\ ~ download_attempted
         (events (Extension.downloadServerExec 3 true sample_env
                    (installed_state "v1.2.0")).2).
Proof.
  assert (Extension.downloadServerExec 3 true sample_env (installed_state "v1.2.0")
          = (Ok (Extension.execPath sample_env),
             emits [EvMkdir (Extension.storageDir sample_env);
                    EvRequest sample_api Utils.jsonHeaders]
               (installed_state "v1.2.0"))) as Hrun by (vm_compute; reflexivity).
  split; [exact Hrun|]. rewrite Hrun. cbn. intros [target Hin].
  apply elem_of_cons in Hin as [Heq|Hin]; [discriminate|].
  apply elem_of_cons in Hin as [Heq|Hin]; [|by apply elem_of_nil in Hin].
  by injection Heq.
Qed.

(** A refresh that runs to completion: the file the download left at the
    temp path is at the final path, closed and executable, the temp path is
    free again, and the sidecar file records [record]. *)
Lemma refreshed_completes tmp exec meta record s s2 :
  tmp <> exec -> meta <> exec -> meta <> tmp ->
  download_post tmp s (Ok tt, s2) ->
  exists f s',
    files s2 !! tmp = Some f /\ closed f = true
    /\ refreshed None tmp exec meta record (Ok tt, s2) = (Ok exec, s')
    /\ files s' !! exec
       = Some {| content := content f; mode := mode_0o755; closed := true |}
    /\ cached (files s' !! meta) = Some record
    /\ files s' !! tmp = None
    /\ events s'
       = events s2
         ++ [EvRename tmp exec; EvChmod exec mode_0o755; EvWriteFile meta].
Proof.
  intros Hte Hme Hmt (_ & _ & _ & Hok).
  destruct Hok as (f & Hf & Hclosed); [done|].
  cbn in Hf. exists f, (placed tmp exec meta record f s2). cbn [refreshed].
  rewrite Hf. repeat split; auto.
  - rewrite placed_exec by done. by rewrite Hclosed.
  - by rewrite placed_meta.
  - by apply placed_tmp.
Qed.

(** C2 as the code has it.  ensureDownloadedBinary, not forced: when the
    cached tag differs from the latest tag, the download resolves and the
    host does not refuse the chmod of the final path, the downloaded file
    replaces the binary at the final path, executable, and the sidecar
    file records the latest tag.  downloadServerExec does the
    same with [update = true]; with [update = false] and a binary in place
    it returns the existing path and refreshes nothing, whatever the
    tags. *)
Theorem C2_refresh_on_new_tag env fuel s :
  (forall latest s1 s2,
     Standalone.fetchLatestRelease fuel env
       (emit (EvMkdir (Standalone.storageDir env)) s) = (Ok latest, s1) ->
     tag_is (cached (files s !! Standalone.metaPath env)) (Standalone.tag latest)
     = false ->
     Standalone.downloadToFile fuel (Standalone.downloadUrl latest)
       (Standalone.binaryPath env +:+ ".tmp") true env
       (emit (EvWithProgress "Downloading php-cs-fixer-lsp server...") s1)
     = (Ok tt, s2) ->
     chmodRefused env (Standalone.binaryPath env) = None ->
     exists f s',
       files s2 !! (Standalone.binaryPath env +:+ ".tmp") = Some f
       /\ closed f = true
       /\ Standalone.ensureDownloadedBinary fuel false env s
          = (Ok (Standalone.binaryPath env), s')
       /\ files s' !! Standalone.binaryPath env
          = Some {| content := content f; mode := mode_0o755; closed := true |}
       /\ cached (files s' !! Standalone.metaPath env)
          = Some {| meta_tag := Standalone.tag latest; downloadedAt := now env |}
       /\ files s' !! (Standalone.binaryPath env +:+ ".tmp") = None
       /\ events s'
          = events s2
            ++ [EvRename (Standalone.binaryPath env +:+ ".tmp")
                  (Standalone.binaryPath env);
                EvChmod (Standalone.binaryPath env) mode_0o755;
                EvWriteFile (Standalone.metaPath env)])
  /\ (forall latest s1 s2,
        Utils.fetchLatestReleaseAsset fuel Extension.SERVER_REPO
          Extension.SERVER_ASSET env
          (emit (EvMkdir (Extension.storageDir env)) s) = (Ok latest, s1) ->
        tag_is (cached (files s !! Extension.metaPath env)) (Utils.tag latest)
        = false ->
        Utils.download fuel (Utils.url latest) (Extension.execTmp env) true env
          (emit (EvWithProgress "Downloading php-cs-fixer-lsp") s1)
        = (Ok tt, s2) ->
        chmodRefused env (Extension.execPath env) = None ->
        exists f s',
          files s2 !! Extension.execTmp env = Some f
          /\ closed f = true
          /\ Extension.downloadServerExec fuel true env s
             = (Ok (Extension.execPath env), s')
          /\ files s' !! Extension.execPath env
             = Some {| content := content f; mode := mode_0o755; closed := true |}
          /\ cached (files s' !! Extension.metaPath env)
             = Some {| meta_tag := Utils.tag latest; downloadedAt := now env |}
          /\ files s' !! Extension.execTmp env = None
          /\ events s'
             = events s2
               ++ [EvRename (Extension.execTmp env) (Extension.execPath env);
                   EvChmod (Extension.execPath env) mode_0o755;
                   EvWriteFile (Extension.metaPath env)])
  /\ (is_Some (files s !! Extension.execPath env) ->
      Extension.downloadServerExec fuel false env s
      = (Ok (Extension.execPath env),
         emit (EvMkdir (Extension.storageDir env)) s)).
Proof.
  split; [|split].
  - intros latest s1 s2 Hlookup Htag Hdownload Hchmod.
    pose proof (Standalone_downloadToFile_post fuel
                  (Standalone.downloadUrl latest)
                  (Standalone.binaryPath env +:+ ".tmp") true env
                  (emit (EvWithProgress "Downloading php-cs-fixer-lsp server...") s1))
      as Hpost.
    rewrite Hdownload in Hpost.
    destruct (refreshed_completes _ _ (Standalone.metaPath env)
                {| meta_tag := Standalone.tag latest; downloadedAt := now env |}
                _ _ (Standalone_tmp_ne_binary env)
                (Standalone_meta_ne_binary env) (Standalone_meta_ne_tmp env)
                Hpost)
      as (f & s' & Hf & Hclosed & Hrun & Hrest).
    exists f, s'. split; [done|]. split; [done|]. split; [|done].
    rewrite ensureDownloadedBinary_run. cbn zeta. rewrite Hlookup, Htag.
    cbn [negb andb]. by rewrite Hdownload, Hchmod.
  - intros latest s1 s2 Hlookup Htag Hdownload Hchmod.
    pose proof (Utils_download_post fuel (Utils.url latest)
                  (Extension.execTmp env) true env
                  (emit (EvWithProgress "Downloading php-cs-fixer-lsp") s1))
      as Hpost.
    rewrite Hdownload in Hpost.
    destruct (refreshed_completes _ _ (Extension.metaPath env)
                {| meta_tag := Utils.tag latest; downloadedAt := now env |}
                _ _ (Extension_tmp_ne_exec env)
                (Extension_meta_ne_exec env) (Extension_meta_ne_tmp env)
                Hpost)
      as (f & s' & Hf & Hclosed & Hrun & Hrest).
    exists f, s'. split; [done|]. split; [done|]. split; [|done].
    rewrite downloadServerExec_run. cbn zeta. rewrite Hlookup, Htag.
    cbn [negb andb]. by rewrite Hdownload, Hchmod.
  - intros Hexec. rewrite downloadServerExec_run. cbn zeta.
    by rewrite (bool_decide_eq_true_2 _ Hexec).
Qed.

(** The claim C2 fails on downloadServerExec: not forced, cached tag
    v1.1.0, latest tag v1.2.0 and the binary in place, it returns at once;
    the old binary and the old metadata stay. *)
Lemma C2_counterexample :
  Extension.downloadServerExec 3 false sample_env (installed_state "v1.1.0")
  = (Ok (Extension.execPath sample_env),
     emit (EvMkdir (Extension.storageDir sample_env)) (installed_state "v1.1.0"))
  /\ (Utils.fetchLatestReleaseAsset 3 Extension.SERVER_REPO
        Extension.SERVER_ASSET sample_env (installed_state "v1.1.0")).1
     = Ok {| Utils.tag := "v1.2.0"; Utils.url := sample_asset_url |}
  /\ files (Extension.downloadServerExec 3 false sample_env
              (installed_state "v1.1.0")).2 !! Extension.execPath sample_env
     = Some installed_binary
  /\ files (Extension.downloadServerExec 3 false sample_env
              (installed_state "v1.1.0")).2 !! Extension.metaPath sample_env
     = Some (meta_file "v1.1.0").
Proof. repeat split; vm_compute; reflexivity. Qed.

(** The claim C3 fails on downloadServerExec: with [update = true], the
    binary in place and no network, the lookup's error is thrown. *)
Lemma C3_counterexample :
  is_Some (files (installed_state "v1.2.0") !! Extension.execPath offline_env)
  /\ Extension.downloadServerExec 3 true offline_env (installed_state "v1.2.0")
     = (Throw (ErrorObj "getaddrinfo ENOTFOUND" None),
        emits [EvMkdir (Extension.storageDir offline_env);
               EvRequest sample_api Utils.jsonHeaders]
          (installed_state "v1.2.0")).
Proof.
  split; [eexists; vm_compute; reflexivity|]. vm_compute; reflexivity.
Qed.

(** ** Lifecycle *)

Lemma deliver_closes_run handler id n env s :
  (forall e s', handler (emit e s') = handler s') ->
  deliver_closes handler id n env s
  = (Ok tt, emits (replicate n (EvClosed id (handler s))) s).
Proof.
  intros Hhandler. revert s. induction n as [|n IH]; intros s.
  - cbn. by rewrite emits_nil.
  - cbn [deliver_closes replicate]. unfold bind at 1, get.
    unfold bind at 1, effect, modify. rewrite IH.
    by rewrite emit_emits, Hhandler.
Qed.

Lemma settle_run id how env s :
  settle Extension.errorHandler_closed id how env s
  = (match rejects how with Some error => Throw error | None => Ok tt end,
     emits (close_events id how (restarting s)) s).
Proof.
  unfold settle, bind. rewrite deliver_closes_run by done.
  by destruct (rejects how).
Qed.

Ltac run_async :=
  cbv beta iota zeta delta
    [bind ret throw unsettled try_catch get ask modify effect].

Lemma stopServer_run env s id :
  client s = Some id ->
  Extension.stopServer env s
  = (match rejects (disposeSettles env id) with
     | Some error => Throw error
     | None => Ok tt
     end,
     emits (stop_events env id (restarting s)) s).
Proof.
  intros Hc. unfold Extension.stopServer, Extension.client_stop,
    Extension.client_dispose.
  run_async. rewrite Hc. rewrite settle_run. cbn [restarting emit].
  unfold stop_events.
  destruct (rejects (stopSettles env id)) as [error|];
    cbn [client emits emit]; rewrite Hc, settle_run;
    cbn [restarting emits emit];
    rewrite ?emit_emits, ?emits_emit, ?emits_emits, ?emit_emits;
    (f_equal; f_equal; cbn; by rewrite <- ?app_assoc).
Qed.

Lemma startServer_run fuel env s :
  Extension.startServer fuel env s
  = match Extension.resolveServerExec fuel env s with
    | (Ok command, s1) => (Ok tt, started env command s1)
    | (Throw error, s1) =>
        (Ok tt,
         emits [EvShowError ("php-cs-fixer-lsp server failed to start: "
                             +:+ errorMessage error);
                EvAppendLine "server start failed";
                EvAppendLine (Utils.errorText error)] s1)
    | (Unsettled, s1) => (Unsettled, s1)
    end.
Proof.
  unfold Extension.startServer. run_async.
  destruct (Extension.resolveServerExec fuel env s) as [[command|error|] s1];
    try reflexivity;
    unfold started, with_client, with_fresh, emits, emit; cbn;
    by rewrite <- !app_assoc.
Qed.

Lemma restartServer_run fuel env s :
  Extension.restartServer fuel env s
  = match client s with
    | Some id =>
        let stopping :=
          with_restarting true
            (emits (EvSetRestarting true :: stop_events env id true) s) in
        match rejects (disposeSettles env id) with
        | Some error => (Throw error, stopping)
        | None =>
            Extension.startServer fuel env
              (with_restarting false (emit (EvSetRestarting false) stopping))
        end
    | None => Extension.startServer fuel env s
    end.
Proof.
  unfold Extension.restartServer, assign_restarting. run_async.
  destruct (client s) as [id|] eqn:Hc; [|reflexivity].
  rewrite (stopServer_run _ _ id) by done. cbn [restarting with_restarting].
  destruct (rejects (disposeSettles env id)); cbn zeta; repeat f_equal;
    unfold with_restarting, emits, emit; cbn; by rewrite <- ?app_assoc.
Qed.

Lemma close_events_handled id how : closes_handled (close_events id how true).
Proof.
  intros c result Hin. apply elem_of_replicate in Hin as [Heq _].
  injection Heq as _ Hresult. by rewrite Hresult.
Qed.

Lemma stop_events_handled env id : closes_handled (stop_events env id true).
Proof.
  intros c result Hin. unfold stop_events in Hin.
  apply elem_of_app in Hin as [Hin|Hin];
    [by apply list_elem_of_singleton in Hin|].
  apply elem_of_app in Hin as [Hin|Hin];
    [by apply close_events_handled in Hin|].
  apply elem_of_app in Hin as [Hin|Hin].
  { destruct (rejects (stopSettles env id)).
    - repeat (apply elem_of_cons in Hin as [Heq|Hin]; [discriminate|]).
      by apply elem_of_nil in Hin.
    - by apply elem_of_nil in Hin. }
  apply elem_of_app in Hin as [Hin|Hin];
    [by apply list_elem_of_singleton in Hin|].
  by apply close_events_handled in Hin.
Qed.

Lemma staging_install_event tmp e : staging tmp e -> install_event e.
Proof. by destruct e. Qed.

Lemma fetchLatestReleaseAsset_emits fuel repo asset :
  emits_only install_event (Utils.fetchLatestReleaseAsset fuel repo asset).
Proof.
  intros env s.
  destruct (fetchLatestReleaseAsset_only_requests fuel repo asset env s)
    as (es & -> & Hes).
  exists es. split; [done|]. eapply Forall_impl; [exact Hes|].
  by intros e [target ->].
Qed.

Lemma Utils_download_install fuel target path progress :
  emits_only install_event (Utils.download fuel target path progress).
Proof.
  eapply emits_only_weaken; [apply staging_install_event|].
  apply Utils_download_emits.
Qed.

(** The installer of the class has no effect on the language client. *)
Lemma downloadServerExec_emits fuel update :
  emits_only install_event (Extension.downloadServerExec fuel update).
Proof.
  unfold Extension.downloadServerExec, mkdir, Utils.fileExists, path_exists,
    Utils.readJson, withProgress, rename, chmod, writeFile_meta.
  emits_only_with
    ltac:(first [apply fetchLatestReleaseAsset_emits
                | apply Utils_download_install]).
Qed.

Lemma resolveServerExec_emits fuel :
  emits_only install_event (Extension.resolveServerExec fuel).
Proof.
  unfold Extension.resolveServerExec.
  emits_only_with ltac:(apply downloadServerExec_emits).
Qed.

(** C8 as the code has it.  A restart invoked while a client exists, and
    whose disposal of that client does not reject, sets the restarting
    flag, runs stopServer (stop with a timeout of 1000 ms, then dispose) to
    its end, clears the flag, and only then runs startServer.  When the
    server executable resolves, startServer creates and starts the new
    client; when resolving it throws, startServer shows and logs the error,
    no client is created or started, and the restart resolves all the
    same.  Every close notification delivered during the stop is reported
    as handled.  The [closed] handler reports [handled] exactly when the
    flag is set.  With no current client, a restart leaves the flag alone
    and only runs startServer. *)
Theorem C8_restart_order env fuel s :
  (forall id,
     client s = Some id ->
     rejects (disposeSettles env id) = None ->
     let stopping := with_restarting true (emit (EvSetRestarting true) s) in
     let stopped :=
       with_restarting false
         (emits (EvSetRestarting true :: stop_events env id true
                 ++ [EvSetRestarting false]) s) in
     Extension.stopServer env stopping
     = (Ok tt, emits (stop_events env id true) stopping)
     /\ closes_handled (stop_events env id true)
     /\ Extension.restartServer fuel env s
        = Extension.startServer fuel env stopped
     /\ (forall command s1,
           Extension.resolveServerExec fuel env stopped = (Ok command, s1) ->
           Extension.restartServer fuel env s
           = (Ok tt, started env command s1))
     /\ (forall error s1,
           Extension.resolveServerExec fuel env stopped = (Throw error, s1) ->
           Extension.restartServer fuel env s
           = (Ok tt,
              emits [EvShowError ("php-cs-fixer-lsp server failed to start: "
                                  +:+ errorMessage error);
                     EvAppendLine "server start failed";
                     EvAppendLine (Utils.errorText error)] s1)
           /\ exists es,
                events s1 = events stopped ++ es /\ Forall install_event es))
  /\ (client s = None ->
      Extension.restartServer fuel env s = Extension.startServer fuel env s)
  /\ Extension.errorHandler_closed s
     = {| action := DoNotRestart; handled := restarting s |}.
Proof.
  split; [|split; [|reflexivity]].
  - intros id Hc Hdispose. cbn zeta.
    assert (Extension.restartServer fuel env s
            = Extension.startServer fuel env
                (with_restarting false
                   (emits (EvSetRestarting true :: stop_events env id true
                           ++ [EvSetRestarting false]) s))) as Hrestart.
    { rewrite restartServer_run, Hc. cbn zeta. rewrite Hdispose.
      f_equal. unfold with_restarting, emits, emit.
      cbn [files events client restarting fresh outputChannel].
      by rewrite <- app_assoc. }
    split; [|split; [|split; [|split]]].
    + rewrite (stopServer_run _ _ id) by done. by rewrite Hdispose.
    + apply stop_events_handled.
    + exact Hrestart.
    + intros command s1 Hresolve.
      by rewrite Hrestart, startServer_run, Hresolve.
    + intros error s1 Hresolve.
      split; [by rewrite Hrestart, startServer_run, Hresolve|].
      destruct (resolveServerExec_emits fuel env
                  (with_restarting false
                     (emits (EvSetRestarting true :: stop_events env id true
                             ++ [EvSetRestarting false]) s)))
        as (es & Hes & Hall).
      rewrite Hresolve in Hes. by exists es.
  - intros Hc. by rewrite restartServer_run, Hc.
Qed.

Lemma C8_restart_order_witness :
  Extension.restartServer 1 configured_env running_state
  = (Ok tt,
     started configured_env "/usr/local/bin/php-cs-fixer-lsp"
       (with_restarting false
          (emits (EvSetRestarting true :: stop_events configured_env 0 true
                  ++ [EvSetRestarting false]) running_state))).
Proof.
  destruct (C8_restart_order configured_env 1 running_state) as [Hrunning _].
  destruct (Hrunning 0%nat) as (_ & _ & _ & Hstart & _);
    [reflexivity|reflexivity|].
  apply Hstart. reflexivity.
Defined.

(** The claim C8 fails on a restart without a current client: the flag is
    never set and nothing is stopped; the client is started at once. *)
Lemma C8_counterexample :
  client empty_state = None
  /\ Extension.restartServer 1 configured_env empty_state
     = (Ok tt,
        started configured_env "/usr/local/bin/php-cs-fixer-lsp" empty_state)
  /\ EvSetRestarting true
     ∉ events (Extension.restartServer 1 configured_env empty_state).2.
Proof.
  split; [reflexivity|]. split; [reflexivity|].
  cbn. intros Hin. repeat (apply elem_of_cons in Hin as [Heq|Hin]; [discriminate|]).
  by apply elem_of_nil in Hin.
Qed.

(** What happens when the disposal rejects: the restart stops there, the
    flag stays set and no client is started. *)
Lemma restart_aborted_by_dispose env fuel s id error :
  client s = Some id ->
  rejects (disposeSettles env id) = Some error ->
  Extension.restartServer fuel env s
  = (Throw error,
     with_restarting true
       (emits (EvSetRestarting true :: stop_events env id true) s)).
Proof.
  intros Hc Hdispose. rewrite restartServer_run, Hc. cbn zeta.
  by rewrite Hdispose.
Qed.

(** ** The session is left alone by the installers *)

Lemma emits_session es s : session (emits es s) = session s.
Proof. reflexivity. Qed.

Lemma refreshed_session refusal tmp exec meta record s run :
  download_post tmp s run ->
  session (refreshed refusal tmp exec meta record run).2 = session s.
Proof.
  intros (Hs & _). destruct run as [[[]|error|] s2]; cbn in *; try done.
  destruct (files s2 !! tmp); [|done]. by destruct refusal.
Qed.

Lemma downloadServerExec_session fuel update env s :
  session (Extension.downloadServerExec fuel update env s).2 = session s.
Proof.
  rewrite downloadServerExec_run. cbn zeta.
  destruct (negb update && _); [done|].
  destruct (fetchLatestReleaseAsset_only_requests fuel Extension.SERVER_REPO
              Extension.SERVER_ASSET env
              (emit (EvMkdir (Extension.storageDir env)) s)) as (es & Hs1 & _).
  destruct (Utils.fetchLatestReleaseAsset _ _ _ env _) as [[latest| |] s1];
    cbn in Hs1; subst s1; try done.
  destruct (tag_is _ _ && _); [done|].
  by rewrite (refreshed_session _ _ _ _ _ _ _ (Utils_download_post _ _ _ _ _ _)).
Qed.

Lemma ensureDownloadedBinary_session fuel force env s :
  session (Standalone.ensureDownloadedBinary fuel force env s).2 = session s.
Proof.
  rewrite ensureDownloadedBinary_run. cbn zeta.
  destruct (fetchLatestRelease_only_requests fuel env
              (emit (EvMkdir (Standalone.storageDir env)) s)) as (es & Hs1 & _).
  destruct (Standalone.fetchLatestRelease fuel env _) as [[latest| |] s1];
    cbn in Hs1; subst s1; try done.
  - destruct (negb force && _ && _); [done|].
    by rewrite (refreshed_session _ _ _ _ _ _ _
                  (Standalone_downloadToFile_post _ _ _ _ _ _)).
  - by destruct (bool_decide _).
Qed.

(** ** The output channel of the standalone file *)

Section Preserves.
Context {X : Type} (component : State -> X).
Hypothesis component_emit : forall e s, component (emit e s) = component s.

Lemma preserves_ret {A} (a : A) : preserves component (ret a).
Proof. by intros env s. Qed.

Lemma preserves_throw {A} error : preserves component (@throw A error).
Proof. by intros env s. Qed.

Lemma preserves_ask : preserves component ask.
Proof. by intros env s. Qed.

Lemma preserves_get : preserves component get.
Proof. by intros env s. Qed.

Lemma preserves_effect e : preserves component (effect e).
Proof. intros env s. apply component_emit. Qed.

Lemma preserves_modify f :
  (forall s, component (f s) = component s) -> preserves component (modify f).
Proof. intros Hf env s. apply Hf. Qed.

Lemma preserves_bind {A B} (m : Async A) (k : A -> Async B) :
  preserves component m -> (forall a, preserves component (k a)) ->
  preserves component (bind m k).
Proof.
  intros Hm Hk env s. unfold bind. specialize (Hm env s).
  destruct (m env s) as [[a|error|] s1]; cbn in *; try done.
  by rewrite Hk.
Qed.

Lemma preserves_try_catch {A} (body : Async A) handler :
  preserves component body -> (forall error, preserves component (handler error)) ->
  preserves component (try_catch body handler).
Proof.
  intros Hm Hk env s. unfold try_catch. specialize (Hm env s).
  destruct (body env s) as [[a|error|] s1]; cbn in *; try done.
  by rewrite Hk.
Qed.

Lemma preserves_deliver_closes handler id n :
  preserves component (deliver_closes handler id n).
Proof.
  induction n as [|n IH]; [apply preserves_ret|]. cbn [deliver_closes].
  apply preserves_bind; [apply preserves_get|]. intros s0.
  apply preserves_bind; [apply preserves_effect|]. intros _. apply IH.
Qed.

Lemma preserves_settle handler id how :
  preserves component (settle handler id how).
Proof.
  apply preserves_bind; [apply preserves_deliver_closes|]. intros _.
  destruct (rejects how); [apply preserves_throw|apply preserves_ret].
Qed.

End Preserves.

Ltac preserves_with known :=
  repeat first
    [ known
    | apply preserves_settle; done
    | apply preserves_deliver_closes; done
    | apply preserves_bind; [|intros ?]
    | apply preserves_try_catch; [|intros ?]
    | apply preserves_ret | apply preserves_throw | apply preserves_ask
    | apply preserves_get | apply preserves_effect; done
    | apply preserves_modify; done
    | progress cbn zeta
    | match goal with
      | |- preserves _ (match ?x with _ => _ end) => destruct x
      end ].

Lemma ensureDownloadedBinary_channel fuel force :
  preserves outputChannel (Standalone.ensureDownloadedBinary fuel force).
Proof.
  intros env s.
  pose proof (ensureDownloadedBinary_session fuel force env s) as Hs.
  by injection Hs.
Qed.

Lemma startLanguageClient_channel fuel :
  preserves outputChannel (Standalone.startLanguageClient fuel).
Proof.
  unfold Standalone.startLanguageClient, Standalone.resolveServerExecutable.
  preserves_with ltac:(apply ensureDownloadedBinary_channel).
Qed.

(** The commands and deactivate keep the output channel. *)
Lemma commands_keep_channel fuel :
  preserves outputChannel (Standalone.restartCommand fuel)
  /\ preserves outputChannel (Standalone.downloadCommand fuel)
  /\ preserves outputChannel Standalone.deactivate.
Proof.
  split; [|split].
  - unfold Standalone.restartCommand, assign_restarting.
    preserves_with ltac:(apply startLanguageClient_channel).
  - unfold Standalone.downloadCommand.
    preserves_with ltac:(apply ensureDownloadedBinary_channel).
  - unfold Standalone.deactivate. preserves_with fail.
Qed.

(** activate assigns the output channel before it creates a client, and
    nothing unassigns it: it is there however activate ends. *)
Lemma activate_opens_channel fuel env s :
  outputChannel (Standalone.activate fuel env s).2 = true.
Proof.
  unfold Standalone.activate, mkdir. run_async.
  pose proof (startLanguageClient_channel fuel env
                (with_outputChannel true
                   (emit (EvMkdir (globalStoragePath env)) s))) as Hc.
  destruct (Standalone.startLanguageClient fuel env _) as [[id|error|] s1];
    cbn in *; exact Hc.
Qed.

(** ** Formatting middleware *)

(** C9. When a formatting request throws, the middleware catches the
    thrown value, appends its text to the output channel and returns null:
    the request resolves, nothing is thrown to the session.  The class
    logs [errorText(error)]; the standalone file logs the message after
    a [formatting] tag and then the stack, if any, on the output channel
    that its activate has assigned ([activate_opens_channel]). *)
Theorem C9_formatting_error_caught {A : Type} env s s1
    (next : Async (option A)) error :
  next env s = (Throw error, s1) ->
  Extension.provideDocumentFormattingEdits next env s
  = (Ok None, emit (EvAppendLine (Utils.errorText error)) s1)
  /\ (outputChannel s1 = true ->
      Standalone.provideDocumentFormattingEdits next env s
      = (Ok None, emits (formatting_lines error) s1)).
Proof.
  intros Hnext. split; [|intros Hchannel].
  - unfold Extension.provideDocumentFormattingEdits. run_async.
    by rewrite Hnext.
  - unfold Standalone.provideDocumentFormattingEdits. run_async.
    rewrite Hnext, Hchannel. unfold formatting_lines.
    destruct error as [message [stack|]|text]; try reflexivity.
    destruct (truthy_str (Some stack)); [|reflexivity].
    by rewrite !emit_as_emits, emits_emits.
Qed.

Lemma C9_formatting_error_caught_witness :
  Extension.provideDocumentFormattingEdits failing_request sample_env empty_state
  = (Ok None,
     emit (EvAppendLine
             "Error: Request textDocument/formatting failed\n    at handleResponse")
       empty_state)
  /\ Standalone.provideDocumentFormattingEdits failing_request sample_env
       empty_state
     = (Ok None,
        emits [EvAppendLine "[formatting] Request textDocument/formatting failed";
               EvAppendLine
                 "Error: Request textDocument/formatting failed\n    at handleResponse"]
          empty_state).
Proof.
  destruct (C9_formatting_error_caught sample_env empty_state empty_state
              failing_request
              (ErrorObj "Request textDocument/formatting failed"
                 (Some "Error: Request textDocument/formatting failed\n    at handleResponse")))
    as [Hclass Hstandalone]; [reflexivity|].
  split; [exact Hclass|]. apply Hstandalone. reflexivity.
Defined.

(** A request that resolves passes through both middlewares untouched. *)
Lemma formatting_result_passes {A : Type} env s s1
    (next : Async (option A)) result :
  next env s = (Ok result, s1) ->
  Extension.provideDocumentFormattingEdits next env s = (Ok result, s1)
  /\ Standalone.provideDocumentFormattingEdits next env s = (Ok result, s1).
Proof.
  intros Hnext.
  unfold Extension.provideDocumentFormattingEdits,
    Standalone.provideDocumentFormattingEdits. run_async. by rewrite Hnext.
Qed.

(** ** The theorems at the concrete host *)

Lemma C4_up_to_date_returns_existing_witness :
  Extension.downloadServerExec 3 false sample_env (installed_state "v1.2.0")
  = (Ok (Extension.execPath sample_env),
     emit (EvMkdir (Extension.storageDir sample_env)) (installed_state "v1.2.0"))
  /\ Standalone.ensureDownloadedBinary 3 false sample_env
       (installed_state "v1.2.0")
     = (Ok (Standalone.binaryPath sample_env),
        emits [EvMkdir (Standalone.storageDir sample_env);
               EvRequest sample_api Standalone.jsonHeaders]
          (installed_state "v1.2.0")).
Proof.
  destruct (C4_up_to_date_returns_existing sample_env 3
              (installed_state "v1.2.0")
              {| meta_tag := "v1.2.0";
                 downloadedAt := "2024-01-01T00:00:00.000Z" |})
    as [Hext Hstd];
    [eexists; vm_compute; reflexivity | eexists; vm_compute; reflexivity
    | vm_compute; reflexivity |].
  split; [exact Hext|].
  apply (Hstd {| Standalone.tag := "v1.2.0";
                 Standalone.downloadUrl := sample_asset_url |});
    [vm_compute; reflexivity | reflexivity].
Defined.

Lemma C1_forced_install_witness :
  download_attempted
    (events (Standalone.ensureDownloadedBinary 3 true sample_env
               (installed_state "v1.2.0")).2)
  /\ download_attempted
       (events (Extension.downloadServerExec 3 true sample_env
                  (installed_state "v1.1.0")).2).
Proof.
  destruct (C1_forced_install sample_env 3 (installed_state "v1.2.0"))
    as [Hstd _].
  destruct (C1_forced_install sample_env 3 (installed_state "v1.1.0"))
    as [_ Hext].
  split.
  - destruct (Hstd {| Standalone.tag := "v1.2.0";
                      Standalone.downloadUrl := sample_asset_url |}
                (emits [EvMkdir (Standalone.storageDir sample_env);
                        EvRequest sample_api Standalone.jsonHeaders]
                   (installed_state "v1.2.0")))
      as [es Hes]; [vm_compute; reflexivity|].
    exists sample_asset_url. rewrite Hes.
    apply elem_of_app. right. apply elem_of_cons. right.
    apply elem_of_cons. by left.
  - specialize (Hext {| Utils.tag := "v1.2.0"; Utils.url := sample_asset_url |}
                  (emits [EvMkdir (Extension.storageDir sample_env);
                          EvRequest sample_api Utils.jsonHeaders]
                     (installed_state "v1.1.0"))).
    assert (Utils.fetchLatestReleaseAsset 3 Extension.SERVER_REPO
              Extension.SERVER_ASSET sample_env
              (emit (EvMkdir (Extension.storageDir sample_env))
                 (installed_state "v1.1.0"))
            = (Ok {| Utils.tag := "v1.2.0"; Utils.url := sample_asset_url |},
               emits [EvMkdir (Extension.storageDir sample_env);
                      EvRequest sample_api Utils.jsonHeaders]
                 (installed_state "v1.1.0")))
      as Hlookup by (vm_compute; reflexivity).
    specialize (Hext Hlookup).
    match type of Hext with
    | if ?c then _ else _ =>
        replace c with false in Hext by (vm_compute; reflexivity)
    end.
    destruct Hext as [es Hes].
    exists sample_asset_url. rewrite Hes.
    apply elem_of_app. right. apply elem_of_cons. right.
    apply elem_of_cons. by left.
Defined.

Lemma C2_refresh_on_new_tag_witness :
  cached (files (Standalone.ensureDownloadedBinary 3 false sample_env
                   (installed_state "v1.1.0")).2
          !! Standalone.metaPath sample_env)
  = Some {| meta_tag := "v1.2.0"; downloadedAt := now sample_env |}
  /\ files (Standalone.ensureDownloadedBinary 3 false sample_env
              (installed_state "v1.1.0")).2
     !! Standalone.binaryPath sample_env
     = Some {| content := Bytes "<?php __HALT_COMPILER();";
               mode := mode_0o755; closed := true |}.
Proof.
  destruct (C2_refresh_on_new_tag sample_env 3 (installed_state "v1.1.0"))
    as [Hstd _].
  destruct (Hstd {| Standalone.tag := "v1.2.0";
                    Standalone.downloadUrl := sample_asset_url |}
              (emits [EvMkdir (Standalone.storageDir sample_env);
                      EvRequest sample_api Standalone.jsonHeaders]
                 (installed_state "v1.1.0"))
              (Standalone.downloadToFile 3 sample_asset_url
                 (Standalone.binaryPath sample_env +:+ ".tmp") true sample_env
                 (emit (EvWithProgress "Downloading php-cs-fixer-lsp server...")
                    (emits [EvMkdir (Standalone.storageDir sample_env);
                            EvRequest sample_api Standalone.jsonHeaders]
                       (installed_state "v1.1.0")))).2)
    as (f & s' & Hf & _ & Hrun & Hbinary & Hmeta & _);
    [vm_compute; reflexivity | vm_compute; reflexivity
    | vm_compute; reflexivity | reflexivity |].
  rewrite Hrun. cbn [snd]. split; [exact Hmeta|].
  rewrite Hbinary. vm_compute in Hf. injection Hf as <-. reflexivity.
Defined.

Lemma C3_lookup_failure_witness :
  Standalone.ensureDownloadedBinary 3 false offline_env
    (installed_state "v1.2.0")
  = (Ok (Standalone.binaryPath offline_env),
     emits [EvMkdir (Standalone.storageDir offline_env);
            EvRequest sample_api Standalone.jsonHeaders]
       (installed_state "v1.2.0"))
  /\ Standalone.ensureDownloadedBinary 3 false offline_env empty_state
     = (Throw (ErrorObj "getaddrinfo ENOTFOUND" None),
        emits [EvMkdir (Standalone.storageDir offline_env);
               EvRequest sample_api Standalone.jsonHeaders] empty_state).
Proof.
  destruct (C3_lookup_failure offline_env 3 (installed_state "v1.2.0")
              (ErrorObj "getaddrinfo ENOTFOUND" None)) as [Hinstalled _].
  destruct (C3_lookup_failure offline_env 3 empty_state
              (ErrorObj "getaddrinfo ENOTFOUND" None)) as [Hmissing _].
  split.
  - rewrite (Hinstalled false
               (emits [EvMkdir (Standalone.storageDir offline_env);
                       EvRequest sample_api Standalone.jsonHeaders]
                  (installed_state "v1.2.0"))); reflexivity.
  - rewrite (Hmissing false
               (emits [EvMkdir (Standalone.storageDir offline_env);
                       EvRequest sample_api Standalone.jsonHeaders]
                  empty_state)); reflexivity.
Defined.

(** The configured executable is trimmed; a blank value means the managed
    download. *)
Example trim_configured :
  trim (cfg_serverExec configured_env) = "/usr/local/bin/php-cs-fixer-lsp"
  /\ trim "   " = EmptyString.
Proof. split; reflexivity. Qed.

Example errorText_prefers_stack :
  Utils.errorText (ErrorObj "boom" (Some "Error: boom at f")) = "Error: boom at f"
  /\ Utils.errorText (ErrorObj "boom" None) = "boom"
  /\ Utils.errorText (Thrown "42") = "42".
Proof. repeat split; reflexivity. Qed.

(** A redirect status with an empty location header is not followed: the
    status error is thrown. *)
Example redirect_without_location :
  (Utils.fetchJson 2 "https://api.github.com/nowhere" sample_env empty_state).1
  = Throw (new_Error "GitHub API responded with status 302").
Proof. reflexivity. Qed.

(** A write stream that fails after one chunk leaves its partial file,
    still open, at the temp path only; the installer throws and the binary
    at the final path is untouched. *)
Example partial_file_only_at_temp_path :
  let faulty :=
    {| net := net sample_env;
       writeFault := fun _ => Some (1%nat, ErrorObj "ENOSPC: no space left on device" None);
       chmodRefused := chmodRefused sample_env;
       now := now sample_env;
       globalStoragePath := globalStoragePath sample_env;
       cfg_serverExec := cfg_serverExec sample_env;
       cfg_serverArgs := cfg_serverArgs sample_env;
       stopSettles := stopSettles sample_env;
       disposeSettles := disposeSettles sample_env |} in
  let run := Extension.downloadServerExec 3 true faulty (installed_state "v1.1.0") in
  run.1 = Throw (ErrorObj "ENOSPC: no space left on device" None)
  /\ files run.2 !! Extension.execTmp faulty
     = Some {| content := Bytes "<?php "; mode := creation_mode; closed := false |}
  /\ files run.2 !! Extension.execPath faulty = Some installed_binary.
Proof. repeat split; vm_compute; reflexivity. Qed.

(** A restart without a network and without a binary: the old client is
    stopped and disposed, the managed download fails, the error is shown
    and logged, and no client is created. *)
Example restart_without_network :
  Extension.restartServer 3 offline_env running_state
  = (Ok tt,
     with_restarting false
       (emits [EvSetRestarting true; EvStop 0 1000;
               EvClosed 0 {| action := DoNotRestart; handled := true |};
               EvDispose 0; EvSetRestarting false;
               EvMkdir (Extension.storageDir offline_env);
               EvRequest sample_api Utils.jsonHeaders;
               EvShowError
                 "php-cs-fixer-lsp server failed to start: getaddrinfo ENOTFOUND";
               EvAppendLine "server start failed";
               EvAppendLine "getaddrinfo ENOTFOUND"] running_state)).
Proof. vm_compute. reflexivity. Qed.

(** * Further properties *)

(** ** The two copies of the fetchers *)

Lemma getJson_is_fetchJson fuel : forall target env s,
  Standalone.getJson fuel target env s = Utils.fetchJson fuel target env s.
Proof.
  induction fuel as [|hops IH]; intros target env s; [reflexivity|].
  rewrite getJson_step, fetchJson_step. cbn zeta.
  change Standalone.jsonHeaders with Utils.jsonHeaders.
  destruct (net env target Utils.jsonHeaders) as [error|res]; [done|].
  destruct (redirect_target res); [apply IH|done].
Qed.

Lemma write_chunk_agree path chunk env s s' :
  files s = files s' ->
  files (write_chunk path chunk env s).2 = files (write_chunk path chunk env s').2
  /\ (write_chunk path chunk env s).1 = Ok tt
  /\ (write_chunk path chunk env s').1 = Ok tt.
Proof.
  intros Hf. unfold write_chunk, modify. cbn. rewrite <- Hf.
  by destruct (files s !! path) as [[[data|meta] m c]|]; cbn; rewrite <- ?Hf.
Qed.

Lemma pipes_agree body :
  forall path progress total received received' fault env s s',
  files s = files s' ->
  (Standalone.pipe path progress total received fault body env s).1
  = (Utils.pipe path progress total received' fault body env s').1
  /\ files (Standalone.pipe path progress total received fault body env s).2
     = files (Utils.pipe path progress total received' fault body env s').2.
Proof.
  induction body as [|chunk rest IH];
    intros path progress total received received' fault env s s' Hf.
  - destruct fault as [[[|n] error]|]; cbn [Standalone.pipe Utils.pipe];
      try done; unfold close_stream, modify; cbn; rewrite <- Hf;
      by destruct (files s !! path); cbn; rewrite <- ?Hf.
  - assert (forall fault',
      ((write_chunk path chunk;;
        let delta := Z.of_nat (String.length chunk) in
        let received0 := (received + delta)%Z in
        Standalone.report progress total received0 delta;;
        Standalone.pipe path progress total received0 fault' rest) env s).1
      = ((write_chunk path chunk;;
          let* received0 :=
            Utils.report progress total received'
              (Z.of_nat (String.length chunk)) in
          Utils.pipe path progress total received0 fault' rest) env s').1
      /\ files
           ((write_chunk path chunk;;
             let delta := Z.of_nat (String.length chunk) in
             let received0 := (received + delta)%Z in
             Standalone.report progress total received0 delta;;
             Standalone.pipe path progress total received0 fault' rest) env s).2
         = files
             ((write_chunk path chunk;;
               let* received0 :=
                 Utils.report progress total received'
                   (Z.of_nat (String.length chunk)) in
               Utils.pipe path progress total received0 fault' rest) env s').2)
      as Hstep.
    { intros fault'. unfold bind. cbn zeta.
      destruct (write_chunk_agree path chunk env s s' Hf) as (Hw & H1 & H2).
      destruct (write_chunk path chunk env s) as [o1 s1].
      destruct (write_chunk path chunk env s') as [o2 s2].
      cbn in *. subst o1 o2.
      destruct (Standalone_report_run progress total
                  (received + Z.of_nat (String.length chunk))
                  (Z.of_nat (String.length chunk)) env s1) as (es & ->).
      destruct (Utils_report_run progress total received'
                  (Z.of_nat (String.length chunk)) env s2) as (r' & es' & ->).
      by apply IH. }
    destruct fault as [[[|n] error]|]; cbn [Standalone.pipe Utils.pipe];
      [split; [done|exact Hf] | apply Hstep | apply Hstep].
Qed.

Lemma downloads_agree fuel : forall target path progress env s s',
  files s = files s' ->
  (Standalone.downloadToFile fuel target path progress env s).1
  = (Utils.download fuel target path progress env s').1
  /\ files (Standalone.downloadToFile fuel target path progress env s).2
     = files (Utils.download fuel target path progress env s').2.
Proof.
  induction fuel as [|hops IH]; intros target path progress env s s' Hf;
    [by split|].
  rewrite downloadToFile_step, download_step. cbn zeta.
  change Standalone.downloadHeaders with Utils.downloadHeaders.
  destruct (net env target Utils.downloadHeaders) as [error|res]; [by split|].
  destruct (redirect_target res) as [next|]; [by apply IH|].
  unfold Standalone_download_terminal, Utils_download_terminal.
  destruct (not_200 res); [by split|].
  apply pipes_agree. unfold opened; cbn.
  rewrite !announced_files. cbn. by rewrite Hf.
Qed.

(** X7. The standalone file's copies of the fetchers behave as the ones of
    utils.ts: getJson is fetchJson; fetchLatestRelease is
    fetchLatestReleaseAsset for the server's repository and asset, up to
    the names of the record's fields; downloadToFile settles as download
    does and leaves the same files (the two differ in their first progress
    message only). *)
Theorem X7_fetchers_agree fuel target path progress env s :
  Standalone.getJson fuel target env s = Utils.fetchJson fuel target env s
  /\ (map_outcome as_asset (Standalone.fetchLatestRelease fuel env s).1,
      (Standalone.fetchLatestRelease fuel env s).2)
     = Utils.fetchLatestReleaseAsset fuel Extension.SERVER_REPO
         Extension.SERVER_ASSET env s
  /\ (Standalone.downloadToFile fuel target path progress env s).1
     = (Utils.download fuel target path progress env s).1
  /\ files (Standalone.downloadToFile fuel target path progress env s).2
     = files (Utils.download fuel target path progress env s).2.
Proof.
  split; [apply getJson_is_fetchJson|]. split; [|by apply downloads_agree].
  unfold Standalone.fetchLatestRelease, Utils.fetchLatestReleaseAsset, bind.
  rewrite getJson_is_fetchJson.
  change ("https://api.github.com/repos/" +:+ Standalone.GH_OWNER +:+ "/"
          +:+ Standalone.GH_REPO +:+ "/releases/latest")
    with ("https://api.github.com/repos/" +:+ Extension.SERVER_REPO
          +:+ "/releases/latest").
  destruct (Utils.fetchJson _ _ env s) as [[release| |] s1]; try reflexivity.
  change Standalone.ASSET_NAME with Extension.SERVER_ASSET.
  destruct (assets release) as [items|]; cbn [default id from_option];
    [|reflexivity].
  by destruct (List.find _ items).
Qed.

(** ** The release lookup *)

Lemma find_first {A} (p : A -> bool) (l : list A) x :
  List.find p l = Some x ->
  exists before after,
    l = before ++ x :: after /\ p x = true
    /\ forall y, y ∈ before -> p y = false.
Proof.
  induction l as [|a l IH]; [done|]. cbn. destruct (p a) eqn:Hp.
  - intros [= ->]. exists [], l. repeat split; auto.
    intros y Hy. by apply elem_of_nil in Hy.
  - intros Hfind. destruct (IH Hfind) as (before & after & -> & Hx & Hb).
    exists (a :: before), after. repeat split; auto.
    intros y Hy. apply elem_of_cons in Hy as [->|Hy]; auto.
Qed.

Lemma find_nowhere {A} (p : A -> bool) (l : list A) :
  List.find p l = None -> forall y, y ∈ l -> p y = false.
Proof.
  induction l as [|a l IH]; intros Hfind y Hy.
  - by apply elem_of_nil in Hy.
  - cbn in Hfind. destruct (p a) eqn:Hp; [done|].
    apply elem_of_cons in Hy as [->|Hy]; auto.
Qed.

(** X1. Once the release document is fetched, fetchLatestReleaseAsset
    resolves with the release's tag and the download URL of the first
    listed asset whose name is exactly the wanted one; when no listed asset
    has that name (or the document lists no assets at all) it throws
    'Latest release missing expected asset'.  It adds no effect of its
    own. *)
Theorem X1_asset_lookup fuel repo asset_name env s release s1 :
  Utils.fetchJson fuel
    ("https://api.github.com/repos/" +:+ repo +:+ "/releases/latest") env s
  = (Ok release, s1) ->
  (exists before item after,
      default [] (assets release) = before ++ item :: after
      /\ name item = asset_name
      /\ (forall other, other ∈ before -> name other <> asset_name)
      /\ Utils.fetchLatestReleaseAsset fuel repo asset_name env s
         = (Ok {| Utils.tag := tag_name release;
                  Utils.url := browser_download_url item |}, s1))
  \/ ((forall other, other ∈ default [] (assets release) ->
         name other <> asset_name)
      /\ Utils.fetchLatestReleaseAsset fuel repo asset_name env s
         = (Throw (new_Error "Latest release missing expected asset"), s1)).
Proof.
  intros Hfetch. unfold Utils.fetchLatestReleaseAsset, bind. rewrite Hfetch.
  destruct (assets release) as [items|]; cbn [default id from_option].
  - destruct (List.find _ items) as [item|] eqn:Hfind.
    + left. destruct (find_first _ _ _ Hfind) as (before & after & -> & Hx & Hb).
      exists before, item, after. repeat split; auto.
      * by apply String.eqb_eq.
      * intros other Hin. apply String.eqb_neq. auto.
    + right. split; [|done]. intros other Hin.
      apply String.eqb_neq. by apply (find_nowhere _ _ Hfind).
  - right. split; [|done]. intros other Hin. by apply elem_of_nil in Hin.
Qed.

Lemma X1_asset_lookup_witness :
  Utils.fetchLatestReleaseAsset 1 Extension.SERVER_REPO Extension.SERVER_ASSET
    sample_env empty_state
  = (Ok {| Utils.tag := "v1.2.0"; Utils.url := sample_asset_url |},
     emits [EvRequest sample_api Utils.jsonHeaders] empty_state)
  /\ Utils.fetchLatestReleaseAsset 1 Extension.SERVER_REPO "missing.phar"
       sample_env empty_state
     = (Throw (new_Error "Latest release missing expected asset"),
        emits [EvRequest sample_api Utils.jsonHeaders] empty_state).
Proof.
  split.
  - destruct (X1_asset_lookup 1 Extension.SERVER_REPO Extension.SERVER_ASSET
                sample_env empty_state sample_release
                (emits [EvRequest sample_api Utils.jsonHeaders] empty_state))
      as [(before & item & after & Hlist & Hname & _ & Hrun)|[Hnone _]];
      [reflexivity | |].
    + rewrite Hrun. do 2 f_equal.
      destruct before as [|first [|second more]]; cbn in Hlist.
      * injection Hlist as <- _. discriminate Hname.
      * injection Hlist as _ <- _. reflexivity.
      * injection Hlist as _ _ Hrest. by destruct more.
    + exfalso. apply (Hnone {| name := "php-cs-fixer-lsp.phar";
                              browser_download_url := sample_asset_url |});
        [|reflexivity].
      cbn. apply elem_of_cons. right. apply elem_of_cons. by left.
  - destruct (X1_asset_lookup 1 Extension.SERVER_REPO "missing.phar"
                sample_env empty_state sample_release
                (emits [EvRequest sample_api Utils.jsonHeaders] empty_state))
      as [(before & item & after & Hlist & Hname & _ & _)|[_ Hrun]];
      [reflexivity | | exact Hrun].
    exfalso. destruct before as [|first [|second more]]; cbn in Hlist.
    + injection Hlist as <- _. discriminate Hname.
    + injection Hlist as _ <- _. discriminate Hname.
    + injection Hlist as _ _ Hrest. by destruct more.
Defined.

(** ** How the fetchers fail *)

Lemma fetchJson_breaks env target hops error :
  breaks env Utils.jsonHeaders target hops error ->
  forall fuel s, (length hops < fuel)%nat ->
  Utils.fetchJson fuel target env s
  = (Throw error, emits (requests Utils.jsonHeaders (target :: hops)) s).
Proof.
  induction 1 as [target error Hnet|target res next hops error Hnet Hr _ IH];
    intros [|fuel] s Hfuel; cbn in Hfuel; try lia;
    rewrite fetchJson_step; cbn zeta; rewrite Hnet.
  - reflexivity.
  - rewrite Hr, IH by lia. by rewrite emit_emits.
Qed.

Lemma download_breaks env target hops error :
  breaks env Utils.downloadHeaders target hops error ->
  forall fuel path progress s, (length hops < fuel)%nat ->
  Utils.download fuel target path progress env s
  = (Throw error, emits (requests Utils.downloadHeaders (target :: hops)) s).
Proof.
  induction 1 as [target error Hnet|target res next hops error Hnet Hr _ IH];
    intros [|fuel] path progress s Hfuel; cbn in Hfuel; try lia;
    rewrite download_step; cbn zeta; rewrite Hnet.
  - reflexivity.
  - rewrite Hr, IH by lia. by rewrite emit_emits.
Qed.

(** X2. A request that emits 'error', at once or after redirects, rejects
    fetchJson and download with that very error; the download has created
    no file.  A 200 response whose body JSON.parse refuses rejects
    fetchJson with the parser's error. *)
Theorem X2_fetch_failures env s fuel target hops path progress error :
  (length hops < fuel)%nat ->
  (breaks env Utils.jsonHeaders target hops error ->
   Utils.fetchJson fuel target env s
   = (Throw error, emits (requests Utils.jsonHeaders (target :: hops)) s))
  /\ (breaks env Utils.downloadHeaders target hops error ->
      Utils.download fuel target path progress env s
      = (Throw error,
         emits (requests Utils.downloadHeaders (target :: hops)) s))
  /\ (forall final,
        reaches env Utils.jsonHeaders target hops final ->
        statusCode final = Some 200%Z ->
        parsed final = inl error ->
        Utils.fetchJson fuel target env s
        = (Throw error,
           emits (requests Utils.jsonHeaders (target :: hops)) s)).
Proof.
  intros Hfuel. split; [|split].
  - intros Hb. by apply fetchJson_breaks.
  - intros Hb. by apply download_breaks.
  - intros final Hr Hs Hp. rewrite (fetchJson_reaches _ _ _ _ Hr) by done.
    unfold json_terminal. by rewrite (not_200_false _ Hs), Hp.
Qed.

Lemma X2_fetch_failures_witness :
  Utils.fetchJson 1 sample_api offline_env empty_state
  = (Throw (ErrorObj "getaddrinfo ENOTFOUND" None),
     emits [EvRequest sample_api Utils.jsonHeaders] empty_state)
  /\ Utils.download 1 sample_asset_url "/tmp/x.tmp" true offline_env empty_state
     = (Throw (ErrorObj "getaddrinfo ENOTFOUND" None),
        emits [EvRequest sample_asset_url Utils.downloadHeaders] empty_state).
Proof.
  destruct (X2_fetch_failures offline_env empty_state 1 sample_api []
              "/tmp/x.tmp" true (ErrorObj "getaddrinfo ENOTFOUND" None))
    as (Hjson & _); [simpl; lia|].
  destruct (X2_fetch_failures offline_env empty_state 1 sample_asset_url []
              "/tmp/x.tmp" true (ErrorObj "getaddrinfo ENOTFOUND" None))
    as (_ & Hdownload & _); [simpl; lia|].
  split.
  - apply Hjson. by apply breaks_here.
  - apply Hdownload. by apply breaks_here.
Defined.

(** ** Redirects without end *)

Lemma fetchJson_loops env looping :
  redirects_within env Utils.jsonHeaders looping ->
  forall fuel target s, looping target ->
  exists targets,
    Utils.fetchJson fuel target env s
    = (Unsettled, emits (requests Utils.jsonHeaders targets) s)
    /\ length targets = fuel.
Proof.
  intros Hloop. induction fuel as [|hops IH]; intros target s Hin.
  - exists []. split; [|done]. cbn. by rewrite emits_nil.
  - destruct (Hloop target Hin) as (res & next & Hnet & Hr & Hnext).
    rewrite fetchJson_step. cbn zeta. rewrite Hnet, Hr.
    destruct (IH next (emit (EvRequest target Utils.jsonHeaders) s) Hnext)
      as (targets & -> & Hlen).
    exists (target :: targets). split; [by rewrite emit_emits|].
    cbn. by rewrite Hlen.
Qed.

Lemma download_loops env looping :
  redirects_within env Utils.downloadHeaders looping ->
  forall fuel target path progress s, looping target ->
  exists targets,
    Utils.download fuel target path progress env s
    = (Unsettled, emits (requests Utils.downloadHeaders targets) s)
    /\ length targets = fuel.
Proof.
  intros Hloop. induction fuel as [|hops IH]; intros target path progress s Hin.
  - exists []. split; [|done]. cbn. by rewrite emits_nil.
  - destruct (Hloop target Hin) as (res & next & Hnet & Hr & Hnext).
    rewrite download_step. cbn zeta. rewrite Hnet, Hr.
    destruct (IH next path progress
                (emit (EvRequest target Utils.downloadHeaders) s) Hnext)
      as (targets & -> & Hlen).
    exists (target :: targets). split; [by rewrite emit_emits|].
    cbn. by rewrite Hlen.
Qed.

(** X3. The fetchers count no redirects: on URLs that keep redirecting to
    one another, fetchJson and download send one request after the other
    and never settle, however many requests they are allowed; the download
    creates no file meanwhile. *)
Theorem X3_redirect_loop_never_settles env looping fuel target path progress s :
  looping target ->
  (redirects_within env Utils.jsonHeaders looping ->
   exists targets,
     Utils.fetchJson fuel target env s
     = (Unsettled, emits (requests Utils.jsonHeaders targets) s)
     /\ length targets = fuel)
  /\ (redirects_within env Utils.downloadHeaders looping ->
      exists targets,
        Utils.download fuel target path progress env s
        = (Unsettled, emits (requests Utils.downloadHeaders targets) s)
        /\ length targets = fuel).
Proof.
  intros Hin. split; intros Hloop.
  - by apply (fetchJson_loops env looping).
  - by apply (download_loops env looping).
Qed.

Lemma loop_env_redirects headers : redirects_within loop_env headers in_loop.
Proof.
  intros target [-> | ->].
  - eexists _, "https://loop.example/b".
    split; [reflexivity|]. split; [reflexivity|]. by right.
  - eexists _, "https://loop.example/a".
    split; [reflexivity|]. split; [reflexivity|]. by left.
Qed.

Lemma X3_redirect_loop_never_settles_witness :
  (Utils.fetchJson 5 "https://loop.example/a" loop_env empty_state).1
  = Unsettled
  /\ (Utils.download 5 "https://loop.example/a" "/tmp/x.tmp" true loop_env
        empty_state).1 = Unsettled.
Proof.
  destruct (X3_redirect_loop_never_settles loop_env in_loop 5
              "https://loop.example/a" "/tmp/x.tmp" true empty_state)
    as [Hjson Hdownload]; [by left|].
  destruct (Hjson (loop_env_redirects _)) as (? & -> & _).
  destruct (Hdownload (loop_env_redirects _)) as (? & -> & _).
  by split.
Defined.

(** ** What a download touches *)

(** X4. Whatever way it ends, a download (download, downloadToFile) changes
    no file but its destination and no field of the session, and fetchJson
    changes no file at all; a download that resolves leaves a closed file
    at its destination. *)
Theorem X4_download_footprint fuel target path progress env s other :
  other <> path ->
  let run := Utils.download fuel target path progress env s in
  let run' := Standalone.downloadToFile fuel target path progress env s in
  files run.2 !! other = files s !! other
  /\ files run'.2 !! other = files s !! other
  /\ session run.2 = session s
  /\ session run'.2 = session s
  /\ files (Utils.fetchJson fuel target env s).2 = files s
  /\ (run.1 = Ok tt ->
      exists f, files run.2 !! path = Some f /\ closed f = true).
Proof.
  intros Hne. cbn zeta.
  destruct (Utils_download_post fuel target path progress env s)
    as (Hs & Hf & _ & Hok).
  destruct (Standalone_downloadToFile_post fuel target path progress env s)
    as (Hs' & Hf' & _).
  destruct (fetchJson_only_requests fuel target env s) as (es & -> & _).
  repeat split; auto.
Qed.

Lemma X4_download_footprint_witness :
  files (Utils.download 2 sample_asset_url (Extension.execTmp sample_env) true
           sample_env (installed_state "v1.1.0")).2
  !! Extension.execPath sample_env
  = Some installed_binary.
Proof.
  destruct (X4_download_footprint 2 sample_asset_url
              (Extension.execTmp sample_env) true sample_env
              (installed_state "v1.1.0") (Extension.execPath sample_env))
    as (Hother & _).
  - intros Heq. symmetry in Heq. by apply Extension_tmp_ne_exec in Heq.
  - rewrite Hother. vm_compute. reflexivity.
Defined.

(** ** Write streams that fail *)

Lemma Utils_pipe_fault body :
  forall n path progress total received error env s data m c,
  files s !! path = Some {| content := Bytes data; mode := m; closed := c |} ->
  (n <= length body)%nat ->
  exists s',
    Utils.pipe path progress total received (Some (n, error)) body env s
    = (Throw error, s')
    /\ files s' !! path
       = Some {| content := Bytes (data +:+ payload (take n body)); mode := m;
                 closed := c |}.
Proof.
  induction body as [|chunk rest IH];
    intros [|n] path progress total received error env s data m c Hf Hn;
    cbn in Hn; try lia; cbn [Utils.pipe take payload].
  - exists s. by rewrite append_empty_r.
  - exists s. by rewrite append_empty_r.
  - unfold bind at 1. unfold write_chunk at 1, modify. rewrite Hf.
    unfold bind at 1.
    destruct (Utils_report_run progress total received
                (Z.of_nat (String.length chunk)) env
                (with_files
                   (<[path := {| content := Bytes (data +:+ chunk); mode := m;
                                 closed := c |}]> (files s)) s))
      as (received' & es & ->).
    cbn [after_chunk]. rewrite <- append_assoc.
    apply IH; [|lia]. cbn. by rewrite lookup_insert_eq.
Qed.

(** X5. When the write stream fails after [n] chunks of a 200 response,
    download rejects with the stream's error and leaves at its destination
    an unclosed file holding exactly those [n] chunks; no other file is
    touched. *)
Theorem X5_write_fault_leaves_partial_file env s fuel target hops final path
    progress n error other :
  (length hops < fuel)%nat ->
  redirect_chain env Utils.downloadHeaders target hops final ->
  writeFault env path = Some (n, error) ->
  (n <= length (chunks final))%nat ->
  other <> path ->
  let run := Utils.download fuel target path progress env s in
  run.1 = Throw error
  /\ files run.2 !! path
     = Some {| content := Bytes (payload (take n (chunks final)));
               mode := mode_of (files s !! path); closed := false |}
  /\ files run.2 !! other = files s !! other.
Proof.
  intros Hfuel Hchain Hfault Hn Hother. cbn zeta.
  split; [|split];
    [| |by destruct (Utils_download_post fuel target path progress env s)
          as (_ & Hf & _); apply Hf];
    rewrite (download_reaches _ _ _ _ (chain_reaches _ _ _ _ _ Hchain)) by done;
    unfold Utils_download_terminal;
    rewrite (not_200_false _ (chain_final_200 _ _ _ _ _ Hchain)), Hfault;
    destruct (Utils_pipe_fault (chunks final) n path progress (total_of final)
                0%Z error env
                (opened path (announced progress "Starting..."
                   (emits (requests Utils.downloadHeaders (target :: hops)) s)))
                EmptyString
                (mode_of (files (announced progress "Starting..."
                   (emits (requests Utils.downloadHeaders (target :: hops)) s))
                          !! path)) false (opened_lookup _ _) Hn)
      as (s' & -> & Hfile); [done|].
  cbn [snd]. rewrite Hfile. by rewrite announced_files.
Qed.

Lemma X5_write_fault_leaves_partial_file_witness :
  let run :=
    Utils.download 2 sample_asset_url "/tmp/x.tmp" true full_disk_env
      empty_state in
  run.1 = Throw (ErrorObj "ENOSPC: no space left on device" None)
  /\ files run.2 !! "/tmp/x.tmp"
     = Some {| content := Bytes "<?php "; mode := creation_mode;
               closed := false |}.
Proof.
  destruct (X5_write_fault_leaves_partial_file full_disk_env empty_state 2
              sample_asset_url [sample_cdn_url]
              {| statusCode := Some 200%Z; location := None;
                 contentLength := Some 24%Z;
                 chunks := ["<?php "; "__HALT_COMPILER();"];
                 parsed := not_json |} "/tmp/x.tmp" true 1
              (ErrorObj "ENOSPC: no space left on device" None) "/tmp/y")
    as (Hrun & Hfile & _);
    [simpl; lia | | reflexivity | simpl; lia | done | by split].
  eapply (chain_hop _ _ _ _ 302%Z); try reflexivity; try lia; try done.
  apply chain_end; reflexivity.
Defined.

(** ** Progress of a download *)

Lemma advance_deltas_requests headers targets :
  advance_deltas (requests headers targets) = []
  /\ advance_received (requests headers targets) = [].
Proof.
  induction targets as [|t l [IH1 IH2]]; [by split|]. split; cbn; assumption.
Qed.

Lemma advance_running total received body :
  advance_deltas (running total received body) = chunk_sizes body
  /\ advance_received (running total received body)
     = partial_sums received (chunk_sizes body).
Proof.
  revert received. induction body as [|chunk rest IH]; intros received;
    [by split|].
  destruct (IH (received + Z.of_nat (String.length chunk))%Z) as [IH1 IH2].
  unfold advance_deltas, advance_received in *.
  split; cbn; [rewrite IH1|rewrite IH2]; reflexivity.
Qed.

Lemma chunk_sizes_sum start body :
  last (partial_sums start (chunk_sizes body))
  = match body with
    | [] => None
    | _ => Some (start + Z.of_nat (String.length (payload body)))%Z
    end.
Proof.
  revert start. induction body as [|chunk rest IH]; intros start; [done|].
  cbn [chunk_sizes map partial_sums payload]. rewrite append_length.
  destruct rest as [|next rest'].
  - cbn. f_equal. lia.
  - change (map _ (next :: rest')) with (chunk_sizes (next :: rest')) in *.
    specialize (IH (start + Z.of_nat (String.length chunk))%Z).
    cbn [chunk_sizes map partial_sums] in *. rewrite last_cons, IH.
    f_equal. lia.
Qed.

(** X6. A download that receives its 200 response completely reports
    progress only when it was given a sink and the response carries a
    non-zero content-length: then it sends one update per chunk, in order,
    whose byte counts are the chunk sizes and whose running totals are
    their partial sums, ending at the size of the whole body.  Without a
    sink or a content-length it sends no such update, and the file is
    written all the same. *)
Theorem X6_progress_accounting env s fuel target hops final path progress :
  (length hops < fuel)%nat ->
  redirect_chain env Utils.downloadHeaders target hops final ->
  writeFault env path = None ->
  let run := Utils.download fuel target path progress env s in
  exists new,
    events run.2 = events s ++ new
    /\ files run.2 !! path = Some (written (files s !! path) (chunks final))
    /\ if progress && negb (total_of final =? 0)%Z then
         advance_deltas new = chunk_sizes (chunks final)
         /\ advance_received new = partial_sums 0 (chunk_sizes (chunks final))
         /\ last (advance_received new)
            = match chunks final with
              | [] => None
              | _ => Some (Z.of_nat (String.length (payload (chunks final))))
              end
       else advance_deltas new = [].
Proof.
  intros Hfuel Hchain Hfault. cbn zeta.
  rewrite (download_reaches _ _ _ _ (chain_reaches _ _ _ _ _ Hchain)) by done.
  rewrite Utils_download_terminal_completes;
    [|by eapply chain_final_200|done].
  exists (requests Utils.downloadHeaders (target :: hops)
          ++ receiving progress "Starting..." path final).
  split; [cbn; by rewrite <- app_assoc|]. split; [cbn; by rewrite lookup_insert_eq|].
  assert (advance_deltas (requests Utils.downloadHeaders (target :: hops)
                          ++ receiving progress "Starting..." path final)
          = advance_deltas (advances progress (total_of final) (chunks final))
          /\ advance_received (requests Utils.downloadHeaders (target :: hops)
                               ++ receiving progress "Starting..." path final)
             = advance_received
                 (advances progress (total_of final) (chunks final)))
    as [-> ->].
  { destruct (advance_deltas_requests Utils.downloadHeaders (target :: hops))
      as [Hd Hr].
    unfold advance_deltas, advance_received, receiving in *.
    rewrite !omap_app, Hd, Hr. by destruct progress. }
  unfold advances.
  destruct progress; cbn [andb negb orb]; [|done].
  destruct (total_of final =? 0)%Z; cbn [negb]; [done|].
  destruct (advance_running (total_of final) 0 (chunks final)) as [-> ->].
  split; [done|]. split; [done|]. by rewrite chunk_sizes_sum.
Qed.

Lemma X6_progress_accounting_witness :
  exists new,
    events (Utils.download 2 sample_asset_url "/tmp/x.tmp" true sample_env
              empty_state).2 = new
    /\ advance_deltas new = [6; 18]%Z
    /\ advance_received new = [6; 24]%Z.
Proof.
  destruct (X6_progress_accounting sample_env empty_state 2 sample_asset_url
              [sample_cdn_url]
              {| statusCode := Some 200%Z; location := None;
                 contentLength := Some 24%Z;
                 chunks := ["<?php "; "__HALT_COMPILER();"];
                 parsed := not_json |} "/tmp/x.tmp" true)
    as (new & Hevents & _ & Hdeltas & Hreceived & _);
    [simpl; lia | | reflexivity |].
  - eapply (chain_hop _ _ _ _ 302%Z); try reflexivity; try lia; try done.
    apply chain_end; reflexivity.
  - exists new. split; [exact Hevents|]. split; [exact Hdeltas|exact Hreceived].
Defined.

(** ** What an install touches *)

Lemma refreshed_frame refusal tmp exec meta record s run other :
  download_post tmp s run ->
  other <> tmp -> other <> exec -> other <> meta ->
  files (refreshed refusal tmp exec meta record run).2 !! other
  = files s !! other.
Proof.
  intros (_ & Hf & _) Ht He Hm.
  destruct run as [[[]|error|] s2]; cbn [refreshed fst snd] in *;
    try by apply Hf.
  destruct (files s2 !! tmp) as [f|]; cbn [fst snd]; [|by apply Hf].
  destruct refusal as [refused|]; cbn [fst snd].
  - unfold moved; cbn. rewrite lookup_insert_ne, lookup_delete_ne by done.
    by apply Hf.
  - rewrite placed_other by done. by apply Hf.
Qed.

(** X13. Whatever way it ends, an install (downloadServerExec,
    ensureDownloadedBinary) changes no file but the binary, its temp file
    and its metadata file, and leaves the session (current client,
    restarting flag) as it was. *)
Theorem X13_install_footprint env fuel update force s other :
  other <> Extension.execPath env ->
  other <> Extension.execTmp env ->
  other <> Extension.metaPath env ->
  other <> Standalone.metaPath env ->
  let run := Extension.downloadServerExec fuel update env s in
  let run' := Standalone.ensureDownloadedBinary fuel force env s in
  files run.2 !! other = files s !! other
  /\ files run'.2 !! other = files s !! other
  /\ session run.2 = session s
  /\ session run'.2 = session s.
Proof.
  intros Hexec Htmp Hmeta Hmeta'. cbn zeta.
  split; [|split; [|split]];
    [| |apply downloadServerExec_session|apply ensureDownloadedBinary_session].
  - rewrite downloadServerExec_run. cbn zeta.
    destruct (negb update && _); [done|].
    destruct (fetchLatestReleaseAsset_only_requests fuel Extension.SERVER_REPO
                Extension.SERVER_ASSET env
                (emit (EvMkdir (Extension.storageDir env)) s)) as (es & Hs1 & _).
    destruct (Utils.fetchLatestReleaseAsset _ _ _ env _) as [[latest| |] s1];
      cbn in Hs1; subst s1; try done.
    destruct (tag_is _ _ && _); [done|].
    by rewrite (refreshed_frame _ _ _ _ _ _ _ _
                  (Utils_download_post _ _ _ _ _ _)).
  - rewrite ensureDownloadedBinary_run. cbn zeta.
    destruct (fetchLatestRelease_only_requests fuel env
                (emit (EvMkdir (Standalone.storageDir env)) s)) as (es & Hs1 & _).
    destruct (Standalone.fetchLatestRelease fuel env _) as [[latest| |] s1];
      cbn in Hs1; subst s1; try done.
    + destruct (negb force && _ && _); [done|].
      by rewrite (refreshed_frame _ _ _ _ _ _ _ _
                    (Standalone_downloadToFile_post _ _ _ _ _ _)).
    + by destruct (bool_decide _).
Qed.

Lemma X13_install_footprint_witness :
  files (Extension.downloadServerExec 3 true sample_env
           (installed_state "v1.1.0")).2 !! "/etc/passwd" = None
  /\ session (Standalone.ensureDownloadedBinary 3 true sample_env
                (installed_state "v1.1.0")).2
     = session (installed_state "v1.1.0").
Proof.
  destruct (X13_install_footprint sample_env 3 true true
              (installed_state "v1.1.0") "/etc/passwd")
    as (Hfiles & _ & _ & Hsession);
    try (apply String.eqb_neq; vm_compute; reflexivity).
  split; [|exact Hsession]. rewrite Hfiles. vm_compute. reflexivity.
Defined.

(** ** The configured executable *)



(** ** What the handlers let escape *)



(** X10. stopServer with a current client: a rejected stop is logged and
    not thrown, the disposal always follows, stopServer settles as the
    disposal does, and the [client] field still holds the disposed client.
    Without a client nothing happens.  deactivate of the standalone file
    stops the client without a catch and never disposes it: it settles as
    the stop does. *)
Theorem X10_stop_and_deactivate env s :
  (client s = None ->
   Extension.stopServer env s = (Ok tt, s)
   /\ Standalone.deactivate env s = (Ok tt, s))
  /\ (forall id,
        client s = Some id ->
        Extension.stopServer env s
        = (match rejects (disposeSettles env id) with
           | Some error => Throw error
           | None => Ok tt
           end,
           emits (stop_events env id (restarting s)) s)
        /\ EvDispose id ∈ stop_events env id (restarting s)
        /\ (forall error,
              rejects (stopSettles env id) = Some error ->
              EvAppendLine (Utils.errorText error)
              ∈ stop_events env id (restarting s))
        /\ client (Extension.stopServer env s).2 = Some id
        /\ Standalone.deactivate env s
           = (match rejects (stopSettles env id) with
              | Some error => Throw error
              | None => Ok tt
              end,
              emits (EvStop id 1000
                     :: close_events id (stopSettles env id) (restarting s)) s)).
Proof.
  split.
  - intros Hc. unfold Extension.stopServer, Standalone.deactivate. run_async.
    rewrite Hc. split; [|reflexivity]. cbn. by rewrite Hc.
  - intros id Hc. rewrite (stopServer_run _ _ id) by done.
    split; [done|]. split; [|split; [|split; [done|]]].
    + unfold stop_events. set_solver.
    + intros error Hstop. unfold stop_events. rewrite Hstop. set_solver.
    + unfold Standalone.deactivate. run_async. rewrite Hc.
      change Standalone.errorHandler_closed with Extension.errorHandler_closed.
      rewrite settle_run. cbn [restarting emit].
      destruct (rejects (stopSettles env id)); by rewrite emit_emits.
Qed.

(** X11. A restart of the class whose disposal of the current client
    rejects is aborted: restartServer rejects with the disposal's error
    (that await is outside stopServer's try/catch), no client is created,
    and the restarting flag stays set, so that every later close is
    reported as handled. *)
Theorem X11_restart_aborted env fuel s id error :
  client s = Some id ->
  rejects (disposeSettles env id) = Some error ->
  (Extension.restartServer fuel env s).1 = Throw error
  /\ events (Extension.restartServer fuel env s).2
     = events s ++ EvSetRestarting true :: stop_events env id true
  /\ restarting (Extension.restartServer fuel env s).2 = true
  /\ handled (Extension.errorHandler_closed
                (Extension.restartServer fuel env s).2) = true
  /\ client (Extension.restartServer fuel env s).2 = Some id
  /\ fresh (Extension.restartServer fuel env s).2 = fresh s.
Proof.
  intros Hc Hdispose. rewrite restartServer_run, Hc. cbn zeta.
  rewrite Hdispose. by cbn.
Qed.

Lemma X11_restart_aborted_witness :
  (Extension.restartServer 1 stubborn_env running_state).1
  = Throw (ErrorObj "Client is not running" None)
  /\ restarting (Extension.restartServer 1 stubborn_env running_state).2 = true.
Proof.
  destruct (X11_restart_aborted stubborn_env 1 running_state 0%nat
              (ErrorObj "Client is not running" None))
    as (Hthrown & _ & Hflag & _); [reflexivity|reflexivity|].
  split; [exact Hthrown|exact Hflag].
Defined.

(** ** The restart command of the standalone file *)

Lemma startLanguageClient_restarting fuel :
  preserves restarting (Standalone.startLanguageClient fuel).
Proof.
  assert (preserves restarting (Standalone.ensureDownloadedBinary fuel false))
    as Hinstall.
  { intros env s.
    pose proof (ensureDownloadedBinary_session fuel false env s) as Hs.
    by injection Hs. }
  unfold Standalone.startLanguageClient, Standalone.resolveServerExecutable.
  preserves_with ltac:(apply Hinstall).
Qed.

Lemma restartCommand_run fuel env s id :
  client s = Some id ->
  Standalone.restartCommand fuel env s
  = match Standalone.startLanguageClient fuel env
            (with_restarting false (emits (restart_events env id) s)) with
    | (Ok next, s1) => (Ok tt, with_client (Some next) s1)
    | (Throw error, s1) =>
        (Ok tt,
         emit (EvShowError ("php-cs-fixer-lsp failed to restart: "
                            +:+ errorMessage error)) s1)
    | (Unsettled, s1) => (Unsettled, s1)
    end.
Proof.
  intros Hc. unfold Standalone.restartCommand, assign_restarting. run_async.
  rewrite Hc.
  change Standalone.errorHandler_closed with Extension.errorHandler_closed.
  rewrite settle_run. cbn [restarting emit with_restarting].
  assert (with_restarting false
            (emit (EvSetRestarting false)
               (emit (EvDispose id)
                  (emits (close_events id (stopSettles env id) true)
                     (emit (EvStop id 1000)
                        (with_restarting true
                           (emit (EvSetRestarting true) s))))))
          = with_restarting false (emits (restart_events env id) s)) as Hstopped.
  { unfold restart_events, with_restarting, emits, emit; cbn.
    by rewrite <- !app_assoc. }
  destruct (rejects (stopSettles env id)) as [error|]; rewrite Hstopped;
    by destruct (Standalone.startLanguageClient fuel env _)
      as [[next|caught|] s1].
Qed.

(** X12. The restart command of the standalone file, with a current
    client: the flag is set, the client stopped (a rejected stop is
    swallowed without a trace), disposed without waiting, the flag cleared,
    and only then the next client started; every close notification of the
    stop is reported as handled.  However the restart ends, the flag is
    clear afterwards, and a start that throws is shown to the user and
    leaves the disposed client in the [client] variable. *)
Theorem X12_restart_command env fuel s id :
  client s = Some id ->
  let stopped := with_restarting false (emits (restart_events env id) s) in
  restarting (Standalone.restartCommand fuel env s).2 = false
  /\ closes_handled (restart_events env id)
  /\ (forall next s1,
        Standalone.startLanguageClient fuel env stopped = (Ok next, s1) ->
        Standalone.restartCommand fuel env s
        = (Ok tt, with_client (Some next) s1))
  /\ (forall error s1,
        Standalone.startLanguageClient fuel env stopped = (Throw error, s1) ->
        Standalone.restartCommand fuel env s
        = (Ok tt,
           emit (EvShowError ("php-cs-fixer-lsp failed to restart: "
                              +:+ errorMessage error)) s1)).
Proof.
  intros Hc. cbn zeta. rewrite (restartCommand_run _ _ _ id) by done.
  pose proof (startLanguageClient_restarting fuel env
                (with_restarting false (emits (restart_events env id) s)))
    as Hflag.
  split; [|split; [|split]].
  - destruct (Standalone.startLanguageClient fuel env _) as [[next|error|] s1];
      cbn in *; exact Hflag.
  - intros c result Hin. unfold restart_events in Hin.
    apply elem_of_app in Hin as [Hin|Hin].
    { repeat (apply elem_of_cons in Hin as [Heq|Hin]; [discriminate|]).
      by apply elem_of_nil in Hin. }
    apply elem_of_app in Hin as [Hin|Hin];
      [by apply close_events_handled in Hin|].
    repeat (apply elem_of_cons in Hin as [Heq|Hin]; [discriminate|]).
    by apply elem_of_nil in Hin.
  - intros next s1 Hstart. by rewrite Hstart.
  - intros error s1 Hstart. by rewrite Hstart.
Qed.

Lemma X12_restart_command_witness :
  Standalone.restartCommand 0 configured_env running_state
  = (Ok tt,
     with_client (Some 1%nat)
       (with_fresh 2
          (emits (restart_events configured_env 0
                  ++ [EvNewClient 1 "/usr/local/bin/php-cs-fixer-lsp"
                        ["server"; "--verbose"];
                      EvStart 1])
             running_state)))
  /\ restarting (Standalone.restartCommand 0 configured_env running_state).2
     = false.
Proof.
  destruct (X12_restart_command configured_env 0 running_state 0%nat)
    as (Hflag & _ & Hstart & _); [reflexivity|].
  split; [|exact Hflag].
  rewrite (Hstart 1%nat
             (with_fresh 2
                (emits (restart_events configured_env 0
                        ++ [EvNewClient 1 "/usr/local/bin/php-cs-fixer-lsp"
                              ["server"; "--verbose"];
                            EvStart 1])
                   running_state))); reflexivity.
Defined.

(** ** Installs that resolve *)

Lemma refreshed_resolved refusal tmp exec meta record s run path s' :
  tmp <> exec -> meta <> exec -> meta <> tmp ->
  download_post tmp s run ->
  refreshed refusal tmp exec meta record run = (Ok path, s') ->
  path = exec /\ refusal = None
  /\ (exists f,
        files s' !! exec
        = Some {| content := content f; mode := mode_0o755; closed := true |})
  /\ cached (files s' !! meta) = Some record.
Proof.
  intros Hte Hme Hmt Hpost Hrun.
  destruct (refreshed_cases refusal tmp exec meta record s run Hte Hpost)
    as [(f & es & _ & Hf & Hclosed & Hout & _)|(_ & _ & Hne)].
  - rewrite Hrun in Hout. destruct refusal as [error|]; [done|].
    injection Hout as -> ->. split; [done|]. split; [done|]. split.
    + exists f. rewrite placed_exec by done. by rewrite Hclosed.
    + by rewrite placed_meta.
  - rewrite Hrun in Hne. by destruct (Hne path).
Qed.

(** X15. An install that resolves returns the final path of the binary,
    and a file is there: what the resolvers hand to the language client as
    the server command exists. *)
Theorem X15_resolved_install_has_binary env fuel update force s :
  (forall path s',
     Extension.downloadServerExec fuel update env s = (Ok path, s') ->
     path = Extension.execPath env
     /\ is_Some (files s' !! Extension.execPath env))
  /\ (forall path s',
        Standalone.ensureDownloadedBinary fuel force env s = (Ok path, s') ->
        path = Standalone.binaryPath env
        /\ is_Some (files s' !! Standalone.binaryPath env)).
Proof.
  split; intros path s' Hrun.
  - rewrite downloadServerExec_run in Hrun. cbn zeta in Hrun.
    destruct (negb update && _) eqn:Hearly.
    { injection Hrun as <- <-. split; [done|].
      apply andb_prop in Hearly as [_ Hexists].
      by apply bool_decide_eq_true in Hexists. }
    destruct (Utils.fetchLatestReleaseAsset _ _ _ env _) as [[latest| |] s1];
      try done.
    destruct (tag_is _ _ && _) eqn:Hsame.
    { injection Hrun as <- <-. split; [done|].
      apply andb_prop in Hsame as [_ Hexists].
      by apply bool_decide_eq_true in Hexists. }
    destruct (refreshed_resolved _ _ _ _ _ _ _ _ _
                (Extension_tmp_ne_exec env) (Extension_meta_ne_exec env)
                (Extension_meta_ne_tmp env)
                (Utils_download_post _ _ _ _ _ _) Hrun)
      as (-> & _ & (f & Hf) & _).
    split; [done|]. by rewrite Hf.
  - rewrite ensureDownloadedBinary_run in Hrun. cbn zeta in Hrun.
    destruct (Standalone.fetchLatestRelease fuel env _) as [[latest| |] s1];
      [| |done].
    + destruct (negb force && _ && _) eqn:Hsame.
      { injection Hrun as <- <-. split; [done|].
        apply andb_prop in Hsame as [_ Hexists].
        by apply bool_decide_eq_true in Hexists. }
      destruct (refreshed_resolved _ _ _ _ _ _ _ _ _
                  (Standalone_tmp_ne_binary env) (Standalone_meta_ne_binary env)
                  (Standalone_meta_ne_tmp env)
                  (Standalone_downloadToFile_post _ _ _ _ _ _) Hrun)
        as (-> & _ & (f & Hf) & _).
      split; [done|]. by rewrite Hf.
    + destruct (bool_decide _) eqn:Hexists; [|done].
      injection Hrun as <- <-. split; [done|].
      by apply bool_decide_eq_true in Hexists.
Qed.

(** ** Running an install again *)

Lemma fetchJson_outcome fuel : forall target env s s',
  (Utils.fetchJson fuel target env s).1 = (Utils.fetchJson fuel target env s').1.
Proof.
  induction fuel as [|hops IH]; intros target env s s'; [done|].
  rewrite !fetchJson_step. cbn zeta.
  destruct (net env target Utils.jsonHeaders) as [error|res]; [done|].
  destruct (redirect_target res) as [next|]; [apply IH|].
  unfold json_terminal. destruct (not_200 res); [done|].
  by destruct (parsed res).
Qed.

(** The release lookup asks the network only: its outcome does not depend
    on the program state. *)
Lemma fetchLatestReleaseAsset_outcome fuel repo asset env s s' :
  (Utils.fetchLatestReleaseAsset fuel repo asset env s).1
  = (Utils.fetchLatestReleaseAsset fuel repo asset env s').1.
Proof.
  unfold Utils.fetchLatestReleaseAsset, bind.
  pose proof (fetchJson_outcome fuel
                ("https://api.github.com/repos/" +:+ repo +:+ "/releases/latest")
                env s s') as Hsame.
  destruct (Utils.fetchJson _ _ env s) as [[release| |] s1],
           (Utils.fetchJson _ _ env s') as [[release'| |] s1'];
    cbn in Hsame |- *; try done; [|by injection Hsame as ->].
  injection Hsame as <-. destruct (assets release) as [items|]; [|done].
  by destruct (List.find _ items).
Qed.

Lemma fetchLatestRelease_outcome fuel env s s' :
  (Standalone.fetchLatestRelease fuel env s).1
  = (Standalone.fetchLatestRelease fuel env s').1.
Proof.
  unfold Standalone.fetchLatestRelease, bind. cbn zeta.
  rewrite (getJson_is_fetchJson fuel _ env s),
    (getJson_is_fetchJson fuel _ env s').
  pose proof (fetchJson_outcome fuel
                ("https://api.github.com/repos/" +:+ Standalone.GH_OWNER +:+ "/"
                 +:+ Standalone.GH_REPO +:+ "/releases/latest")
                env s s') as Hsame.
  destruct (Utils.fetchJson _ _ env s) as [[release| |] s1],
           (Utils.fetchJson _ _ env s') as [[release'| |] s1'];
    cbn in Hsame |- *; try done; [|by injection Hsame as ->].
  injection Hsame as <-.
  by destruct (List.find _ (default [] (assets release))).
Qed.

Lemma tag_is_recorded tag stamp :
  tag_is (Some {| meta_tag := tag; downloadedAt := stamp |}) tag = true.
Proof. apply tag_is_true. by eexists. Qed.

(** X16. An install that resolved has settled the storage directory: run
    again on the state it left, without force, ensureDownloadedBinary
    resolves with the same path after the requests of the release lookup
    alone, and downloadServerExec does so with [update = true] after a
    resolved run with [update = true], and at once with [update = false];
    no file changes and no download request is sent. *)
Theorem X16_second_install_is_quiet env fuel s :
  (forall force path s',
     Standalone.ensureDownloadedBinary fuel force env s = (Ok path, s') ->
     exists es,
       Standalone.ensureDownloadedBinary fuel false env s'
       = (Ok path, emits (EvMkdir (Standalone.storageDir env) :: es) s')
       /\ Forall is_json_request es)
  /\ (forall path s',
        Extension.downloadServerExec fuel true env s = (Ok path, s') ->
        exists es,
          Extension.downloadServerExec fuel true env s'
          = (Ok path, emits (EvMkdir (Extension.storageDir env) :: es) s')
          /\ Forall is_json_request es)
  /\ (forall update path s',
        Extension.downloadServerExec fuel update env s = (Ok path, s') ->
        Extension.downloadServerExec fuel false env s'
        = (Ok path, emit (EvMkdir (Extension.storageDir env)) s')).
Proof.
  split; [|split].
  - intros force path s' Hrun.
    destruct (fetchLatestRelease_only_requests fuel env
                (emit (EvMkdir (Standalone.storageDir env)) s'))
      as (es & Hs1' & Hes).
    exists es. split; [|done].
    pose proof (fetchLatestRelease_outcome fuel env
                  (emit (EvMkdir (Standalone.storageDir env)) s)
                  (emit (EvMkdir (Standalone.storageDir env)) s')) as Hsame.
    rewrite (ensureDownloadedBinary_run fuel false env s'). cbn zeta.
    rewrite ensureDownloadedBinary_run in Hrun. cbn zeta in Hrun.
    destruct (fetchLatestRelease_only_requests fuel env
                (emit (EvMkdir (Standalone.storageDir env)) s))
      as (es0 & Hs1 & _).
    destruct (Standalone.fetchLatestRelease fuel env
                (emit (EvMkdir (Standalone.storageDir env)) s))
      as [[latest| |] s1],
      (Standalone.fetchLatestRelease fuel env
         (emit (EvMkdir (Standalone.storageDir env)) s'))
      as [[latest'| |] s1'];
      cbn in Hsame, Hs1, Hs1'; try done; subst s1 s1'.
    + injection Hsame as <-. cbn [negb andb files emits emit].
      rewrite emit_emits.
      destruct (negb force && _ && _) eqn:Hkept.
      * injection Hrun as <- <-. cbn [files emits emit].
        apply andb_prop in Hkept as [Hkept Hexists].
        apply andb_prop in Hkept as [_ Htag].
        cbn [files emits emit] in Hexists. by rewrite Htag, Hexists.
      * destruct (refreshed_resolved _ _ _ _ _ _ _ _ _
                    (Standalone_tmp_ne_binary env)
                    (Standalone_meta_ne_binary env)
                    (Standalone_meta_ne_tmp env)
                    (Standalone_downloadToFile_post _ _ _ _ _ _) Hrun)
          as (-> & _ & (f & Hf) & Hmeta).
        rewrite Hmeta, Hf. rewrite tag_is_recorded.
        by rewrite bool_decide_eq_true_2 by eauto.
    + injection Hsame as <-. cbn [files emits emit] in *.
      rewrite emit_emits.
      destruct (bool_decide (is_Some (files s !! Standalone.binaryPath env)))
        eqn:Hexists; [|done].
      injection Hrun as <- <-. cbn [files emits emit]. by rewrite Hexists.
  - intros path s' Hrun.
    destruct (fetchLatestReleaseAsset_only_requests fuel Extension.SERVER_REPO
                Extension.SERVER_ASSET env
                (emit (EvMkdir (Extension.storageDir env)) s'))
      as (es & Hs1' & Hes).
    exists es. split; [|done].
    pose proof (fetchLatestReleaseAsset_outcome fuel Extension.SERVER_REPO
                  Extension.SERVER_ASSET env
                  (emit (EvMkdir (Extension.storageDir env)) s)
                  (emit (EvMkdir (Extension.storageDir env)) s')) as Hsame.
    rewrite (downloadServerExec_run fuel true env s'). cbn zeta.
    rewrite downloadServerExec_run in Hrun. cbn zeta in Hrun.
    cbn [negb andb] in *.
    destruct (fetchLatestReleaseAsset_only_requests fuel Extension.SERVER_REPO
                Extension.SERVER_ASSET env
                (emit (EvMkdir (Extension.storageDir env)) s))
      as (es0 & Hs1 & _).
    destruct (Utils.fetchLatestReleaseAsset fuel Extension.SERVER_REPO
                Extension.SERVER_ASSET env
                (emit (EvMkdir (Extension.storageDir env)) s))
      as [[latest| |] s1],
      (Utils.fetchLatestReleaseAsset fuel Extension.SERVER_REPO
         Extension.SERVER_ASSET env
         (emit (EvMkdir (Extension.storageDir env)) s'))
      as [[latest'| |] s1'];
      cbn in Hsame, Hs1, Hs1'; try done; subst s1 s1'.
    injection Hsame as <-. cbn [files emits emit]. rewrite emit_emits.
    destruct (tag_is _ _ && _) eqn:Hkept.
    + injection Hrun as <- <-. cbn [files emits emit].
      apply andb_prop in Hkept as [Htag Hexists].
      cbn [files emits emit] in Hexists. by rewrite Htag, Hexists.
    + destruct (refreshed_resolved _ _ _ _ _ _ _ _ _
                  (Extension_tmp_ne_exec env) (Extension_meta_ne_exec env)
                  (Extension_meta_ne_tmp env)
                  (Utils_download_post _ _ _ _ _ _) Hrun)
        as (-> & _ & (f & Hf) & Hmeta).
      rewrite Hmeta, Hf. rewrite tag_is_recorded.
      by rewrite bool_decide_eq_true_2 by eauto.
  - intros update path s' Hrun.
    assert (path = Extension.execPath env
            /\ is_Some (files s' !! Extension.execPath env)) as [-> Hexists].
    { rewrite downloadServerExec_run in Hrun. cbn zeta in Hrun.
      destruct (negb update && _) eqn:Hearly.
      { injection Hrun as <- <-. split; [done|].
        apply andb_prop in Hearly as [_ Hexists].
        by apply bool_decide_eq_true in Hexists. }
      destruct (Utils.fetchLatestReleaseAsset _ _ _ env _) as [[latest| |] s1];
        try done.
      destruct (tag_is _ _ && _) eqn:Hsame.
      { injection Hrun as <- <-. split; [done|].
        apply andb_prop in Hsame as [_ Hexists].
        by apply bool_decide_eq_true in Hexists. }
      destruct (refreshed_resolved _ _ _ _ _ _ _ _ _
                  (Extension_tmp_ne_exec env) (Extension_meta_ne_exec env)
                  (Extension_meta_ne_tmp env)
                  (Utils_download_post _ _ _ _ _ _) Hrun)
        as (-> & _ & (f & Hf) & _).
      split; [done|]. by rewrite Hf. }
    rewrite downloadServerExec_run. cbn zeta. cbn [negb andb].
    by rewrite (bool_decide_eq_true_2 _ Hexists).
Qed.

Lemma X15_resolved_install_has_binary_witness :
  is_Some (files (Extension.downloadServerExec 3 true sample_env empty_state).2
           !! Extension.execPath sample_env)
  /\ is_Some (files (Standalone.ensureDownloadedBinary 3 false sample_env
                       empty_state).2
              !! Standalone.binaryPath sample_env).
Proof.
  destruct (X15_resolved_install_has_binary sample_env 3 true false empty_state)
    as [Hclass Hstandalone].
  split.
  - apply (Hclass (Extension.execPath sample_env)). vm_compute. reflexivity.
  - apply (Hstandalone (Standalone.binaryPath sample_env)).
    vm_compute. reflexivity.
Defined.

Lemma X16_second_install_is_quiet_witness :
  exists es,
    Standalone.ensureDownloadedBinary 3 false sample_env
      (Standalone.ensureDownloadedBinary 3 false sample_env
         (installed_state "v1.1.0")).2
    = (Ok (Standalone.binaryPath sample_env),
       emits (EvMkdir (Standalone.storageDir sample_env) :: es)
         (Standalone.ensureDownloadedBinary 3 false sample_env
            (installed_state "v1.1.0")).2)
    /\ Forall is_json_request es.
Proof.
  destruct (X16_second_install_is_quiet sample_env 3 (installed_state "v1.1.0"))
    as [Hstandalone _].
  apply (Hstandalone false). vm_compute. reflexivity.
Defined.

(** ** The sidecar file *)


